(** * Navign robot vision service: a shallow embedding and its properties

    The development follows [robot/vision]: the projective geometry of
    [coordinate_transform.cpp], the marker pose wrapper of
    [apriltag_detector.cpp], and the lifecycle, pacing and status code of
    [vision_service.cpp] together with the argument parsing of [main.cpp].

    Arithmetic on C++ [double] is written against a small interface
    ([Scalar]) with two instances: IEEE binary64 (primitive floats), on which
    the code can be run as it is, and the real numbers, on which the
    algebraic identities of the geometry are proved. *)

From Stdlib Require Import Floats Uint63 ZArith Reals Lra Lia List String Ascii Bool.
Import ListNotations.

Set Implicit Arguments.

(** ** Scalars *)

(** The operations the sources apply to [double] values.  [lit_1e_6] is the
    literal [1e-6]; [to_float] is [static_cast<float>]; [of_int] converts an
    integer value to floating point. *)
Class Scalar (T : Type) : Type := {
  lit0 : T;
  lit1 : T;
  lit_1e_6 : T;
  add : T -> T -> T;
  sub : T -> T -> T;
  mul : T -> T -> T;
  div : T -> T -> T;
  neg : T -> T;
  fabs : T -> T;
  fsqrt : T -> T;
  flt : T -> T -> bool;
  to_float : T -> T;
  of_int : Z -> T
}.

Declare Scope scalar_scope.
Delimit Scope scalar_scope with sc.
Notation "x + y" := (add x y) : scalar_scope.
Notation "x - y" := (sub x y) : scalar_scope.
Notation "x * y" := (mul x y) : scalar_scope.
Notation "x / y" := (div x y) : scalar_scope.
Notation "- x" := (neg x) : scalar_scope.
Notation "x <? y" := (flt x y) : scalar_scope.

(** Rounding of a binary64 value to binary32 (round to nearest, ties to
    even), the result again held in a binary64. *)
Definition round_to_binary32 (x : float) : float :=
  match Prim2SF x with
  | S754_finite s m e =>
      match binary_normalize 24 128 (cond_Zopp s (Zpos m)) e s with
      | S754_finite s' m' e' =>
          SF2Prim (binary_normalize 53 1024 (cond_Zopp s' (Zpos m')) e' s')
      | S754_zero s' => SF2Prim (S754_zero s')
      | S754_infinity s' => SF2Prim (S754_infinity s')
      | S754_nan => nan
      end
  | _ => x
  end.

(** Conversion of an integer of magnitude below [2^63] to binary64. *)
Definition binary64_of_Z (z : Z) : float :=
  match z with
  | Z0 => 0%float
  | Zpos _ => PrimFloat.of_uint63 (Uint63.of_Z z)
  | Zneg p => PrimFloat.opp (PrimFloat.of_uint63 (Uint63.of_Z (Zpos p)))
  end.

#[export] Instance Scalar_binary64 : Scalar float := {|
  lit0 := 0%float;
  lit1 := 1%float;
  lit_1e_6 := 0x1.0c6f7a0b5ed8dp-20%float;
  add := PrimFloat.add;
  sub := PrimFloat.sub;
  mul := PrimFloat.mul;
  div := PrimFloat.div;
  neg := PrimFloat.opp;
  fabs := PrimFloat.abs;
  fsqrt := PrimFloat.sqrt;
  flt := PrimFloat.ltb;
  to_float := round_to_binary32;
  of_int := binary64_of_Z
|}.

Definition Rltb (x y : R) : bool := if Rlt_dec x y then true else false.

#[export] Instance Scalar_real : Scalar R := {|
  lit0 := 0%R;
  lit1 := 1%R;
  lit_1e_6 := (1 / 1000000)%R;
  add := Rplus;
  sub := Rminus;
  mul := Rmult;
  div := Rdiv;
  neg := Ropp;
  fabs := Rabs;
  fsqrt := sqrt;
  flt := Rltb;
  to_float := fun x => x;
  of_int := IZR
|}.

(** A decimal literal [n / d] with [n] and [d] exactly representable: its
    value is the correctly rounded quotient. *)
Definition decimal {T : Type} `{Scalar T} (n d : Z) : T :=
  div (of_int n) (of_int d).

(** ** Points, vectors and matrices

    [cv::Point2f], [cv::Point3d], and the 3x1 and 3x3 [cv::Mat] values of
    doubles that the transform stores and multiplies. *)

Record Point2 (T : Type) : Type := mkPoint2 { px : T; py : T }.
Record Point3 (T : Type) : Type := mkPoint3 { x3 : T; y3 : T; z3 : T }.

Record Mat33 (T : Type) : Type := mkMat33 {
  m00 : T; m01 : T; m02 : T;
  m10 : T; m11 : T; m12 : T;
  m20 : T; m21 : T; m22 : T
}.

Section LinearAlgebra.
Context {T : Type} `{Scalar T}.
Local Open Scope scalar_scope.

(** [cv::Point3d::dot] *)
Definition dot (a b : Point3 T) : T :=
  x3 a * x3 b + y3 a * y3 b + z3 a * z3 b.

(** [a - b] on [cv::Point3d], and on 3x1 matrices *)
Definition vsub (a b : Point3 T) : Point3 T :=
  mkPoint3 (x3 a - x3 b) (y3 a - y3 b) (z3 a - z3 b).

Definition vneg (a : Point3 T) : Point3 T :=
  mkPoint3 (- x3 a) (- y3 a) (- z3 a).

(** [M.t()] *)
Definition transpose (m : Mat33 T) : Mat33 T :=
  mkMat33 (m00 m) (m10 m) (m20 m)
          (m01 m) (m11 m) (m21 m)
          (m02 m) (m12 m) (m22 m).

(** [M * v] for a 3x3 matrix and a 3x1 matrix *)
Definition mat_vec (m : Mat33 T) (v : Point3 T) : Point3 T :=
  mkPoint3 (m00 m * x3 v + m01 m * y3 v + m02 m * z3 v)
           (m10 m * x3 v + m11 m * y3 v + m12 m * z3 v)
           (m20 m * x3 v + m21 m * y3 v + m22 m * z3 v).

(** [cv::norm] of a 3x1 matrix (L2) *)
Definition cv_norm (v : Point3 T) : T :=
  fsqrt (x3 v * x3 v + y3 v * y3 v + z3 v * z3 v).

(** [v /= s]: every entry divided by [s].  (OpenCV may scale by the
    reciprocal instead; nothing proved below tells the two apart.) *)
Definition vdiv (v : Point3 T) (s : T) : Point3 T :=
  mkPoint3 (x3 v / s) (y3 v / s) (z3 v / s).

(** [A * B] for 3x3 matrices *)
Definition mat_mul (a b : Mat33 T) : Mat33 T :=
  mkMat33
  (m00 a * m00 b + m01 a * m10 b + m02 a * m20 b)
  (m00 a * m01 b + m01 a * m11 b + m02 a * m21 b)
  (m00 a * m02 b + m01 a * m12 b + m02 a * m22 b)
  (m10 a * m00 b + m11 a * m10 b + m12 a * m20 b)
  (m10 a * m01 b + m11 a * m11 b + m12 a * m21 b)
  (m10 a * m02 b + m11 a * m12 b + m12 a * m22 b)
  (m20 a * m00 b + m21 a * m10 b + m22 a * m20 b)
  (m20 a * m01 b + m21 a * m11 b + m22 a * m21 b)
  (m20 a * m02 b + m21 a * m12 b + m22 a * m22 b).

Definition zero3 : Point3 T := mkPoint3 lit0 lit0 lit0.
Definition zero2 : Point2 T := mkPoint2 lit0 lit0.
Definition zero33 : Mat33 T :=
  mkMat33 lit0 lit0 lit0 lit0 lit0 lit0 lit0 lit0 lit0.
Definition identity33 : Mat33 T :=
  mkMat33 lit1 lit0 lit0 lit0 lit1 lit0 lit0 lit0 lit1.
End LinearAlgebra.

(** ** coordinate_transform.cpp *)

Module CoordinateTransform.
Section WithScalar.
Context {T : Type} `{Scalar T}.
Local Open Scope scalar_scope.

(** [cv::undistortPoints] belongs to OpenCV, not to this repository: it is
    a parameter here.  It maps a pixel to normalised
    camera-frame coordinates given the camera matrix and the distortion
    coefficients. *)
Variable undistortPoints : Mat33 T -> list T -> Point2 T -> Point2 T.

(** The private members of [class CoordinateTransform].  An unset
    [cv::Mat] is never read (the two flags guard every use); it is
    represented by a zero matrix. *)
Record t : Type := mk {
  camera_matrix_ : Mat33 T;
  dist_coeffs_ : list T;
  rotation_ : Mat33 T;
  translation_ : Point3 T;
  has_calibration_ : bool;
  has_pose_ : bool
}.

(** [CoordinateTransform() = default] *)
Definition init : t := mk zero33 [] zero33 zero3 false false.

Definition setCalibration (ct : t) (camera_matrix : Mat33 T)
    (dist_coeffs : list T) : t :=
  mk camera_matrix dist_coeffs (rotation_ ct) (translation_ ct)
     true (has_pose_ ct).

Definition setCameraPose (ct : t) (rotation : Mat33 T)
    (translation : Point3 T) : t :=
  mk (camera_matrix_ ct) (dist_coeffs_ ct) rotation translation
     (has_calibration_ ct) true.

Definition isCalibrated (ct : t) : bool := has_calibration_ ct.
Definition hasPose (ct : t) : bool := has_pose_ ct.

(** The normalised world-frame ray through a pixel (steps 1 to 3 of
    [imageToWorld], and the body of [getRayDirection]). *)
Definition ray_world_of (ct : t) (image_point : Point2 T) : Point3 T :=
  let normalized :=
    undistortPoints (camera_matrix_ ct) (dist_coeffs_ ct) image_point in
  let ray_camera := mkPoint3 (px normalized) (py normalized) lit1 in
  let ray_world := mat_vec (rotation_ ct) ray_camera in
  let norm := cv_norm ray_world in
  vdiv ray_world norm.

(** [-rotation_.t() * translation_]: the camera position that
    [imageToWorld] and [getCameraPosition] use. *)
Definition cam_pos_world_of (ct : t) : Point3 T :=
  vneg (mat_vec (transpose (rotation_ ct)) (translation_ ct)).

(** [imageToWorld]: the returned point and the lines written to
    [std::cerr]. *)
Definition imageToWorld (ct : t) (image_point : Point2 T) (z_plane : T)
    : Point3 T * list string :=
  if negb (has_calibration_ ct) || negb (has_pose_ ct) then
    (zero3, ["Missing calibration or pose information"%string])
  else
    let ray_world := ray_world_of ct image_point in
    let cam_pos_world := cam_pos_world_of ct in
    let cam_z := z3 cam_pos_world in
    let ray_z := z3 ray_world in
    if fabs ray_z <? lit_1e_6 then
      (zero3, ["Ray is parallel to ground plane"%string])
    else
      let t := (z_plane - cam_z) / ray_z in
      if t <? lit0 then
        (zero3, ["Intersection behind camera"%string])
      else
        (mkPoint3 (x3 cam_pos_world + t * x3 ray_world)
                  (y3 cam_pos_world + t * y3 ray_world)
                  z_plane,
         []).

(** [rotation_.t() * (world_pt - translation_)]: the camera-frame
    coordinates that [worldToImage] divides. *)
Definition camera_pt_of (ct : t) (world_point : Point3 T) : Point3 T :=
  mat_vec (transpose (rotation_ ct)) (vsub world_point (translation_ ct)).

(** [worldToImage]: the returned pixel and the lines written to
    [std::cerr]. *)
Definition worldToImage (ct : t) (world_point : Point3 T)
    : Point2 T * list string :=
  if negb (has_calibration_ ct) || negb (has_pose_ ct) then
    (zero2, ["Missing calibration or pose information"%string])
  else
    let camera_pt := camera_pt_of ct world_point in
    let x := x3 camera_pt / z3 camera_pt in
    let y := y3 camera_pt / z3 camera_pt in
    let fx := m00 (camera_matrix_ ct) in
    let fy := m11 (camera_matrix_ ct) in
    let cx := m02 (camera_matrix_ ct) in
    let cy := m12 (camera_matrix_ ct) in
    (mkPoint2 (to_float (fx * x + cx)) (to_float (fy * y + cy)), []).

Definition getRayDirection (ct : t) (image_point : Point2 T) : Point3 T :=
  if negb (has_calibration_ ct) || negb (has_pose_ ct) then zero3
  else ray_world_of ct image_point.

(** [intersectRayPlane] (static): [std::nullopt] is [None]. *)
Definition intersectRayPlane (ray_origin ray_direction plane_normal
    plane_point : Point3 T) : option (Point3 T) :=
  let denominator := dot ray_direction plane_normal in
  if fabs denominator <? lit_1e_6 then None
  else
    let diff := vsub plane_point ray_origin in
    let t := dot diff plane_normal / denominator in
    if t <? lit0 then None
    else
      Some (mkPoint3 (x3 ray_origin + t * x3 ray_direction)
                     (y3 ray_origin + t * y3 ray_direction)
                     (z3 ray_origin + t * z3 ray_direction)).

Definition getCameraPosition (ct : t) : Point3 T :=
  if negb (has_pose_ ct) then zero3 else cam_pos_world_of ct.

End WithScalar.

(** With empty distortion coefficients [cv::undistortPoints] only removes
    the intrinsics: it returns [((u - cx) / fx, (v - cy) / fy)], stored in
    a [cv::Point2f].  This instance of the parameter is the one used
    wherever the code is run on concrete inputs. *)
Definition pinhole_normalize {T : Type} `{Scalar T} (camera_matrix : Mat33 T)
    (dist_coeffs : list T) (p : Point2 T) : Point2 T :=
  mkPoint2
    (to_float (div (sub (px p) (m02 camera_matrix)) (m00 camera_matrix)))
    (to_float (div (sub (py p) (m12 camera_matrix)) (m11 camera_matrix))).

End CoordinateTransform.


(** ** apriltag_detector.cpp *)

Module AprilTagDetector.
Section WithScalar.
Context {T : Type} `{Scalar T}.
Local Open Scope scalar_scope.

(** The fields of the apriltag library's [apriltag_detection_t] that the
    wrapper reads: [id], [hamming], [decision_margin], the centre [c] and
    the four corners [p]. *)
Record apriltag_detection : Type := mkDetection {
  id : Z;
  hamming : Z;
  decision_margin : T;
  c : Point2 T;
  p0 : Point2 T;
  p1 : Point2 T;
  p2 : Point2 T;
  p3 : Point2 T
}.

(** [apriltag_detection_info_t] *)
Record apriltag_detection_info : Type := mkInfo {
  det : apriltag_detection;
  tagsize : T;
  fx : T;
  fy : T;
  cx : T;
  cy : T
}.

(** [apriltag_pose_t]: the matrices [R] (3x3) and [t] (3x1). *)
Record apriltag_pose : Type := mkPose {
  pose_R : Mat33 T;
  pose_t : Point3 T
}.

(** The settings held in [detector_]. *)
Record detector : Type := mkDetector {
  quad_decimate : T;
  quad_sigma : T;
  nthreads : Z;
  refine_edges : Z;
  decode_sharpening : T
}.

(** [struct AprilTagResult].  An empty [cv::Mat] is [None]. *)
Record AprilTagResult : Type := mkResult {
  tag_id : Z;
  center : Point2 T;
  corners : list (Point2 T);
  result_decision_margin : T;
  hamming_distance : Z;
  pose_valid : bool;
  rotation : option (Mat33 T);
  translation : option (Point3 T);
  position : Point3 T
}.

(** What the wrapper calls and does not define: the image type of OpenCV
    with [channels()] and [cv::cvtColor(.., COLOR_BGR2GRAY)], and the
    apriltag library's [apriltag_detector_detect] and [estimate_tag_pose]
    (which returns an error figure and fills a pose). *)
Variable Image : Type.
Variable channels : Image -> Z.
Variable cvtColor_BGR2GRAY : Image -> Image.
Variable apriltag_detector_detect : detector -> Image -> list apriltag_detection.
Variable estimate_tag_pose : apriltag_detection_info -> T * apriltag_pose.

(** [uint32_t] arithmetic *)
Definition wrap32 (z : Z) : Z := z mod 2 ^ 32.

(** The constructor: a detector with the default settings. *)
Definition init : detector :=
  mkDetector (decimal 2 1) (decimal 0 1) 4 1 (decimal 25 100).

(** [estimatePose]: the value returned and [result] after the call.  The
    detection [zarray_get(detections, idx, &det)] is passed directly. *)
Definition estimatePose (d : apriltag_detection) (camera_matrix : Mat33 T)
    (tag_size : T) (result : AprilTagResult) : bool * AprilTagResult :=
  let info := mkInfo d tag_size (m00 camera_matrix) (m11 camera_matrix)
                     (m02 camera_matrix) (m12 camera_matrix) in
  let '(err, pose) := estimate_tag_pose info in
  let rotation' := pose_R pose in
  let translation' := pose_t pose in
  (true,
   mkResult (tag_id result) (center result) (corners result)
            (result_decision_margin result) (hamming_distance result)
            (pose_valid result)
            (Some rotation') (Some translation')
            (mkPoint3 (x3 translation') (y3 translation') (z3 translation'))).

(** The body of the loop over detections in [detect]. *)
Definition process_detection (camera_matrix : option (Mat33 T))
    (tag_size : T) (d : apriltag_detection) : AprilTagResult :=
  let result :=
    mkResult (wrap32 (id d)) (mkPoint2 (px (c d)) (py (c d)))
             [p0 d; p1 d; p2 d; p3 d]
             (decision_margin d) (hamming d)
             false None None zero3 in
  match camera_matrix with
  | Some k =>
      let '(ok, r) := estimatePose d k tag_size result in
      mkResult (tag_id r) (center r) (corners r) (result_decision_margin r)
               (hamming_distance r) ok (rotation r) (translation r)
               (position r)
  | None => result
  end.

(** [detect]: [camera_matrix] is [None] when the matrix is empty. *)
Definition detect (dt : detector) (image : Image)
    (camera_matrix : option (Mat33 T)) (dist_coeffs : list T) (tag_size : T)
    : list AprilTagResult :=
  let gray :=
    if (channels image =? 3)%Z then cvtColor_BGR2GRAY image else image in
  let detections := apriltag_detector_detect dt gray in
  map (process_detection camera_matrix tag_size) detections.

End WithScalar.
End AprilTagDetector.

(** ** Output *)


(** What is streamed to [std::cout] / [std::cerr]: string literals and
    the values put between them. *)
Inductive Part (T : Type) : Type :=
| Str (s : string)
| Int (z : Z)
| Dbl (d : T).
Arguments Str {T} s.
Arguments Int {T} z.

(** The observable actions of the service: a line on [std::cout], a line
    on [std::cerr], and [std::this_thread::sleep_for] with its duration in
    milliseconds. *)
Inductive Action (T : Type) : Type :=
| Cout (line : list (Part T))
| Cerr (line : list (Part T))
| Sleep (ms : Z).
Arguments Sleep {T} ms.

(** [cv::Size] *)
Record Size : Type := mkSize { width : Z; height : Z }.

(** [0, 1, ..., n - 1], the values of a loop [for (int i = 0; i < n; i++)]. *)
Definition range (n : Z) : list Z := map Z.of_nat (seq 0 (Z.to_nat n)).


(** ** object_detector.cpp *)

(** [cv::Rect] *)
Record Rect : Type := mkRect {
  rect_x : Z;
  rect_y : Z;
  rect_width : Z;
  rect_height : Z
}.

Module ObjectDetector.
Section WithScalar.
Context {T : Type} `{Scalar T}.
Local Open Scope Z_scope.

(** [struct DetectedObject] *)
Record DetectedObject : Type := mkObject {
  object_id : Z;
  class_name : string;
  confidence : T;
  bbox : Rect;
  center : Point2 T;
  has_3d : bool;
  world_position : Point3 T;
  distance_meters : T
}.

(** The members of [class ObjectDetector], for a build without
    [USE_ONNXRUNTIME]: [net_loaded] is [!net_.empty()]. *)
Record t : Type := mk {
  net_loaded : bool;
  class_names_ : list string;
  input_size_ : Size;
  use_onnx_ : bool
}.

Definition init : t := mk false [] (mkSize 640 640) false.

(** What [cv::dnn::readNetFromONNX] does on a model file: it returns a
    net, empty or not, or it throws. *)
Inductive NetRead : Type :=
| NetReturned (empty : bool)
| NetThrew (what : string).

(** [loadModel] *)
Definition loadModel (st : t) (model_path : string) (read : NetRead)
    : bool * t * list (Action T) :=
  match read with
  | NetReturned empty =>
      let st := mk (negb empty) (class_names_ st) (input_size_ st)
                   (use_onnx_ st) in
      if empty then
        (false, st, [Cerr [Str "Failed to load model: "; Str model_path]])
      else
        (true, st, [Cout [Str "OpenCV DNN model loaded: "; Str model_path]])
  | NetThrew what =>
      (false, st, [Cerr [Str "OpenCV error: "; Str what]])
  end.

(** [loadClassNames]: [lines] are the lines of the file, [None] when it
    does not open. *)
Definition loadClassNames (st : t) (names_file : string)
    (lines : option (list string)) : bool * t * list (Action T) :=
  match lines with
  | None =>
      (false, st,
       [Cerr [Str "Failed to open class names file: "; Str names_file]])
  | Some lines =>
      let names := class_names_ st ++ lines in
      (true, mk (net_loaded st) names (input_size_ st) (use_onnx_ st),
       [Cout [Str "Loaded "; Int (Z.of_nat (List.length names));
              Str " class names"]])
  end.

(** [getClassName] *)
Definition getClassName (st : t) (class_id : Z) : string :=
  if (0 <=? class_id) && (class_id <? Z.of_nat (List.length (class_names_ st)))
  then nth (Z.to_nat class_id) (class_names_ st) "Unknown"%string
  else "Unknown"%string.

(** One output of the network: [size[1]], [size[2]] and the buffer of
    [float] behind [data].  A read outside the buffer has no defined
    value in C++; [lit0] stands in for it. *)
Record Output : Type := mkOutput {
  size1 : Z;
  size2 : Z;
  data : list T
}.

Definition at_index (buffer : list T) (i : Z) : T :=
  nth (Z.to_nat i) buffer lit0.

(** What the file calls and does not define: the image with [cols] and
    [rows], the forward pass of the network on the blob of an image,
    [cv::dnn::NMSBoxes] (the indices it keeps), and
    [static_cast<int>] on a [float]. *)
Variable Image : Type.
Variable cols : Image -> Z.
Variable rows : Image -> Z.
Variable forward : Image -> Size -> list Output.
Variable NMSBoxes : list Rect -> list T -> T -> T -> list Z.
Variable to_int : T -> Z.

(** The loop over the class scores of one detection: [max_conf] and
    [max_class_id] after it. *)
Definition best_class (detection : Z -> T) (num_classes : Z) : T * Z :=
  fold_left
    (fun (best : T * Z) (j : Z) =>
       let conf := detection (4 + j) in
       if flt (fst best) conf then (conf, j) else best)
    (range num_classes) (lit0, 0).

(** [x / 2.0f] on [float] *)
Definition half (x : T) : T := to_float (div x (of_int 2)).

(** The box of a detection that passed the threshold. *)
Definition box_of (st : t) (image : Image) (detection : Z -> T) : Rect :=
  let cx := detection 0 in
  let cy := detection 1 in
  let w := detection 2 in
  let h := detection 3 in
  let scale_x :=
    to_float (div (to_float (of_int (cols image)))
                  (to_float (of_int (width (input_size_ st))))) in
  let scale_y :=
    to_float (div (to_float (of_int (rows image)))
                  (to_float (of_int (height (input_size_ st))))) in
  mkRect (to_int (to_float (mul (to_float (sub cx (half w))) scale_x)))
         (to_int (to_float (mul (to_float (sub cy (half h))) scale_y)))
         (to_int (to_float (mul w scale_x)))
         (to_int (to_float (mul h scale_y))).

(** The three vectors [boxes], [confidences] and [class_ids], kept
    together: one entry per detection that passed the threshold. *)
Definition Candidate : Type := (Rect * T * Z)%type.

(** The detections of one output that pass the threshold. *)
Definition candidates_of (st : t) (image : Image) (conf_threshold : T)
    (output : Output) : list Candidate :=
  let num_detections := size1 output in
  let num_classes := size2 output - 4 in
  flat_map (fun i =>
    let detection := fun k => at_index (data output)
                                (i * (4 + num_classes) + k) in
    let '(max_conf, max_class_id) := best_class detection num_classes in
    if flt conf_threshold max_conf then
      [(box_of st image detection, max_conf, max_class_id)]
    else [])
    (range num_detections).

(** The final loop of [postprocess] over the indices kept. *)
Fixpoint results_of (st : t) (candidates : list Candidate)
    (indices : list Z) (results : list DetectedObject)
    : list DetectedObject :=
  match indices with
  | [] => results
  | idx :: rest =>
      let '(box, conf, class_id) :=
        nth (Z.to_nat idx) candidates (mkRect 0 0 0 0, lit0, 0) in
      let obj :=
        mkObject (Z.of_nat (List.length results) mod 2 ^ 32)
          (getClassName st class_id) conf box
          (mkPoint2
             (to_float (add (to_float (of_int (rect_x box)))
                            (half (to_float (of_int (rect_width box))))))
             (to_float (add (to_float (of_int (rect_y box)))
                            (half (to_float (of_int (rect_height box)))))))
          false zero3 lit0 in
      results_of st candidates rest (results ++ [obj])
  end.

(** [postprocess] *)
Definition postprocess (st : t) (outputs : list Output) (image : Image)
    (conf_threshold nms_threshold : T) : list DetectedObject :=
  let candidates :=
    flat_map (candidates_of st image conf_threshold) outputs in
  let boxes := map (fun c => fst (fst c)) candidates in
  let confidences := map (fun c => snd (fst c)) candidates in
  let indices := NMSBoxes boxes confidences conf_threshold nms_threshold in
  results_of st candidates indices [].

(** [detect]: the objects returned and what was printed. *)
Definition detect (st : t) (image : Image)
    (confidence_threshold nms_threshold : T)
    : list DetectedObject * list (Action T) :=
  if negb (net_loaded st) && negb (use_onnx_ st) then
    ([], [Cerr [Str "Model not loaded"]])
  else
    (postprocess st (forward image (input_size_ st)) image
       confidence_threshold nms_threshold,
     []).

End WithScalar.
End ObjectDetector.


(** ** vision_service.cpp *)

Module VisionService.
Section WithScalar.
Context {T : Type} `{Scalar T}.
Local Open Scope Z_scope.

Variable Image : Type.
Variable channels : Image -> Z.
Variable cvtColor_BGR2GRAY : Image -> Image.
Variable apriltag_detector_detect :
  AprilTagDetector.detector (T:=T) -> Image ->
  list (AprilTagDetector.apriltag_detection (T:=T)).
Variable estimate_tag_pose :
  AprilTagDetector.apriltag_detection_info (T:=T) ->
  T * AprilTagDetector.apriltag_pose (T:=T).

Definition wrap32 (z : Z) : Z := z mod 2 ^ 32.

(** [CalibrationData] as far as the service reads it: [is_valid],
    [camera_matrix] ([None] when empty) and [dist_coeffs]. *)
Record CameraCalibration : Type := mkCalibration {
  is_valid : bool;
  calib_camera_matrix : option (Mat33 T);
  calib_dist_coeffs : list T
}.

(** [struct DetectedObject] as far as the loop reads it. *)
Record DetectedObject : Type := mkObject {
  class_name : string;
  confidence : T;
  object_center : Point2 T
}.

(** The members of [class VisionService].  [camera_opened] is
    [camera_.isOpened()], [thread_joinable] is
    [processing_thread_.joinable()]. *)
Record t : Type := mk {
  camera_opened : bool;
  camera_index_ : Z;
  target_fps_ : Z;
  apriltag_detector_ : AprilTagDetector.detector (T:=T);
  object_detector_ : ObjectDetector.t;
  camera_calibration_ : CameraCalibration;
  coordinate_transform_ : CoordinateTransform.t (T:=T);
  running_ : bool;
  thread_joinable : bool;
  frame_count_ : Z;
  apriltag_size_ : T;
  total_frames_processed_ : Z;
  total_tags_detected_ : Z;
  total_objects_detected_ : Z
}.

(** The outcome of [cv::FileStorage] on "calibration.yml": the file does
    not open, or it opens and holds a (possibly empty) camera matrix and
    the distortion coefficients. *)
Inductive CalibrationFile : Type :=
| NoFile
| FileWith (camera_matrix : option (Mat33 T)) (dist_coeffs : list T).

(** What the outside world answers during one call of [start]: whether
    the camera opens, the calibration file, what
    [cv::dnn::readNetFromONNX] does on "yolov8n.onnx", and the lines of
    "coco.names" ([None] when it does not open). *)
Record StartEnv : Type := mkStartEnv {
  camera_opens : bool;
  calibration_file : CalibrationFile;
  model_read : ObjectDetector.NetRead;
  class_names_file : option (list string)
}.

(** What [loadModel] and [loadClassNames] return in an environment. *)
Definition model_loads (env : StartEnv) : bool :=
  fst (fst (ObjectDetector.loadModel (T:=T) ObjectDetector.init
              "yolov8n.onnx" (model_read env))).

Definition class_names_load (env : StartEnv) : bool :=
  fst (fst (ObjectDetector.loadClassNames (T:=T) ObjectDetector.init
              "coco.names" (class_names_file env))).

(** [CameraCalibration::load] *)
Definition load (cal : CameraCalibration) (file : CalibrationFile)
    (filename : string) : bool * CameraCalibration * list (Action T) :=
  match file with
  | NoFile =>
      (false, cal,
       [Cerr [Str "Failed to open calibration file: "; Str filename]])
  | FileWith camera_matrix dist_coeffs =>
      let valid :=
        match camera_matrix with Some _ => true | None => false end in
      (valid, mkCalibration valid camera_matrix dist_coeffs,
       if valid then [Cout [Str "Calibration loaded from: "; Str filename]]
       else [])
  end.

(** [initializeZenoh] *)
Definition initializeZenoh : bool * list (Action T) :=
  (false, [Cout [Str "Zenoh initialization not yet implemented"]]).

Definition set_running (st : t) (r j : bool) : t :=
  mk (camera_opened st) (camera_index_ st) (target_fps_ st)
     (apriltag_detector_ st) (object_detector_ st)
     (camera_calibration_ st) (coordinate_transform_ st) r j
     (frame_count_ st) (apriltag_size_ st) (total_frames_processed_ st)
     (total_tags_detected_ st) (total_objects_detected_ st).

Definition set_camera_opened (st : t) (o : bool) : t :=
  mk o (camera_index_ st) (target_fps_ st)
     (apriltag_detector_ st) (object_detector_ st)
     (camera_calibration_ st) (coordinate_transform_ st) (running_ st)
     (thread_joinable st)
     (frame_count_ st) (apriltag_size_ st) (total_frames_processed_ st)
     (total_tags_detected_ st) (total_objects_detected_ st).

Definition set_components (st : t) (cal : CameraCalibration)
    (ct : CoordinateTransform.t (T:=T)) (od : ObjectDetector.t) : t :=
  mk (camera_opened st) (camera_index_ st) (target_fps_ st)
     (apriltag_detector_ st) od cal ct (running_ st)
     (thread_joinable st)
     (frame_count_ st) (apriltag_size_ st) (total_frames_processed_ st)
     (total_tags_detected_ st) (total_objects_detected_ st).

Definition set_counters (st : t) (fc frames tags objects : Z) : t :=
  mk (camera_opened st) (camera_index_ st) (target_fps_ st)
     (apriltag_detector_ st) (object_detector_ st)
     (camera_calibration_ st) (coordinate_transform_ st) (running_ st)
     (thread_joinable st)
     fc (apriltag_size_ st) frames tags objects.

(** The constructor and the default member initialisers. *)
Definition init : t :=
  mk false 0 30 AprilTagDetector.init ObjectDetector.init
     (mkCalibration false None []) CoordinateTransform.init
     false false 0 (decimal 15 1000) 0 0 0.

(** The inline setters of [vision_service.hpp]. *)
Definition setCameraIndex (st : t) (index : Z) : t :=
  mk (camera_opened st) index (target_fps_ st)
     (apriltag_detector_ st) (object_detector_ st)
     (camera_calibration_ st) (coordinate_transform_ st) (running_ st)
     (thread_joinable st)
     (frame_count_ st) (apriltag_size_ st) (total_frames_processed_ st)
     (total_tags_detected_ st) (total_objects_detected_ st).

Definition setFrameRate (st : t) (fps : Z) : t :=
  mk (camera_opened st) (camera_index_ st) fps
     (apriltag_detector_ st) (object_detector_ st)
     (camera_calibration_ st) (coordinate_transform_ st) (running_ st)
     (thread_joinable st)
     (frame_count_ st) (apriltag_size_ st) (total_frames_processed_ st)
     (total_tags_detected_ st) (total_objects_detected_ st).

Definition setAprilTagSize (st : t) (size_meters : T) : t :=
  mk (camera_opened st) (camera_index_ st) (target_fps_ st)
     (apriltag_detector_ st) (object_detector_ st)
     (camera_calibration_ st) (coordinate_transform_ st) (running_ st)
     (thread_joinable st)
     (frame_count_ st) size_meters (total_frames_processed_ st)
     (total_tags_detected_ st) (total_objects_detected_ st).

Definition isRunning (st : t) : bool := running_ st.

(** [start]: the value returned, the service afterwards and what was
    printed.  Spawning [processing_thread_] makes it joinable (the thread
    assigned over is never joinable here, see [joinable_iff_running]);
    the loop it runs is [processingLoop] below. *)
Definition start (env : StartEnv) (st : t) : bool * t * list (Action T) :=
  if running_ st then
    (false, st, [Cerr [Str "Vision service already running"]])
  else
    let out0 :=
      [Cout [Str "Starting Vision service..."];
       Cout [Str "Opening camera "; Int (camera_index_ st); Str "..."]] in
    let st := set_camera_opened st (camera_opens env) in
    if negb (camera_opened st) then
      (false, st,
       out0 ++ [Cerr [Str "Failed to open camera "; Int (camera_index_ st)]])
    else
      let '(loaded, cal, out_load) :=
        load (camera_calibration_ st) (calibration_file env)
             "calibration.yml" in
      let '(ct, out_cal) :=
        match loaded, calib_camera_matrix cal with
        | true, Some k =>
            (CoordinateTransform.setCalibration (coordinate_transform_ st)
               k (calib_dist_coeffs cal),
             [Cout [Str "Camera calibration loaded"]])
        | _, _ =>
            (coordinate_transform_ st,
             [Cout [Str "No calibration file found - pose estimation will be less accurate"]])
        end in
      let '(model_ok, od, out_loadModel) :=
        ObjectDetector.loadModel (object_detector_ st) "yolov8n.onnx"
          (model_read env) in
      let out_model :=
        Cout [Str "Loading YOLO model..."] :: out_loadModel ++
        (if negb model_ok then
           [Cerr [Str "Warning: Failed to load YOLO model - object detection disabled"]]
         else []) in
      let '(names_ok, od, out_loadClassNames) :=
        ObjectDetector.loadClassNames od "coco.names"
          (class_names_file env) in
      let out_names :=
        out_loadClassNames ++
        (if negb names_ok then
           [Cerr [Str "Warning: Failed to load class names"]]
         else []) in
      let '(zenoh, out_zenoh_init) := initializeZenoh in
      let out_zenoh :=
        out_zenoh_init ++
        (if negb zenoh then
           [Cerr [Str "Warning: Zenoh initialization failed - pub/sub disabled"]]
         else []) in
      let st := set_components st cal ct od in
      let st := set_running st true true in
      (true, st,
       out0 ++ out_load ++ out_cal ++ out_model ++ out_names ++ out_zenoh ++
       [Cout [Str "Vision service started successfully"]]).

(** [stop]: joining the thread leaves it not joinable; the camera is
    released when open. *)
Definition stop (st : t) : t * list (Action T) :=
  if negb (running_ st) then (st, [])
  else
    let st := set_running st false (thread_joinable st) in
    let st := if thread_joinable st then set_running st false false else st in
    let st := if camera_opened st then set_camera_opened st false else st in
    (st, [Cout [Str "Stopping Vision service..."];
          Cout [Str "Vision service stopped"]]).

(** The average-fps figure of [publishStatus]:
    [total_frames_processed_ / (frame_count_ / static_cast<float>(target_fps_))],
    every operand and result a [float]. *)
Definition average_fps (st : t) : T :=
  to_float (div (to_float (of_int (total_frames_processed_ st)))
                (to_float (div (to_float (of_int (frame_count_ st)))
                               (to_float (of_int (target_fps_ st)))))).

(** [publishStatus] *)
Definition publishStatus (st : t) : list (Action T) :=
  [Cout [Str "Vision Status:"];
   Cout [Str "  Frames processed: "; Int (total_frames_processed_ st)];
   Cout [Str "  Tags detected: "; Int (total_tags_detected_ st)];
   Cout [Str "  Objects detected: "; Int (total_objects_detected_ st)];
   Cout [Str "  Average FPS: "; Dbl (average_fps st)]].

(** What one pass of the loop receives from outside: the frame read from
    the camera ([None] when it is empty), what [object_detector_->detect]
    returns for it (nothing when the detector has no net), and the
    milliseconds between the two readings of [steady_clock], as
    [duration_cast<milliseconds>] truncates them. *)
Record IterationInput : Type := mkInput {
  frame : option Image;
  objects : list DetectedObject;
  elapsed : Z
}.

(** The lines printed for the tags of one frame. *)
Definition print_tags (tags : list (AprilTagDetector.AprilTagResult (T:=T)))
    : list (Action T) :=
  match tags with
  | [] => []
  | _ =>
      Cout [Str "Detected "; Int (Z.of_nat (List.length tags)); Str " AprilTags"] ::
      flat_map (fun tag =>
        Cout [Str "  Tag ID "; Int (AprilTagDetector.tag_id tag);
              Str " at ("; Dbl (px (AprilTagDetector.center tag)); Str ", ";
              Dbl (py (AprilTagDetector.center tag)); Str ")"] ::
        (if AprilTagDetector.pose_valid tag then
           [Cout [Str "    Position: (";
                  Dbl (x3 (AprilTagDetector.position tag)); Str ", ";
                  Dbl (y3 (AprilTagDetector.position tag)); Str ", ";
                  Dbl (z3 (AprilTagDetector.position tag)); Str ")"]]
         else [])) tags
  end.

(** The lines printed for the objects of one frame. *)
Definition print_objects (objs : list DetectedObject) : list (Action T) :=
  match objs with
  | [] => []
  | _ =>
      Cout [Str "Detected "; Int (Z.of_nat (List.length objs)); Str " objects"] ::
      map (fun obj =>
        Cout [Str "  "; Str (class_name obj); Str " (";
              Dbl (confidence obj); Str ") at (";
              Dbl (px (object_center obj)); Str ", ";
              Dbl (py (object_center obj)); Str ")"]) objs
  end.

(** The line that [ObjectDetector::detect] prints before it returns
    without a result. *)
Definition print_detect (od : ObjectDetector.t) : list (Action T) :=
  if negb (ObjectDetector.net_loaded od) && negb (ObjectDetector.use_onnx_ od)
  then [Cerr [Str "Model not loaded"]]
  else [].

(** One pass of the [while] loop of [processingLoop], for the frame
    period [frame_duration] computed before the loop. *)
Definition iteration (frame_duration : Z) (st : t) (inp : IterationInput)
    : t * list (Action T) :=
  match frame inp with
  | None =>
      (st, [Cerr [Str "Failed to read frame from camera"]; Sleep 100])
  | Some frame =>
      let st := set_counters st (wrap32 (frame_count_ st + 1))
                  (wrap32 (total_frames_processed_ st + 1))
                  (total_tags_detected_ st) (total_objects_detected_ st) in
      let '(camera_matrix, dist_coeffs) :=
        if is_valid (camera_calibration_ st) then
          (calib_camera_matrix (camera_calibration_ st),
           calib_dist_coeffs (camera_calibration_ st))
        else (None, []) in
      let tags :=
        AprilTagDetector.detect channels cvtColor_BGR2GRAY
          apriltag_detector_detect estimate_tag_pose
          (apriltag_detector_ st) frame camera_matrix dist_coeffs
          (apriltag_size_ st) in
      let st := set_counters st (frame_count_ st)
                  (total_frames_processed_ st)
                  (wrap32 (total_tags_detected_ st + Z.of_nat (List.length tags)))
                  (total_objects_detected_ st) in
      let out_tags := print_tags tags in
      let out_detect := print_detect (object_detector_ st) in
      let objs := objects inp in
      let st := set_counters st (frame_count_ st)
                  (total_frames_processed_ st) (total_tags_detected_ st)
                  (wrap32 (total_objects_detected_ st
                           + Z.of_nat (List.length objs))) in
      let out_objects := print_objects objs in
      let out_status :=
        if frame_count_ st mod 100 =? 0 then publishStatus st else [] in
      let sleep_time := frame_duration - elapsed inp in
      let out_sleep := if sleep_time >? 0 then [Sleep sleep_time] else [] in
      (st, out_tags ++ out_detect ++ out_objects ++ out_status ++ out_sleep)
  end.

(** [1000 / target_fps_] on [int]: the quotient truncates towards zero;
    division by zero has no defined result ([None]). *)
Definition frame_duration_of (target_fps : Z) : option Z :=
  if target_fps =? 0 then None else Some (Z.quot 1000 target_fps).

(** The passes of the loop over the inputs of a run, in order. *)
Fixpoint run_iterations (frame_duration : Z) (st : t)
    (inputs : list IterationInput) : t * list (Action T) :=
  match inputs with
  | [] => (st, [])
  | inp :: rest =>
      let '(st1, out1) := iteration frame_duration st inp in
      let '(st2, out2) := run_iterations frame_duration st1 rest in
      (st2, out1 ++ out2)
  end.

(** [processingLoop] over the passes made while [running_] stays set:
    [None] when the frame period cannot be computed. *)
Definition processingLoop (st : t) (inputs : list IterationInput)
    : option (t * list (Action T)) :=
  match frame_duration_of (target_fps_ st) with
  | None => None
  | Some frame_duration => Some (run_iterations frame_duration st inputs)
  end.

End WithScalar.
End VisionService.

(** ** main.cpp *)

Module Main.
Section WithScalar.
Context {T : Type} `{Scalar T}.
Local Open Scope Z_scope.

(** [std::atof], of the C library. *)
Variable atof : string -> T.

(** [std::atoi], of the C library: white space is skipped, an optional
    sign is read, then decimal digits up to the first other character; with
    no digit the value is 0.  The result is an [int]: for a number outside
    its range, where the C standard leaves the result open, the value is
    the one the C library of the platform gives, [(int) strtol (s, 0, 10)]
    with a 64-bit [long], that is the number saturated to [long] and then
    reduced to its low 32 bits. *)
Definition is_space (ch : ascii) : bool :=
  let n := Z.of_nat (nat_of_ascii ch) in
  (n =? 32) || ((9 <=? n) && (n <=? 13)).

Definition digit_of (ch : ascii) : option Z :=
  let n := Z.of_nat (nat_of_ascii ch) in
  if (48 <=? n) && (n <=? 57) then Some (n - 48) else None.

Fixpoint skip_space (s : string) : string :=
  match s with
  | String ch rest => if is_space ch then skip_space rest else s
  | EmptyString => s
  end.

Fixpoint digits (acc : Z) (s : string) : Z :=
  match s with
  | String ch rest =>
      match digit_of ch with
      | Some d => digits (10 * acc + d) rest
      | None => acc
      end
  | EmptyString => acc
  end.

(** [strtol] in base 10, on a 64-bit [long]. *)
Definition strtol (s : string) : Z :=
  let value :=
    match skip_space s with
    | String "-" rest => - digits 0 rest
    | String "+" rest => digits 0 rest
    | s' => digits 0 s'
    end in
  Z.max (- 2 ^ 63) (Z.min (2 ^ 63 - 1) value).

(** Conversion of a [long] to [int]. *)
Definition to_int (z : Z) : Z := (z + 2 ^ 31) mod 2 ^ 32 - 2 ^ 31.

Definition atoi (s : string) : Z := to_int (strtol s).

(** The three locals of [main] that the flags set. *)
Record Options : Type := mkOptions {
  camera_index : Z;
  fps : Z;
  apriltag_size : T
}.

Definition defaults : Options := mkOptions 0 30 (decimal 15 1000).

(** The argument loop of [main] over [argv[1..]]: [None] when [--help]
    makes [main] return 0 before the service is created. *)
Fixpoint parse_args (args : list string) (o : Options) : option Options :=
  match args with
  | [] => Some o
  | arg :: rest =>
      match rest with
      | value :: rest' =>
          if String.eqb arg "--camera" then
            parse_args rest' (mkOptions (atoi value) (fps o) (apriltag_size o))
          else if String.eqb arg "--fps" then
            parse_args rest' (mkOptions (camera_index o) (atoi value)
                                        (apriltag_size o))
          else if String.eqb arg "--tag-size" then
            parse_args rest' (mkOptions (camera_index o) (fps o) (atof value))
          else if String.eqb arg "--help" then None
          else parse_args rest o
      | [] =>
          if String.eqb arg "--help" then None else Some o
      end
  end.

(** The service as [main] configures it before calling [start]. *)
Definition configure (o : Options) : VisionService.t (T:=T) :=
  VisionService.setAprilTagSize
    (VisionService.setFrameRate
       (VisionService.setCameraIndex VisionService.init (camera_index o))
       (fps o))
    (apriltag_size o).

End WithScalar.
End Main.


(** ** camera_calibration.cpp *)

(** The line-feed character, as in the literal ["Camera matrix:\n"]. *)
Definition newline : string := String (ascii_of_nat 10) EmptyString.

Module CameraCalibration.
Section WithScalar.
Context {T : Type} `{Scalar T}.
Local Open Scope Z_scope.

(** [struct CalibrationData].  An empty [cv::Mat] is [None] (the empty
    list for the coefficients); matrices that are not empty have the
    shapes that the comments of the header give them. *)
Record CalibrationData : Type := mkData {
  camera_matrix : option (Mat33 T);
  dist_coeffs : list T;
  image_size : Size;
  rotation : option (Mat33 T);
  translation : option (Point3 T);
  is_valid : bool;
  reprojection_error : T
}.

(** The default member initialisers: [CameraCalibration() = default]. *)
Definition init : CalibrationData :=
  mkData None [] (mkSize 0 0) None None false lit0.

Definition getCalibration (cal : CalibrationData) : CalibrationData := cal.
Definition isValid (cal : CalibrationData) : bool := is_valid cal.

(** *** [cv::FileStorage]

    A file is the sequence of named nodes written to it.  Reading a name
    that is absent, or a node of another kind, yields the default of the
    type read (an empty matrix, 0), as [operator>>] on a [cv::FileNode]
    does. *)
Inductive FileNode : Type :=
| NodeEmptyMat
| NodeMat33 (m : Mat33 T)
| NodeVec3 (p : Point3 T)
| NodeCoeffs (v : list T)
| NodeInt (z : Z)
| NodeReal (x : T).

Definition File : Type := list (string * FileNode).

(** [fs[name]] *)
Fixpoint node (fs : File) (name : string) : option FileNode :=
  match fs with
  | [] => None
  | (key, n) :: rest => if String.eqb key name then Some n else node rest name
  end.

(** [fs << name << value] *)
Definition write (fs : File) (name : string) (n : FileNode) : File :=
  fs ++ [(name, n)].

Definition node_of_mat33 (m : option (Mat33 T)) : FileNode :=
  match m with Some m => NodeMat33 m | None => NodeEmptyMat end.

Definition node_of_vec3 (p : option (Point3 T)) : FileNode :=
  match p with Some p => NodeVec3 p | None => NodeEmptyMat end.

Definition node_of_coeffs (v : list T) : FileNode :=
  match v with [] => NodeEmptyMat | _ => NodeCoeffs v end.

Definition read_mat33 (fs : File) (name : string) : option (Mat33 T) :=
  match node fs name with Some (NodeMat33 m) => Some m | _ => None end.

Definition read_vec3 (fs : File) (name : string) : option (Point3 T) :=
  match node fs name with Some (NodeVec3 p) => Some p | _ => None end.

Definition read_coeffs (fs : File) (name : string) : list T :=
  match node fs name with Some (NodeCoeffs v) => v | _ => [] end.

Definition read_int (fs : File) (name : string) : Z :=
  match node fs name with Some (NodeInt z) => z | _ => 0 end.

Definition read_real (fs : File) (name : string) : T :=
  match node fs name with Some (NodeReal x) => x | _ => lit0 end.

(** [fs[name].empty()] *)
Definition node_empty (fs : File) (name : string) : bool :=
  match node fs name with Some _ => false | None => true end.

(** [save]: the value returned, the file written (when one was opened)
    and what was printed.  [can_open] is whether the file opens for
    writing. *)
Definition save (cal : CalibrationData) (filename : string)
    (can_open : bool) : bool * option File * list (Action T) :=
  if negb (is_valid cal) then
    (false, None, [Cerr [Str "Cannot save invalid calibration"]])
  else if negb can_open then
    (false, None,
     [Cerr [Str "Failed to open file for writing: "; Str filename]])
  else
    let fs := [] in
    let fs := write fs "camera_matrix" (node_of_mat33 (camera_matrix cal)) in
    let fs := write fs "dist_coeffs" (node_of_coeffs (dist_coeffs cal)) in
    let fs := write fs "image_width" (NodeInt (width (image_size cal))) in
    let fs := write fs "image_height" (NodeInt (height (image_size cal))) in
    let fs :=
      write fs "reprojection_error" (NodeReal (reprojection_error cal)) in
    let fs :=
      match rotation cal with
      | Some _ =>
          write (write fs "rotation" (node_of_mat33 (rotation cal)))
                "translation" (node_of_vec3 (translation cal))
      | None => fs
      end in
    (true, Some fs, [Cout [Str "Calibration saved to: "; Str filename]]).

(** [load]: the value returned, the calibration afterwards and what was
    printed.  [file] is the content of the file, [None] when it does not
    open. *)
Definition load (cal : CalibrationData) (filename : string)
    (file : option File) : bool * CalibrationData * list (Action T) :=
  match file with
  | None =>
      (false, cal,
       [Cerr [Str "Failed to open calibration file: "; Str filename]])
  | Some fs =>
      let camera_matrix' := read_mat33 fs "camera_matrix" in
      let dist_coeffs' := read_coeffs fs "dist_coeffs" in
      let width' := read_int fs "image_width" in
      let height' := read_int fs "image_height" in
      let error' := read_real fs "reprojection_error" in
      let '(rotation', translation') :=
        if negb (node_empty fs "rotation") then
          (read_mat33 fs "rotation", read_vec3 fs "translation")
        else (rotation cal, translation cal) in
      let valid :=
        match camera_matrix' with Some _ => true | None => false end in
      (valid,
       mkData camera_matrix' dist_coeffs' (mkSize width' height')
              rotation' translation' valid error',
       if valid then [Cout [Str "Calibration loaded from: "; Str filename]]
       else [])
  end.

(** *** Calibration from images

    What the file calls and does not define: the image type of OpenCV
    with [size()], [channels()] and [cv::cvtColor]; the chessboard search
    [cv::findChessboardCorners] (whether the board was found, and the
    corners) and its refinement [cv::cornerSubPix]; [cv::calibrateCamera],
    which is given the object points, the image points and the image size
    and returns the RMS error, the camera matrix and the distortion
    coefficients; the drawing functions; and [std::to_string]. *)
Variable Image : Type.
Variable image_size_of : Image -> Size.
Variable channels : Image -> Z.
Variable cvtColor_BGR2GRAY : Image -> Image.
Variable findChessboardCorners : Image -> Size -> bool * list (Point2 T).
Variable cornerSubPix : Image -> list (Point2 T) -> list (Point2 T).
Variable calibrateCamera :
  list (list (Point3 T)) -> list (list (Point2 T)) -> Size ->
  T * Mat33 T * list T.
Variable drawChessboardCorners :
  Image -> Size -> list (Point2 T) -> bool -> Image.
Variable putText : Image -> string -> Image.
Variable to_string : Z -> string.

(** [detectChessboard]: the value returned and [corners] after the
    call. *)
Definition detectChessboard (image : Image) (pattern_size : Size)
    : bool * list (Point2 T) :=
  let gray :=
    if channels image =? 3 then cvtColor_BGR2GRAY image else image in
  let '(found, corners) := findChessboardCorners gray pattern_size in
  if found then (found, cornerSubPix gray corners) else (found, corners).

(** The object points of the chessboard: [cv::Point3f(j * square_size,
    i * square_size, 0.0)] for every row [i] and column [j]. *)
Definition chessboard_points (pattern_size : Size) (square_size : T)
    : list (Point3 T) :=
  flat_map (fun i =>
    map (fun j =>
      mkPoint3 (to_float (mul (of_int j) square_size))
               (to_float (mul (of_int i) square_size))
               (to_float lit0))
      (range (width pattern_size)))
    (range (height pattern_size)).

(** The corners of the images in which the chessboard is found, in
    order. *)
Fixpoint found_corners (images : list Image) (pattern_size : Size)
    : list (list (Point2 T)) :=
  match images with
  | [] => []
  | image :: rest =>
      let '(found, corners) := detectChessboard image pattern_size in
      if found then corners :: found_corners rest pattern_size
      else found_corners rest pattern_size
  end.

(** A matrix streamed to [std::cout] is shown by its entries, row by
    row. *)
Definition show_mat33 (m : Mat33 T) : list (Part T) :=
  [Dbl (m00 m); Dbl (m01 m); Dbl (m02 m);
   Dbl (m10 m); Dbl (m11 m); Dbl (m12 m);
   Dbl (m20 m); Dbl (m21 m); Dbl (m22 m)].

(** [calibrate]: the value returned, the calibration afterwards and what
    was printed; [None] if [images[0]] is read from an empty vector. *)
Definition calibrate (cal : CalibrationData) (images : list Image)
    (pattern_size : Size) (square_size : T)
    : option (bool * CalibrationData * list (Action T)) :=
  let obj_pts := chessboard_points pattern_size square_size in
  let image_points := found_corners images pattern_size in
  let object_points := map (fun _ => obj_pts) image_points in
  if Z.of_nat (List.length image_points) <? 3 then
    Some (false, cal,
          [Cerr [Str "Not enough valid calibration images (need at least 3)"]])
  else
    match images with
    | [] => None
    | first :: _ =>
        let size := image_size_of first in
        let '(rms_error, camera_matrix', dist_coeffs') :=
          calibrateCamera object_points image_points size in
        Some (true,
              mkData (Some camera_matrix') dist_coeffs' size
                     (rotation cal) (translation cal) true rms_error,
              [Cout [Str "Calibrating with ";
                     Int (Z.of_nat (List.length image_points));
                     Str " images..."];
               Cout [Str "Calibration complete!"];
               Cout [Str "RMS reprojection error: "; Dbl rms_error;
                     Str " pixels"];
               Cout (Str (String.append "Camera matrix:" newline)
                     :: show_mat33 camera_matrix');
               Cout (Str (String.append "Distortion coefficients:" newline)
                     :: map (fun x => Dbl x) dist_coeffs')])
    end.

(** What one pass of the capture loop of [calibrateFromCamera] receives:
    the frame read ([None] when it is empty) and the key that
    [cv::waitKey] returns. *)
Record CaptureEvent : Type := mkEvent {
  event_frame : option Image;
  event_key : Z
}.

(** How the capture loop ends: cancelled with ESC, or with the images
    collected. *)
Inductive Capture : Type :=
| Cancelled (out : list (Action T))
| Collected (images : list Image) (out : list (Action T)).

(** The frame as shown and as captured: the corners drawn when the board
    was found, and the count of frames written over it. *)
Definition annotate (frame : Image) (pattern_size : Size)
    (frames_collected num_frames : Z) : bool * Image :=
  let '(found, corners) := detectChessboard frame pattern_size in
  let frame :=
    if found then drawChessboardCorners frame pattern_size corners found
    else frame in
  (found,
   putText frame
     (String.append "Frames: "
        (String.append (to_string frames_collected)
           (String.append "/" (to_string num_frames))))).

(** The [while (frames_collected < num_frames)] loop over the events of a
    run: [None] when the events end before the loop does. *)
Fixpoint capture (events : list CaptureEvent) (pattern_size : Size)
    (num_frames frames_collected : Z) (calibration_images : list Image)
    (out : list (Action T)) : option Capture :=
  if frames_collected <? num_frames then
    match events with
    | [] => None
    | ev :: rest =>
        match event_frame ev with
        | None =>
            capture rest pattern_size num_frames frames_collected
              calibration_images out
        | Some frame =>
            let '(found, frame) :=
              annotate frame pattern_size frames_collected num_frames in
            if event_key ev =? 27 then
              Some (Cancelled (out ++ [Cout [Str "Calibration cancelled"]]))
            else if (event_key ev =? 32) && found then
              capture rest pattern_size num_frames (frames_collected + 1)
                (calibration_images ++ [frame])
                (out ++ [Cout [Str "Captured frame ";
                               Int (frames_collected + 1); Str "/";
                               Int num_frames]])
            else
              capture rest pattern_size num_frames frames_collected
                calibration_images out
        end
    end
  else Some (Collected calibration_images out).

(** [calibrateFromCamera]: [camera_opens] is whether the camera opens. *)
Definition calibrateFromCamera (cal : CalibrationData) (camera_index : Z)
    (pattern_size : Size) (square_size : T) (num_frames : Z)
    (camera_opens : bool) (events : list CaptureEvent)
    : option (bool * CalibrationData * list (Action T)) :=
  if negb camera_opens then
    Some (false, cal,
          [Cerr [Str "Failed to open camera "; Int camera_index]])
  else
    let out0 :=
      [Cout [Str "Collecting calibration images..."];
       Cout [Str "Press SPACE to capture, ESC to cancel"]] in
    match capture events pattern_size num_frames 0 [] out0 with
    | None => None
    | Some (Cancelled out) => Some (false, cal, out)
    | Some (Collected images out) =>
        match calibrate cal images pattern_size square_size with
        | None => None
        | Some (ok, cal', out') => Some (ok, cal', out ++ out')
        end
    end.

(** [cv::undistort] and [cv::getOptimalNewCameraMatrix], of OpenCV. *)
Variable cv_undistort : Image -> option (Mat33 T) -> list T -> Image.
Variable getOptimalNewCameraMatrix :
  option (Mat33 T) -> list T -> Size -> T -> option (Mat33 T).

Definition undistort (cal : CalibrationData) (image : Image) : Image :=
  if negb (is_valid cal) then image
  else cv_undistort image (camera_matrix cal) (dist_coeffs cal).

Definition getOptimalCameraMatrix (cal : CalibrationData) (alpha : T)
    : option (Mat33 T) :=
  if negb (is_valid cal) then None
  else getOptimalNewCameraMatrix (camera_matrix cal) (dist_coeffs cal)
         (image_size cal) alpha.

End WithScalar.
End CameraCalibration.

(** * Notions used in the statements *)

Section Vocabulary.
Context {T : Type} `{Scalar T}.
Local Open Scope scalar_scope.
Variable undistortPoints : Mat33 T -> list T -> Point2 T -> Point2 T.

(** The parameter [t] that [intersectRayPlane] solves for. *)
Definition ray_plane_t (ray_origin ray_direction plane_normal
    plane_point : Point3 T) : T :=
  dot (vsub plane_point ray_origin) plane_normal
  / dot ray_direction plane_normal.

(** The point [origin + t * direction]. *)
Definition point_along (ray_origin ray_direction : Point3 T) (t : T)
    : Point3 T :=
  mkPoint3 (x3 ray_origin + t * x3 ray_direction)
           (y3 ray_origin + t * y3 ray_direction)
           (z3 ray_origin + t * z3 ray_direction).

(** The parameter [t] that [imageToWorld] solves for. *)
Definition ground_t (ct : CoordinateTransform.t) (image_point : Point2 T)
    (z_plane : T) : T :=
  (z_plane - z3 (CoordinateTransform.cam_pos_world_of ct))
  / z3 (CoordinateTransform.ray_world_of undistortPoints ct image_point).

(** The three conditions under which [imageToWorld] gives up. *)
Definition imageToWorld_fails (ct : CoordinateTransform.t)
    (image_point : Point2 T) (z_plane : T) : bool :=
  (negb (CoordinateTransform.has_calibration_ ct)
   || negb (CoordinateTransform.has_pose_ ct))
  || (fabs (z3 (CoordinateTransform.ray_world_of undistortPoints ct
                  image_point)) <? lit_1e_6)
  || (ground_t ct image_point z_plane <? lit0).

(** The pinhole projection of a camera-frame point: perspective divide by
    its [z], intrinsics, conversion to [float]. *)
Definition project (camera_matrix : Mat33 T) (camera_pt : Point3 T)
    : Point2 T :=
  mkPoint2
    (to_float (m00 camera_matrix * (x3 camera_pt / z3 camera_pt)
               + m02 camera_matrix))
    (to_float (m11 camera_matrix * (y3 camera_pt / z3 camera_pt)
               + m12 camera_matrix)).

(** The milliseconds slept in a list of actions. *)
Fixpoint total_sleep (acts : list (Action T)) : Z :=
  match acts with
  | [] => 0
  | Sleep ms :: rest => (ms + total_sleep rest)%Z
  | _ :: rest => total_sleep rest
  end.

(** Whether a list of actions contains the header line of the status
    summary. *)
Definition is_status_header (a : Action T) : bool :=
  match a with
  | Cout [Str s] => String.eqb s "Vision Status:"
  | _ => false
  end.

Definition has_status (acts : list (Action T)) : bool :=
  existsb is_status_header acts.

End Vocabulary.

(** Text that [atoi] reads a number from: after white space and an
    optional sign, a decimal digit. *)
Definition leading_digit (s : string) : bool :=
  match s with
  | String ch _ =>
      match Main.digit_of ch with Some _ => true | None => false end
  | EmptyString => false
  end.

Definition numeric_text (s : string) : bool :=
  match Main.skip_space s with
  | String "-" rest => leading_digit rest
  | String "+" rest => leading_digit rest
  | s' => leading_digit s'
  end.

(** Orthonormality of a rotation, [Rt * R = I], over the reals. *)
Definition orthonormal (m : Mat33 R) : Prop :=
  mat_mul (transpose m) m = identity33.

Definition vscale (k : R) (v : Point3 R) : Point3 R :=
  mkPoint3 (k * x3 v)%R (k * y3 v)%R (k * z3 v)%R.

(** The reflection of a world point through the point [c]. *)
Definition reflect_through (c w : Point3 R) : Point3 R :=
  mkPoint3 (2 * x3 c - x3 w)%R (2 * y3 c - y3 w)%R (2 * z3 c - z3 w)%R.

(** What the specification asks of a rotation before a pose is called
    valid: every entry finite, and [R * Rt] within [tol] of the identity
    entry by entry. *)
Definition finite_rotation (m : Mat33 float) : bool :=
  PrimFloat.is_finite (m00 m) && PrimFloat.is_finite (m01 m)
  && PrimFloat.is_finite (m02 m) && PrimFloat.is_finite (m10 m)
  && PrimFloat.is_finite (m11 m) && PrimFloat.is_finite (m12 m)
  && PrimFloat.is_finite (m20 m) && PrimFloat.is_finite (m21 m)
  && PrimFloat.is_finite (m22 m).

Definition near (tol a b : float) : bool :=
  PrimFloat.ltb (PrimFloat.abs (PrimFloat.sub a b)) tol.

Definition orthonormal_within (tol : float) (m : Mat33 float) : bool :=
  let g := mat_mul m (transpose m) in
  near tol (m00 g) 1%float && near tol (m01 g) 0%float
  && near tol (m02 g) 0%float && near tol (m10 g) 0%float
  && near tol (m11 g) 1%float && near tol (m12 g) 0%float
  && near tol (m20 g) 0%float && near tol (m21 g) 0%float
  && near tol (m22 g) 1%float.

Definition acceptable_rotation (tol : float) (m : Mat33 float) : bool :=
  finite_rotation m && orthonormal_within tol m.

(** ** Concrete inputs on which the code is run

    An ideal camera in binary64: identity intrinsics, no distortion,
    identity rotation, translation [t]. *)
Definition pinhole64 : Mat33 float -> list float -> Point2 float -> Point2 float :=
  CoordinateTransform.pinhole_normalize.

Definition ideal_camera (t : Point3 float) : CoordinateTransform.t :=
  CoordinateTransform.setCameraPose
    (CoordinateTransform.setCalibration CoordinateTransform.init
       identity33 [])
    identity33 t.

(** The same camera over the reals, with intrinsics [fx = fy = 2],
    [cx = 3], [cy = 1] and zero translation. *)
Definition pinholeR : Mat33 R -> list R -> Point2 R -> Point2 R :=
  CoordinateTransform.pinhole_normalize.

Definition real_camera : CoordinateTransform.t :=
  CoordinateTransform.setCameraPose
    (CoordinateTransform.setCalibration CoordinateTransform.init
       (mkMat33 2 0 3 0 2 1 0 0 1)%R [])
    identity33 (mkPoint3 0 0 0)%R.

(** A pose solve that fails: every entry of the pose it fills is NaN, as
    when the quadrilateral of corners is degenerate. *)
Definition nan_rotation : Mat33 float :=
  mkMat33 nan nan nan nan nan nan nan nan nan.

Definition nan_translation : Point3 float := mkPoint3 nan nan nan.

Definition failing_solver
    (info : AprilTagDetector.apriltag_detection_info (T:=float))
    : float * AprilTagDetector.apriltag_pose (T:=float) :=
  (nan, AprilTagDetector.mkPose nan_rotation nan_translation).

(** A detection whose four corners coincide. *)
Definition degenerate_detection : AprilTagDetector.apriltag_detection (T:=float) :=
  AprilTagDetector.mkDetection 7 0 50%float
    (mkPoint2 320 240)%float (mkPoint2 320 240)%float
    (mkPoint2 320 240)%float (mkPoint2 320 240)%float
    (mkPoint2 320 240)%float.

(** A service in binary64 on an image type with one value, with a tag
    detector that finds nothing. *)
Definition no_tags (dt : AprilTagDetector.detector (T:=float)) (image : unit)
    : list (AprilTagDetector.apriltag_detection (T:=float)) := [].

Definition iteration64 :=
  VisionService.iteration (T:=float) (fun _ : unit => 1%Z) (fun i => i)
    no_tags failing_solver.

Definition processingLoop64 :=
  VisionService.processingLoop (T:=float) (fun _ : unit => 1%Z) (fun i => i)
    no_tags failing_solver.

(** The service once [2^32 - 1] frames have been processed. *)
Definition service_before_wrap : VisionService.t (T:=float) :=
  VisionService.set_counters VisionService.init
    4294967295 4294967295 0 0.

(** [std::atof] is not needed where the code is run below. *)
Definition atof64 (s : string) : float := 0%float.

Section LoopVocabulary.
Context {T : Type} `{Scalar T}.
Variable Image : Type.
Variable channels : Image -> Z.
Variable cvtColor_BGR2GRAY : Image -> Image.
Variable apriltag_detector_detect :
  AprilTagDetector.detector (T:=T) -> Image ->
  list (AprilTagDetector.apriltag_detection (T:=T)).
Variable estimate_tag_pose :
  AprilTagDetector.apriltag_detection_info (T:=T) ->
  T * AprilTagDetector.apriltag_pose (T:=T).
Local Open Scope Z_scope.

(** The tags that [detect] returns for a frame in a given service state. *)
Definition tags_of (st : VisionService.t (T:=T)) (frame : Image)
    : list (AprilTagDetector.AprilTagResult (T:=T)) :=
  AprilTagDetector.detect channels cvtColor_BGR2GRAY
    apriltag_detector_detect estimate_tag_pose
    (VisionService.apriltag_detector_ st) frame
    (if VisionService.is_valid (VisionService.camera_calibration_ st)
     then VisionService.calib_camera_matrix
            (VisionService.camera_calibration_ st)
     else None)
    (if VisionService.is_valid (VisionService.camera_calibration_ st)
     then VisionService.calib_dist_coeffs
            (VisionService.camera_calibration_ st)
     else [])
    (VisionService.apriltag_size_ st).

(** The service after a pass that read a frame, and what the pass
    printed before the status and the sleep. *)
Definition counted (st : VisionService.t (T:=T)) (frame : Image)
    (objs : list (VisionService.DetectedObject (T:=T)))
    : VisionService.t (T:=T) :=
  VisionService.set_counters st
    (VisionService.wrap32 (VisionService.frame_count_ st + 1))
    (VisionService.wrap32 (VisionService.total_frames_processed_ st + 1))
    (VisionService.wrap32
       (VisionService.total_tags_detected_ st
        + Z.of_nat (List.length (tags_of st frame))))
    (VisionService.wrap32
       (VisionService.total_objects_detected_ st
        + Z.of_nat (List.length objs))).

(** The sleep that a pass makes, from its input alone. *)
Definition pass_sleep (fd : Z) (inp : VisionService.IterationInput (T:=T) Image)
    : Z :=
  match VisionService.frame inp with
  | Some _ => Z.max 0 (fd - VisionService.elapsed inp)
  | None => 100
  end.

End LoopVocabulary.

(** ** Further notions: geometry *)

(** [R * Rt = I], over the reals. *)
Definition row_orthonormal (m : Mat33 R) : Prop :=
  mat_mul m (transpose m) = identity33.

(** The point [c + k * (w - c)] of the line through [c] and [w]. *)
Definition along_line (c w : Point3 R) (k : R) : Point3 R :=
  mkPoint3 (x3 c + k * (x3 w - x3 c))%R
           (y3 c + k * (y3 w - y3 c))%R
           (z3 c + k * (z3 w - z3 c))%R.

(** The horizontal plane [z = z_plane]: its normal and a point on it. *)
Definition up_normal : Point3 R := mkPoint3 0%R 0%R 1%R.

Definition on_height (z_plane : R) : Point3 R :=
  mkPoint3 0%R 0%R z_plane.

(** ** Further notions: marker results *)

Section MarkerVocabulary.
Context {T : Type} `{Scalar T}.

(** The part of a result that comes from the detection alone. *)
Definition observation (r : AprilTagDetector.AprilTagResult (T:=T))
    : Z * Point2 T * list (Point2 T) * T * Z :=
  (AprilTagDetector.tag_id r, AprilTagDetector.center r,
   AprilTagDetector.corners r, AprilTagDetector.result_decision_margin r,
   AprilTagDetector.hamming_distance r).

(** The same part, read off a detection. *)
Definition observed (d : AprilTagDetector.apriltag_detection (T:=T))
    : Z * Point2 T * list (Point2 T) * T * Z :=
  (AprilTagDetector.id d mod 2 ^ 32, AprilTagDetector.c d,
   [AprilTagDetector.p0 d; AprilTagDetector.p1 d; AprilTagDetector.p2 d;
    AprilTagDetector.p3 d],
   AprilTagDetector.decision_margin d, AprilTagDetector.hamming d)%Z.

(** A result is well formed when its pose fields are set exactly when
    [pose_valid] is, with [position] the translation, and are otherwise
    as the default member initialisers leave them. *)
Definition pose_fields_agree (r : AprilTagDetector.AprilTagResult (T:=T))
    : Prop :=
  if AprilTagDetector.pose_valid r then
    exists rot, AprilTagDetector.rotation r = Some rot
                /\ AprilTagDetector.translation r
                   = Some (AprilTagDetector.position r)
  else
    AprilTagDetector.rotation r = None
    /\ AprilTagDetector.translation r = None
    /\ AprilTagDetector.position r = zero3.

End MarkerVocabulary.

(** ** Further notions: the service *)

Section ServiceVocabulary.
Context {T : Type} `{Scalar T}.
Variable Image : Type.
Variable channels : Image -> Z.
Variable cvtColor_BGR2GRAY : Image -> Image.
Variable apriltag_detector_detect :
  AprilTagDetector.detector (T:=T) -> Image ->
  list (AprilTagDetector.apriltag_detection (T:=T)).
Variable estimate_tag_pose :
  AprilTagDetector.apriltag_detection_info (T:=T) ->
  T * AprilTagDetector.apriltag_pose (T:=T).
Local Open Scope Z_scope.

(** The states of the service that its constructor, its setters,
    [start], [stop] and the passes of the loop lead to, in any order. *)
Inductive reachable : VisionService.t (T:=T) -> Prop :=
| reach_init : reachable VisionService.init
| reach_setCameraIndex st index :
    reachable st -> reachable (VisionService.setCameraIndex st index)
| reach_setFrameRate st fps :
    reachable st -> reachable (VisionService.setFrameRate st fps)
| reach_setAprilTagSize st size_meters :
    reachable st -> reachable (VisionService.setAprilTagSize st size_meters)
| reach_start st env :
    reachable st -> reachable (snd (fst (VisionService.start env st)))
| reach_stop st :
    reachable st -> reachable (fst (VisionService.stop st))
| reach_iteration st fd (inp : VisionService.IterationInput (T:=T) Image) :
    reachable st ->
    reachable (fst (VisionService.iteration channels cvtColor_BGR2GRAY
                      apriltag_detector_detect estimate_tag_pose
                      fd st inp)).

(** The passes of a run that read a frame. *)
Fixpoint frames_read
    (inputs : list (VisionService.IterationInput (T:=T) Image)) : Z :=
  match inputs with
  | [] => 0
  | inp :: rest =>
      match VisionService.frame inp with
      | Some _ => 1 + frames_read rest
      | None => frames_read rest
      end
  end.

(** The milliseconds that the bodies of the passes of a run took. *)
Fixpoint total_elapsed
    (inputs : list (VisionService.IterationInput (T:=T) Image)) : Z :=
  match inputs with
  | [] => 0
  | inp :: rest => VisionService.elapsed inp + total_elapsed rest
  end.

(** The status summaries in a list of actions. *)
Fixpoint count_status (acts : list (Action T)) : Z :=
  match acts with
  | [] => 0
  | a :: rest =>
      (if is_status_header a then 1 else 0) + count_status rest
  end.

(** Two service states that differ in the four counters at most. *)
Definition same_but_counters (st st' : VisionService.t (T:=T)) : Prop :=
  st' = VisionService.set_counters st
          (VisionService.frame_count_ st')
          (VisionService.total_frames_processed_ st')
          (VisionService.total_tags_detected_ st')
          (VisionService.total_objects_detected_ st').

(** The properties kept by every operation of the service. *)
Definition service_invariant (st : VisionService.t (T:=T)) : Prop :=
  VisionService.thread_joinable st = VisionService.running_ st
  /\ VisionService.camera_opened st = VisionService.running_ st
  /\ CoordinateTransform.has_pose_ (VisionService.coordinate_transform_ st)
     = false
  /\ VisionService.total_frames_processed_ st
     = VisionService.frame_count_ st
  /\ 0 <= VisionService.frame_count_ st < 2 ^ 32.

(** Whether the loop hands a camera matrix to the tag detector. *)
Definition calibrated (st : VisionService.t (T:=T)) : bool :=
  VisionService.is_valid (VisionService.camera_calibration_ st)
  && match VisionService.calib_camera_matrix
             (VisionService.camera_calibration_ st) with
     | Some _ => true
     | None => false
     end.

End ServiceVocabulary.

(** A service over the reals on an image type with one value, with a tag
    detector that finds nothing. *)
Definition no_tagsR (dt : AprilTagDetector.detector (T:=R)) (image : unit)
    : list (AprilTagDetector.apriltag_detection (T:=R)) := [].

Definition solverR
    (info : AprilTagDetector.apriltag_detection_info (T:=R))
    : R * AprilTagDetector.apriltag_pose (T:=R) :=
  (0%R, AprilTagDetector.mkPose identity33 zero3).

Definition reachableR : VisionService.t (T:=R) -> Prop :=
  reachable (fun _ : unit => 1%Z) (fun i => i) no_tagsR solverR.

Definition iterationR :=
  VisionService.iteration (T:=R) (fun _ : unit => 1%Z) (fun i => i)
    no_tagsR solverR.

Definition reachable64 : VisionService.t (T:=float) -> Prop :=
  reachable (fun _ : unit => 1%Z) (fun i => i) no_tags failing_solver.

(** One tag in every frame. *)
Definition one_tag (dt : AprilTagDetector.detector (T:=float)) (image : unit)
    : list (AprilTagDetector.apriltag_detection (T:=float)) :=
  [degenerate_detection].

(** What the outside world answers to [start] when everything is there,
    and when only the camera is. *)
Definition env_complete : VisionService.StartEnv (T:=float) :=
  VisionService.mkStartEnv true
    (VisionService.FileWith (Some identity33) [])
    (ObjectDetector.NetReturned false)
    (Some ["person"; "bicycle"; "car"]%string).

Definition env_camera_only : VisionService.StartEnv (T:=float) :=
  VisionService.mkStartEnv true VisionService.NoFile
    (ObjectDetector.NetThrew "file not found") None.

(** The service after a [start] that found everything. *)
Definition started64 : VisionService.t (T:=float) :=
  snd (fst (VisionService.start env_complete VisionService.init)).

(** Three passes, the second with a failed frame read. *)
Definition three_passes
    : list (VisionService.IterationInput (T:=float) unit) :=
  [VisionService.mkInput (Some tt) [] 10;
   VisionService.mkInput None [] 0;
   VisionService.mkInput (Some tt) [] 50].

(** A service that has counted 99 frames. *)
Definition counted99 : VisionService.t (T:=float) :=
  VisionService.set_counters started64 99 99 0 0.

(** Two passes that read a frame, of 10 ms and 50 ms, at a period of
    33 ms. *)
Definition two_frames
    : list (VisionService.IterationInput (T:=float) unit) :=
  [VisionService.mkInput (Some tt) [] 10;
   VisionService.mkInput (Some tt) [] 50].

(** A service over the reals after one frame. *)
Definition one_frameR : VisionService.t (T:=R) :=
  fst (iterationR 33 VisionService.init
         (VisionService.mkInput (Some tt) [] 10)).


(** ** Further notions: calibration and object detection *)

Section CalibrationVocabulary.
Context {T : Type} `{Scalar T}.

(** A calibration that is valid has a camera matrix. *)
Definition well_formed (cal : CameraCalibration.CalibrationData (T:=T))
    : Prop :=
  CameraCalibration.is_valid cal = true ->
  CameraCalibration.camera_matrix cal <> None.

Definition has_matrix (cal : CameraCalibration.CalibrationData (T:=T))
    : bool :=
  match CameraCalibration.camera_matrix cal with
  | Some _ => true
  | None => false
  end.

End CalibrationVocabulary.

Section CaptureVocabulary.
Context {T : Type} `{Scalar T}.
Variable Image : Type.
Variable channels : Image -> Z.
Variable cvtColor_BGR2GRAY : Image -> Image.
Variable findChessboardCorners : Image -> Size -> bool * list (Point2 T).
Variable cornerSubPix : Image -> list (Point2 T) -> list (Point2 T).
Variable drawChessboardCorners :
  Image -> Size -> list (Point2 T) -> bool -> Image.
Variable putText : Image -> string -> Image.
Variable to_string : Z -> string.

(** An image that is a frame of the camera in which the board was found,
    with the corners drawn into it and the text written over it. *)
Definition annotated (pattern_size : Size) (num_frames : Z) (image : Image)
    : Prop :=
  exists frame frames_collected,
    CameraCalibration.annotate channels cvtColor_BGR2GRAY
      findChessboardCorners cornerSubPix drawChessboardCorners putText
      to_string frame pattern_size frames_collected num_frames
    = (true, image).

End CaptureVocabulary.

(** A camera for the calibration code, in binary64: frames are numbered,
    the chessboard is found in the frames that are not negative, drawing
    the corners adds 1000 to the number of a frame and writing text over
    it adds 100000. *)
Definition board_found (image : Z) (pattern_size : Size)
    : bool * list (Point2 float) :=
  ((0 <=? image)%Z, []).

Definition fixed_calibration (object_points : list (list (Point3 float)))
    (image_points : list (list (Point2 float))) (size : Size)
    : float * Mat33 float * list float :=
  (0.5%float, identity33, [0; 0; 0; 0; 0]%float).

Definition calibrate64 :=
  CameraCalibration.calibrate (T:=float) (Image:=Z)
    (fun _ => mkSize 640 480) (fun _ => 3%Z) (fun i => i)
    board_found (fun _ corners => corners) fixed_calibration.

Definition capture64 :=
  CameraCalibration.capture (T:=float) (Image:=Z)
    (fun _ => 3%Z) (fun i => i) board_found (fun _ corners => corners)
    (fun image _ _ _ => (image + 1000)%Z)
    (fun image _ => (image + 100000)%Z)
    (fun _ => EmptyString).

Definition calibrateFromCamera64 :=
  CameraCalibration.calibrateFromCamera (T:=float) (Image:=Z)
    (fun _ => mkSize 640 480) (fun _ => 3%Z) (fun i => i)
    board_found (fun _ corners => corners) fixed_calibration
    (fun image _ _ _ => (image + 1000)%Z)
    (fun image _ => (image + 100000)%Z)
    (fun _ => EmptyString).

(** A calibration with intrinsics and extrinsics, in binary64. *)
Definition full_calibration : CameraCalibration.CalibrationData (T:=float) :=
  CameraCalibration.mkData (Some identity33) [0.125; 0.5]%float
    (mkSize 640 480) (Some identity33) (Some (mkPoint3 1 2 3)%float)
    true 0.25%float.

(** Frames 5, -1 and 7, the space bar pressed on each. *)
Definition three_captures : list (CameraCalibration.CaptureEvent Z) :=
  [CameraCalibration.mkEvent (Some 5%Z) 32;
   CameraCalibration.mkEvent (Some (-1)%Z) 32;
   CameraCalibration.mkEvent (Some 7%Z) 32].

(** Frame 5 with the space bar, then frame 6 with ESC. *)
Definition cancelled_capture : list (CameraCalibration.CaptureEvent Z) :=
  [CameraCalibration.mkEvent (Some 5%Z) 32;
   CameraCalibration.mkEvent (Some 6%Z) 27].

(** ** Further notions: object detection *)

Section DetectionVocabulary.
Context {T : Type} `{Scalar T}.
Local Open Scope Z_scope.

(** Number [k] of detection [i] of an output: [detection[k]] in
    [postprocess]. *)
Definition detection_at (output : ObjectDetector.Output (T:=T)) (i k : Z)
    : T :=
  ObjectDetector.at_index (ObjectDetector.data output)
    (i * (4 + (ObjectDetector.size2 output - 4)) + k).

(** The threshold is below zero or below one of the class scores. *)
Definition some_score_above (threshold : T) (detection : Z -> T)
    (num_classes : Z) : bool :=
  flt threshold lit0
  || existsb (fun j => flt threshold (detection (4 + j)))
       (range num_classes).

(** Indices that each name one of [n] boxes. *)
Definition indices_in_range (n : nat) (indices : list Z) : Prop :=
  Forall (fun idx => 0 <= idx < Z.of_nat n) indices.

(** A suppression that returns only indices of the boxes it is given. *)
Definition returns_indices
    (NMSBoxes : list Rect -> list T -> T -> T -> list Z) : Prop :=
  forall boxes confidences score_threshold nms_threshold,
    indices_in_range (List.length boxes)
      (NMSBoxes boxes confidences score_threshold nms_threshold).

End DetectionVocabulary.

(** Truncation of a binary64 value toward zero, for values in the range
    of [int]. *)
Definition trunc64 (x : float) : Z :=
  match Prim2SF x with
  | S754_finite s m e =>
      cond_Zopp s
        (if (0 <=? e)%Z then Z.pos m * 2 ^ e else Z.pos m / 2 ^ (- e))%Z
  | _ => 0%Z
  end.

(** A suppression that keeps every box. *)
Definition keep_all (boxes : list Rect) (confidences : list float)
    (score_threshold nms_threshold : float) : list Z :=
  range (Z.of_nat (List.length boxes)).

(** One output with two detections of two classes each: the class scores
    of the first are 0.25 and 0.75, those of the second 0.125 and
    0.0625. *)
Definition two_detections : list (ObjectDetector.Output (T:=float)) :=
  [ObjectDetector.mkOutput 2 6
     [320; 240; 64; 48; 0.25; 0.75;
      100; 100; 10; 10; 0.125; 0.0625]%float].

Definition postprocess64 :=
  ObjectDetector.postprocess (T:=float) (Image:=unit)
    (fun _ => 640%Z) (fun _ => 480%Z) keep_all trunc64.

Definition detect64 :=
  ObjectDetector.detect (T:=float) (Image:=unit)
    (fun _ => 640%Z) (fun _ => 480%Z) (fun _ _ => two_detections)
    keep_all trunc64.

(** * Properties *)

(** Unfolding of the arithmetic of the real instance. *)
Ltac real_arith :=
  cbv [add sub mul div neg fabs fsqrt flt to_float of_int lit0 lit1 lit_1e_6
       Scalar_real dot mat_vec mat_mul transpose vsub vneg vdiv cv_norm
       identity33 zero3 zero2 zero33
       px py x3 y3 z3 m00 m01 m02 m10 m11 m12 m20 m21 m22] in *.

Lemma Rltb_false (x y : R) : Rltb x y = false -> (y <= x)%R.
Proof. unfold Rltb. destruct (Rlt_dec x y); [ discriminate | lra ]. Qed.

Lemma Rltb_ge (x y : R) : (y <= x)%R -> Rltb x y = false.
Proof. unfold Rltb. destruct (Rlt_dec x y); [ lra | reflexivity ]. Qed.

(** ** Ray and plane *)

Section RayPlane.
Context {T : Type} `{Scalar T}.
Local Open Scope scalar_scope.

(** C2. For every ray origin, direction, plane normal and plane point,
    and for every arithmetic, [intersectRayPlane] returns no intersection
    exactly when [|direction . normal| < 1e-6] or
    [t = ((planePoint - origin) . normal) / (direction . normal)] is below
    zero; in every other case it returns [origin + t * direction]. *)
Theorem intersectRayPlane_cases :
  forall o d n p : Point3 T,
    let t := ray_plane_t o d n p in
    (CoordinateTransform.intersectRayPlane o d n p = None <->
       (fabs (dot d n) <? lit_1e_6) = true \/ (t <? lit0) = true)
    /\ CoordinateTransform.intersectRayPlane o d n p =
         if (fabs (dot d n) <? lit_1e_6) || (t <? lit0) then None
         else Some (point_along o d t).
Proof.
  intros o d n p t. subst t.
  unfold CoordinateTransform.intersectRayPlane, ray_plane_t, point_along.
  destruct (fabs (dot d n) <? lit_1e_6) eqn:Hpar; cbn [orb].
  - split; [ | reflexivity ].
    split; [ intros _; now left | reflexivity ].
  - destruct (dot (vsub p o) n / dot d n <? lit0) eqn:Hneg.
    + split; [ | reflexivity ].
      split; [ intros _; now right | reflexivity ].
    + split; [ | reflexivity ].
      split; [ discriminate | intros [Hc | Hc]; discriminate ].
Qed.

End RayPlane.

Section RayPlaneExamples.
Local Open Scope float_scope.

(** The two degenerate cases of the specification, run in binary64: a
    direction orthogonal to the normal, and a plane behind the origin. *)
Example intersectRayPlane_parallel :
  CoordinateTransform.intersectRayPlane
    (mkPoint3 0 0 1) (mkPoint3 1 0 0) (mkPoint3 0 0 1) (mkPoint3 0 0 0)
  = None.
Proof. vm_compute. reflexivity. Qed.

Example intersectRayPlane_behind :
  CoordinateTransform.intersectRayPlane
    (mkPoint3 0 0 1) (mkPoint3 0 0 1) (mkPoint3 0 0 1) (mkPoint3 0 0 0)
  = None.
Proof. vm_compute. reflexivity. Qed.

Example intersectRayPlane_hit :
  CoordinateTransform.intersectRayPlane
    (mkPoint3 0 0 1) (mkPoint3 0 0 (-1)) (mkPoint3 0 0 1)
    (mkPoint3 0 0 0)
  = Some (mkPoint3 0 0 0).
Proof. vm_compute. reflexivity. Qed.

End RayPlaneExamples.

(** Over the reals, a returned point lies on the plane. *)
Lemma intersectRayPlane_on_plane (o d n p q : Point3 R) :
  CoordinateTransform.intersectRayPlane o d n p = Some q ->
  dot (vsub q p) n = 0%R.
Proof.
  unfold CoordinateTransform.intersectRayPlane.
  destruct (flt (fabs (dot d n)) lit_1e_6) eqn:Hpar; [ discriminate | ].
  destruct (flt _ lit0); [ discriminate | ].
  intros E. injection E as <-.
  apply Rltb_false in Hpar.
  assert (Hd : dot d n <> 0%R).
  { intro E. rewrite E in Hpar. real_arith. rewrite Rabs_R0 in Hpar. lra. }
  destruct o, d, n, p. real_arith. field. exact Hd.
Qed.

(** ** Image to world *)

Section ImageToWorld.
Context {T : Type} `{Scalar T}.
Local Open Scope scalar_scope.
Variable undistortPoints : Mat33 T -> list T -> Point2 T -> Point2 T.

(** C4. For every pixel and plane height, [imageToWorld] returns the
    zero point together with one diagnostic line exactly when calibration
    or pose is missing, when the world-frame ray has [|z| < 1e-6], or when
    [t = (zPlane - cameraPosition.z) / rayDirection.z] is below zero; in
    every other case it prints nothing and returns a point whose [z] is
    the requested [zPlane].  The function is total: no case raises. *)
Theorem imageToWorld_failure_cases :
  forall (ct : CoordinateTransform.t) (image_point : Point2 T) (z_plane : T),
    let r := CoordinateTransform.imageToWorld undistortPoints ct image_point
               z_plane in
    if imageToWorld_fails undistortPoints ct image_point z_plane then
      fst r = zero3 /\ exists diagnostic, snd r = [diagnostic]
    else
      z3 (fst r) = z_plane /\ snd r = [].
Proof.
  intros ct image_point z_plane r. subst r.
  unfold imageToWorld_fails, ground_t, CoordinateTransform.imageToWorld.
  destruct (negb (CoordinateTransform.has_calibration_ ct)
            || negb (CoordinateTransform.has_pose_ ct)); cbn [orb].
  - split; [ reflexivity | eexists; reflexivity ].
  - destruct (fabs _ <? lit_1e_6); cbn [orb].
    + split; [ reflexivity | eexists; reflexivity ].
    + destruct (_ <? lit0).
      * split; [ reflexivity | eexists; reflexivity ].
      * split; reflexivity.
Qed.

Lemma worldToImage_project :
  forall (ct : CoordinateTransform.t) (world_point : Point3 T),
    CoordinateTransform.has_calibration_ ct = true ->
    CoordinateTransform.has_pose_ ct = true ->
    CoordinateTransform.worldToImage ct world_point
    = (project (CoordinateTransform.camera_matrix_ ct)
               (CoordinateTransform.camera_pt_of ct world_point),
       []).
Proof.
  intros ct world_point Hcal Hpose.
  unfold CoordinateTransform.worldToImage. rewrite Hcal, Hpose.
  reflexivity.
Qed.


End ImageToWorld.

(** ** Rotations over the reals *)

Section Rotations.
Local Open Scope R_scope.

Lemma orthonormal_inverse (m : Mat33 R) (v : Point3 R) :
  orthonormal m -> mat_vec (transpose m) (mat_vec m v) = v.
Proof.
  destruct m as [a b c d e f g h i], v as [x y z].
  unfold orthonormal; real_arith.
  intros Ho. injection Ho as H00 H01 H02 H10 H11 H12 H20 H21 H22.
  f_equal.
  - replace (a * (a * x + b * y + c * z) + d * (d * x + e * y + f * z)
             + g * (g * x + h * y + i * z))
      with ((a * a + d * d + g * g) * x + (a * b + d * e + g * h) * y
            + (a * c + d * f + g * i) * z) by ring.
    rewrite H00, H01, H02. ring.
  - replace (b * (a * x + b * y + c * z) + e * (d * x + e * y + f * z)
             + h * (g * x + h * y + i * z))
      with ((b * a + e * d + h * g) * x + (b * b + e * e + h * h) * y
            + (b * c + e * f + h * i) * z) by ring.
    rewrite H10, H11, H12. ring.
  - replace (c * (a * x + b * y + c * z) + f * (d * x + e * y + f * z)
             + i * (g * x + h * y + i * z))
      with ((c * a + f * d + i * g) * x + (c * b + f * e + i * h) * y
            + (c * c + f * f + i * i) * z) by ring.
    rewrite H20, H21, H22. ring.
Qed.

Lemma orthonormal_norm (m : Mat33 R) (v : Point3 R) :
  orthonormal m -> dot (mat_vec m v) (mat_vec m v) = dot v v.
Proof.
  intros Ho.
  transitivity (dot v (mat_vec (transpose m) (mat_vec m v))).
  - destruct m as [a b c d e f g h i], v as [x y z]. real_arith. ring.
  - now rewrite orthonormal_inverse.
Qed.

Lemma mat_vec_vscale (m : Mat33 R) (k : R) (v : Point3 R) :
  mat_vec m (vscale k v) = vscale k (mat_vec m v).
Proof.
  destruct m, v. unfold vscale. real_arith. f_equal; ring.
Qed.

Lemma vdiv_vscale (v : Point3 R) (n : R) : vdiv v n = vscale (/ n) v.
Proof.
  destruct v. unfold vscale. real_arith. f_equal; unfold Rdiv; ring.
Qed.

Lemma vscale_vscale (a b : R) (v : Point3 R) :
  vscale a (vscale b v) = vscale (a * b) v.
Proof. destruct v. unfold vscale; cbn. f_equal; ring. Qed.

Lemma vsub_point_along (o d : Point3 R) (t : R) :
  vsub (point_along o d t) o = vscale t d.
Proof.
  destruct o, d. unfold vscale, point_along. real_arith. f_equal; ring.
Qed.

Lemma cv_norm_rotated_pos (m : Mat33 R) (a b : R) :
  orthonormal m -> 0 < cv_norm (mat_vec m (mkPoint3 a b 1)).
Proof.
  intros Ho.
  assert (Hd := orthonormal_norm (mkPoint3 a b 1) Ho).
  unfold cv_norm. unfold dot in Hd.
  change (fsqrt ?x) with (sqrt x).
  rewrite Hd. cbn [x3 y3 z3]. apply sqrt_lt_R0. real_arith. nra.
Qed.

End Rotations.

Section RotationInstances.
Local Open Scope R_scope.

Lemma identity_orthonormal : orthonormal identity33.
Proof. unfold orthonormal. real_arith. f_equal; ring. Qed.

End RotationInstances.

Section RoundTripFailures.
Local Open Scope float_scope.

(** C1.  The code does not make the round trip, because [imageToWorld]
    starts its ray at [- Rt * t], the camera centre of a world-to-camera
    pose, while the pose is documented as camera to world and
    [worldToImage] reads it so.  In binary64 on an ideal camera (identity
    intrinsics and rotation, no distortion) with translation (1, 0, 0):
    calibration and pose are set, the ray of the pixel (0, 0) is not
    parallel to the plane [z = 1] and meets it at parameter 1, in front
    of the camera; [imageToWorld] starts at x = -1, returns (-1, 0, 1)
    with no diagnostic, and [worldToImage] sends that point to the pixel
    (-2, 0), while it sends (1, 0, 1), the point of the plane straight
    ahead of a camera at (1, 0, 0), to the pixel (0, 0).  With
    translation (0, 0, 1) the plane [z = 0] is behind a camera at
    (0, 0, 1) that looks along [+z]; [imageToWorld] still reports the
    hit (0, 0, 0) at parameter 1 with no diagnostic, a point that
    [worldToImage] has at depth -1. *)
Theorem roundtrip_camera_position_slip :
  (let ct := ideal_camera (mkPoint3 1 0 0) in
   CoordinateTransform.has_calibration_ ct = true
   /\ CoordinateTransform.has_pose_ ct = true
   /\ imageToWorld_fails pinhole64 ct (mkPoint2 0 0) 1 = false
   /\ ground_t pinhole64 ct (mkPoint2 0 0) 1 = 1
   /\ x3 (CoordinateTransform.cam_pos_world_of ct) = (-1)
   /\ CoordinateTransform.imageToWorld pinhole64 ct (mkPoint2 0 0) 1
      = (mkPoint3 (-1) 0 1, [])
   /\ CoordinateTransform.worldToImage ct (mkPoint3 (-1) 0 1)
      = (mkPoint2 (-2) 0, [])
   /\ CoordinateTransform.worldToImage ct (mkPoint3 1 0 1)
      = (mkPoint2 0 0, []))
  /\
  (let ct := ideal_camera (mkPoint3 0 0 1) in
   imageToWorld_fails pinhole64 ct (mkPoint2 0 0) 0 = false
   /\ ground_t pinhole64 ct (mkPoint2 0 0) 0 = 1
   /\ CoordinateTransform.imageToWorld pinhole64 ct (mkPoint2 0 0) 0
      = (mkPoint3 0 0 0, [])
   /\ z3 (CoordinateTransform.camera_pt_of ct (mkPoint3 0 0 0)) = (-1)).
Proof. vm_compute. repeat split. Qed.

(** At ray parameter 0 the world point is the camera centre, and
    [worldToImage] divides 0 by 0: with zero translation and the plane
    [z = 0] the pixel (0, 0) comes back as NaN. *)
Example roundtrip_at_parameter_0 :
  let ct := ideal_camera (mkPoint3 0 0 0) in
  imageToWorld_fails pinhole64 ct (mkPoint2 0 0) 0 = false
  /\ CoordinateTransform.imageToWorld pinhole64 ct (mkPoint2 0 0) 0
     = (mkPoint3 0 0 0, [])
  /\ CoordinateTransform.worldToImage ct (mkPoint3 0 0 0)
     = (mkPoint2 nan nan, []).
Proof. vm_compute. repeat split. Qed.



End RoundTripFailures.

Lemma camera_pt_reflect (ct : CoordinateTransform.t) (w : Point3 R) :
  CoordinateTransform.camera_pt_of ct
    (reflect_through (CoordinateTransform.translation_ ct) w)
  = vscale (-1) (CoordinateTransform.camera_pt_of ct w).
Proof.
  unfold CoordinateTransform.camera_pt_of, reflect_through, vscale.
  destruct (CoordinateTransform.rotation_ ct) as [a b c d e f g h i].
  destruct (CoordinateTransform.translation_ ct) as [tx ty tz].
  destruct w as [x y z]. real_arith. f_equal; ring.
Qed.

Lemma project_opposite (k : Mat33 R) (p : Point3 R) :
  z3 p <> 0%R -> project k (vscale (-1) p) = project k p.
Proof.
  destruct k, p as [x y z]. unfold project, vscale. real_arith.
  intros Hz. f_equal; field; exact Hz.
Qed.

(** Over the reals a point behind the camera has the pixel of its mirror
    image in front: [worldToImage] cannot tell the two apart. *)
Lemma worldToImage_mirror (ct : CoordinateTransform.t) (w : Point3 R) :
  CoordinateTransform.has_calibration_ ct = true ->
  CoordinateTransform.has_pose_ ct = true ->
  z3 (CoordinateTransform.camera_pt_of ct w) <> 0%R ->
  CoordinateTransform.worldToImage ct
    (reflect_through (CoordinateTransform.translation_ ct) w)
  = CoordinateTransform.worldToImage ct w.
Proof.
  intros Hcal Hpose Hz.
  rewrite !worldToImage_project by assumption.
  now rewrite camera_pt_reflect, project_opposite.
Qed.

(** ** Marker pose *)

Section MarkerPose.
Context {T : Type} `{Scalar T}.
Variable Image : Type.
Variable channels : Image -> Z.
Variable cvtColor_BGR2GRAY : Image -> Image.
Variable apriltag_detector_detect :
  AprilTagDetector.detector (T:=T) -> Image ->
  list (AprilTagDetector.apriltag_detection (T:=T)).
Variable estimate_tag_pose :
  AprilTagDetector.apriltag_detection_info (T:=T) ->
  T * AprilTagDetector.apriltag_pose (T:=T).

(** C3, as amended.  For every detection, camera matrix, tag size and
    pose solver: when a camera matrix is supplied the result has
    [pose_valid = true] and its rotation and translation are whatever the
    solver filled in for the detection, the tag size and the four
    intrinsics, without any check of that outcome; when the camera matrix
    is empty the result has [pose_valid = false] and rotation and
    translation are left unset.  The function is total: nothing is
    raised. *)
Theorem pose_valid_iff_camera_matrix :
  forall (camera_matrix : option (Mat33 T)) (tag_size : T)
         (d : AprilTagDetector.apriltag_detection),
    let r := AprilTagDetector.process_detection estimate_tag_pose
               camera_matrix tag_size d in
    match camera_matrix with
    | Some k =>
        let pose :=
          snd (estimate_tag_pose
                 (AprilTagDetector.mkInfo d tag_size (m00 k) (m11 k)
                    (m02 k) (m12 k))) in
        AprilTagDetector.pose_valid r = true
        /\ AprilTagDetector.rotation r = Some (AprilTagDetector.pose_R pose)
        /\ AprilTagDetector.translation r
           = Some (AprilTagDetector.pose_t pose)
    | None =>
        AprilTagDetector.pose_valid r = false
        /\ AprilTagDetector.rotation r = None
        /\ AprilTagDetector.translation r = None
    end.
Proof.
  intros [k | ] tag_size d r; subst r;
    unfold AprilTagDetector.process_detection, AprilTagDetector.estimatePose.
  - destruct (estimate_tag_pose _) as [err pose]. cbn. repeat split.
  - cbn. repeat split.
Qed.

(** C10. [detect] does not depend on its [dist_coeffs] argument: two
    calls on the same detector, image, camera matrix and tag size return
    the same list of results whatever distortion coefficients each is
    given.  The results are the per-detection results computed from the
    detections as the detector returned them (corner pixels untouched),
    the camera matrix and the tag size alone. *)
Theorem detect_ignores_dist_coeffs :
  forall (dt : AprilTagDetector.detector) (image : Image)
         (camera_matrix : option (Mat33 T)) (tag_size : T)
         (dist_coeffs1 dist_coeffs2 : list T),
    AprilTagDetector.detect channels cvtColor_BGR2GRAY
      apriltag_detector_detect estimate_tag_pose
      dt image camera_matrix dist_coeffs1 tag_size
    = AprilTagDetector.detect channels cvtColor_BGR2GRAY
        apriltag_detector_detect estimate_tag_pose
        dt image camera_matrix dist_coeffs2 tag_size
    /\ AprilTagDetector.detect channels cvtColor_BGR2GRAY
         apriltag_detector_detect estimate_tag_pose
         dt image camera_matrix dist_coeffs1 tag_size
       = map (AprilTagDetector.process_detection estimate_tag_pose
                camera_matrix tag_size)
             (apriltag_detector_detect dt
                (if (channels image =? 3)%Z then cvtColor_BGR2GRAY image
                 else image)).
Proof. intros. split; reflexivity. Qed.

End MarkerPose.

(** C3 fails as stated: on a detection whose solve fails (every entry of
    the pose NaN) the result still has [pose_valid = true], with the NaN
    rotation and translation stored in it; that rotation is neither
    finite nor orthonormal within any tolerance. *)
Lemma pose_valid_counterexample :
  let r := AprilTagDetector.process_detection failing_solver
             (Some identity33) (decimal 15 1000) degenerate_detection in
  AprilTagDetector.pose_valid r = true
  /\ AprilTagDetector.rotation r = Some nan_rotation
  /\ AprilTagDetector.translation r = Some nan_translation
  /\ forall tol, acceptable_rotation tol nan_rotation = false.
Proof. vm_compute. repeat split. Qed.

(** ** Service lifecycle *)

Section Lifecycle.
Context {T : Type} `{Scalar T}.

(** Membership of a printed line in an explicit list of actions. *)
Ltac find_line :=
  repeat first [ left; reflexivity | right ].

(** [model_loads] and [class_names_load] are what the calls made by
    [start] return, whatever the detector holds. *)
Lemma loadModel_returns (env : VisionService.StartEnv (T:=T))
    (od : ObjectDetector.t) (model_path : string) :
  fst (fst (ObjectDetector.loadModel (T:=T) od model_path
              (VisionService.model_read env)))
  = VisionService.model_loads env.
Proof.
  unfold VisionService.model_loads.
  destruct (VisionService.model_read env) as [[ | ] | what]; reflexivity.
Qed.

Lemma loadClassNames_returns (env : VisionService.StartEnv (T:=T))
    (od : ObjectDetector.t) (names_file : string) :
  fst (fst (ObjectDetector.loadClassNames (T:=T) od names_file
              (VisionService.class_names_file env)))
  = VisionService.class_names_load env.
Proof.
  unfold VisionService.class_names_load.
  destruct (VisionService.class_names_file env); reflexivity.
Qed.

(** C5. The lifecycle is a two-state machine on [running_].  While
    running, [start] changes nothing and returns [false], and [stop]
    leaves the service stopped.  While stopped, [stop] changes nothing and
    prints nothing, and [start] returns whether the camera opened, which
    is also whether the service is running afterwards (and a [stop] after
    it leaves the service stopped again): a calibration file that cannot
    be loaded, a model or class-name file that cannot be loaded, and the
    failed pub/sub initialisation change neither, and each leaves its
    line in the output. *)
Theorem service_lifecycle :
  forall (env : VisionService.StartEnv (T:=T))
         (st : VisionService.t (T:=T)),
    let started := VisionService.start env st in
    let stopped := VisionService.stop st in
    if VisionService.running_ st then
      started
      = (false, st, [Cerr [Str "Vision service already running"]])
      /\ VisionService.running_ (fst stopped) = false
    else
      stopped = (st, [])
      /\ fst (fst started) = VisionService.camera_opens env
      /\ VisionService.running_ (snd (fst started))
         = VisionService.camera_opens env
      /\ VisionService.running_
           (fst (VisionService.stop (snd (fst started)))) = false
      /\ (VisionService.camera_opens env = true ->
          (VisionService.model_loads env = false ->
           In (Cerr [Str "Warning: Failed to load YOLO model - object detection disabled"])
              (snd started))
          /\ (VisionService.class_names_load env = false ->
              In (Cerr [Str "Warning: Failed to load class names"])
                 (snd started))
          /\ (fst (fst (VisionService.load
                          (VisionService.camera_calibration_ st)
                          (VisionService.calibration_file env)
                          "calibration.yml")) = false ->
              In (Cout [Str "No calibration file found - pose estimation will be less accurate"])
                 (snd started))
          /\ In (Cerr [Str "Warning: Zenoh initialization failed - pub/sub disabled"])
                (snd started)).
Proof.
  intros env st started stopped. subst started stopped.
  unfold VisionService.start, VisionService.stop.
  destruct (VisionService.running_ st) eqn:Hrun; cbn [negb].
  - split; [ reflexivity | ].
    cbn. destruct (VisionService.thread_joinable st); cbn;
      destruct (VisionService.camera_opened st); reflexivity.
  - split; [ reflexivity | ].
    cbn [VisionService.set_camera_opened VisionService.camera_opened
         VisionService.camera_calibration_].
    destruct (VisionService.camera_opens env) eqn:Hopen; cbn [negb].
    + unfold VisionService.load, VisionService.model_loads,
        VisionService.class_names_load.
      destruct (VisionService.calibration_file env) as [ | [k | ] dist ];
        destruct (VisionService.model_read env) as [[ | ] | what];
        destruct (VisionService.class_names_file env) as [lines | ];
        cbn; repeat split; intros; try discriminate; find_line.
    + cbn. rewrite ?Hrun. cbn. repeat split; try exact Hrun; discriminate.
Qed.

(** Assigning a new [std::thread] to [processing_thread_] requires that
    it is not joinable.  The service keeps [processing_thread_] joinable
    exactly while [running_] is set, so [start] never assigns over a
    joinable thread: the property holds after construction and is kept by
    [start] and [stop]. *)
Lemma joinable_iff_running :
  VisionService.thread_joinable (VisionService.init (T:=T))
  = VisionService.running_ (VisionService.init (T:=T))
  /\ forall (env : VisionService.StartEnv (T:=T))
            (st : VisionService.t (T:=T)),
       VisionService.thread_joinable st = VisionService.running_ st ->
       VisionService.thread_joinable (snd (fst (VisionService.start env st)))
       = VisionService.running_ (snd (fst (VisionService.start env st)))
       /\ VisionService.thread_joinable (fst (VisionService.stop st))
          = VisionService.running_ (fst (VisionService.stop st)).
Proof.
  split; [ reflexivity | ].
  intros env st Hinv.
  unfold VisionService.start, VisionService.stop.
  destruct (VisionService.running_ st) eqn:Hrun; cbn [negb fst snd].
  - split; [ now rewrite Hrun | ].
    rewrite Hinv. cbn.
    destruct (VisionService.camera_opened st); reflexivity.
  - split; [ | now rewrite Hrun ].
    cbn [VisionService.set_camera_opened VisionService.camera_opened
         VisionService.camera_calibration_].
    destruct (VisionService.camera_opens env); cbn [negb fst snd].
    + unfold VisionService.load.
      destruct (VisionService.calibration_file env) as [ | [k | ] dist ];
        destruct (VisionService.model_read env) as [[ | ] | what];
        destruct (VisionService.class_names_file env) as [lines | ];
        reflexivity.
    + cbn. now rewrite Hrun.
Qed.

End Lifecycle.

(** ** Processing loop *)

Section Loop.
Context {T : Type} `{Scalar T}.
Variable Image : Type.
Variable channels : Image -> Z.
Variable cvtColor_BGR2GRAY : Image -> Image.
Variable apriltag_detector_detect :
  AprilTagDetector.detector (T:=T) -> Image ->
  list (AprilTagDetector.apriltag_detection (T:=T)).
Variable estimate_tag_pose :
  AprilTagDetector.apriltag_detection_info (T:=T) ->
  T * AprilTagDetector.apriltag_pose (T:=T).
Local Open Scope Z_scope.

Local Abbreviation iteration :=
  (VisionService.iteration channels cvtColor_BGR2GRAY
     apriltag_detector_detect estimate_tag_pose).
Local Abbreviation run_iterations :=
  (VisionService.run_iterations channels cvtColor_BGR2GRAY
     apriltag_detector_detect estimate_tag_pose).
Local Abbreviation processingLoop :=
  (VisionService.processingLoop channels cvtColor_BGR2GRAY
     apriltag_detector_detect estimate_tag_pose).

Local Abbreviation tags_at :=
  (tags_of channels cvtColor_BGR2GRAY apriltag_detector_detect
     estimate_tag_pose).
Local Abbreviation counted_at :=
  (counted channels cvtColor_BGR2GRAY apriltag_detector_detect
     estimate_tag_pose).

Lemma iteration_frame :
  forall fd st inp frame,
    VisionService.frame inp = Some frame ->
    iteration fd st inp
    = (counted_at st frame (VisionService.objects inp),
       VisionService.print_tags (tags_at st frame)
       ++ VisionService.print_detect (VisionService.object_detector_ st)
       ++ VisionService.print_objects (VisionService.objects inp)
       ++ (if VisionService.frame_count_
                (counted_at st frame (VisionService.objects inp)) mod 100 =? 0
           then VisionService.publishStatus
                  (counted_at st frame (VisionService.objects inp))
           else [])
       ++ (if fd - VisionService.elapsed inp >? 0
           then [Sleep (fd - VisionService.elapsed inp)] else [])).
Proof.
  intros fd st inp frame Hf.
  unfold VisionService.iteration, counted, tags_of. rewrite Hf.
  cbn [VisionService.set_counters VisionService.camera_calibration_
       VisionService.frame_count_ VisionService.total_frames_processed_
       VisionService.total_tags_detected_
       VisionService.total_objects_detected_
       VisionService.apriltag_detector_ VisionService.apriltag_size_
       VisionService.object_detector_].
  destruct (VisionService.is_valid (VisionService.camera_calibration_ st));
    reflexivity.
Qed.

Lemma iteration_no_frame :
  forall fd st inp,
    VisionService.frame inp = None ->
    iteration fd st inp
    = (st, [Cerr [Str "Failed to read frame from camera"]; Sleep 100]).
Proof.
  intros fd st inp Hf. unfold VisionService.iteration. now rewrite Hf.
Qed.

Lemma total_sleep_app (a b : list (Action T)) :
  total_sleep (a ++ b) = total_sleep a + total_sleep b.
Proof.
  induction a as [ | [l | l | ms] a IH ]; cbn [app total_sleep];
    rewrite ?IH; lia.
Qed.

Lemma has_status_app (a b : list (Action T)) :
  has_status (a ++ b) = has_status a || has_status b.
Proof. apply existsb_app. Qed.

Lemma print_tags_quiet (tags : list (AprilTagDetector.AprilTagResult (T:=T))) :
  total_sleep (VisionService.print_tags tags) = 0
  /\ has_status (VisionService.print_tags tags) = false.
Proof.
  unfold VisionService.print_tags.
  destruct tags as [ | tag0 tags0 ]; [ split; reflexivity | ].
  set (tags := tag0 :: tags0). clearbody tags.
  cbn [total_sleep has_status existsb is_status_header orb].
  fold (has_status (T:=T)).
  induction tags as [ | tag tags [IHs IHh] ]; [ split; reflexivity | ].
  cbn [flat_map].
  destruct (AprilTagDetector.pose_valid tag); cbn; auto.
Qed.

Lemma print_objects_quiet (objs : list (VisionService.DetectedObject (T:=T))) :
  total_sleep (VisionService.print_objects objs) = 0
  /\ has_status (VisionService.print_objects objs) = false.
Proof.
  unfold VisionService.print_objects.
  destruct objs as [ | obj0 objs0 ]; [ split; reflexivity | ].
  set (objs := obj0 :: objs0). clearbody objs.
  cbn [total_sleep has_status existsb is_status_header orb].
  fold (has_status (T:=T)).
  induction objs as [ | obj objs [IHs IHh] ]; [ split; reflexivity | ].
  cbn; auto.
Qed.

Lemma print_detect_quiet (od : ObjectDetector.t) :
  total_sleep (VisionService.print_detect (T:=T) od) = 0
  /\ has_status (VisionService.print_detect (T:=T) od) = false.
Proof.
  unfold VisionService.print_detect.
  destruct (negb _ && negb _); split; reflexivity.
Qed.

(** [print_detect] is what [ObjectDetector::detect] prints, and when it
    prints, [detect] returns no object. *)
Lemma print_detect_of_detect (Frame : Type) (cols rows : Frame -> Z)
    (forward : Frame -> Size -> list (ObjectDetector.Output (T:=T)))
    (NMSBoxes : list Rect -> list T -> T -> T -> list Z) (to_int : T -> Z)
    (od : ObjectDetector.t) (image : Frame) (confidence nms : T) :
  snd (ObjectDetector.detect cols rows forward NMSBoxes to_int od image
         confidence nms)
  = VisionService.print_detect od
  /\ (VisionService.print_detect (T:=T) od <> [] ->
      fst (ObjectDetector.detect cols rows forward NMSBoxes to_int od image
             confidence nms)
      = []).
Proof.
  unfold ObjectDetector.detect, VisionService.print_detect.
  destruct (negb _ && negb _); cbn [fst snd].
  - split; reflexivity.
  - split; [ reflexivity | ]. intros Hne. now contradiction Hne.
Qed.

Lemma publishStatus_sleep (st : VisionService.t (T:=T)) :
  total_sleep (VisionService.publishStatus st) = 0.
Proof. reflexivity. Qed.

Lemma iteration_sleep fd st inp :
  total_sleep (snd (iteration fd st inp)) = pass_sleep fd inp.
Proof.
  unfold pass_sleep.
  destruct (VisionService.frame inp) as [frame | ] eqn:Hf.
  - rewrite (iteration_frame fd st inp Hf). cbn [snd].
    rewrite !total_sleep_app.
    rewrite (proj1 (print_tags_quiet _)), (proj1 (print_detect_quiet _)),
      (proj1 (print_objects_quiet _)).
    destruct (_ mod 100 =? 0); rewrite ?publishStatus_sleep;
      cbn [total_sleep];
      destruct (fd - VisionService.elapsed inp >? 0) eqn:Hs;
      cbn [total_sleep]; lia.
  - rewrite (iteration_no_frame fd st inp Hf). reflexivity.
Qed.

Lemma run_iterations_sleep fd inputs :
  forall st,
    total_sleep (snd (run_iterations fd st inputs))
    = fold_right (fun inp acc => pass_sleep fd inp + acc) 0 inputs.
Proof.
  induction inputs as [ | inp rest IH ]; intros st; [ reflexivity | ].
  cbn [VisionService.run_iterations fold_right].
  pose proof (iteration_sleep fd st inp) as Hs.
  destruct (iteration fd st inp) as [st1 out1].
  specialize (IH st1).
  destruct (run_iterations fd st1 rest) as [st2 out2].
  cbn [snd] in *. rewrite total_sleep_app. lia.
Qed.

(** C6, as amended.  A pass of the loop that read a frame sleeps
    [max 0 (targetPeriod - elapsed)] after its body, so not at all when
    the body took the period or longer; a pass whose frame read failed
    sleeps the fixed 100 ms back-off instead.  The sleep of a pass is the
    same in every service state, and the sleep of a run is the sum of the
    sleeps of its passes: no deficit is carried from one pass to a
    later one. *)
Theorem pacing_per_pass :
  forall (fd : Z) (st : VisionService.t)
         (inp : VisionService.IterationInput (T:=T) Image),
    total_sleep (snd (iteration fd st inp))
    = match VisionService.frame inp with
      | Some _ => Z.max 0 (fd - VisionService.elapsed inp)
      | None => 100
      end
    /\ (forall st', total_sleep (snd (iteration fd st' inp))
                    = total_sleep (snd (iteration fd st inp)))
    /\ (forall inputs,
          total_sleep (snd (run_iterations fd st inputs))
          = fold_right (fun i acc => pass_sleep fd i + acc) 0 inputs).
Proof.
  intros fd st inp. repeat split.
  - apply iteration_sleep.
  - intros st'. now rewrite !iteration_sleep.
  - intros inputs. apply run_iterations_sleep.
Qed.

End Loop.

Section LoopStatus.
Context {T : Type} `{Scalar T}.
Variable Image : Type.
Variable channels : Image -> Z.
Variable cvtColor_BGR2GRAY : Image -> Image.
Variable apriltag_detector_detect :
  AprilTagDetector.detector (T:=T) -> Image ->
  list (AprilTagDetector.apriltag_detection (T:=T)).
Variable estimate_tag_pose :
  AprilTagDetector.apriltag_detection_info (T:=T) ->
  T * AprilTagDetector.apriltag_pose (T:=T).
Local Open Scope Z_scope.

Local Abbreviation iteration :=
  (VisionService.iteration channels cvtColor_BGR2GRAY
     apriltag_detector_detect estimate_tag_pose).
Local Abbreviation run_iterations :=
  (VisionService.run_iterations channels cvtColor_BGR2GRAY
     apriltag_detector_detect estimate_tag_pose).
Local Abbreviation processingLoop :=
  (VisionService.processingLoop channels cvtColor_BGR2GRAY
     apriltag_detector_detect estimate_tag_pose).
Local Abbreviation tags_at :=
  (tags_of channels cvtColor_BGR2GRAY apriltag_detector_detect
     estimate_tag_pose).
Local Abbreviation counted_at :=
  (counted channels cvtColor_BGR2GRAY apriltag_detector_detect
     estimate_tag_pose).

Lemma publishStatus_has_status (st : VisionService.t (T:=T)) :
  has_status (VisionService.publishStatus st) = true.
Proof. reflexivity. Qed.

Lemma iteration_status :
  forall fd st inp frame,
    VisionService.frame inp = Some frame ->
    has_status (snd (iteration fd st inp))
    = (VisionService.frame_count_
         (counted_at st frame (VisionService.objects inp)) mod 100 =? 0).
Proof.
  intros fd st inp frame Hf.
  rewrite (iteration_frame channels cvtColor_BGR2GRAY
             apriltag_detector_detect estimate_tag_pose fd st inp Hf).
  cbn [snd]. rewrite !has_status_app.
  rewrite (proj2 (print_tags_quiet _)), (proj2 (print_detect_quiet _)),
    (proj2 (print_objects_quiet _)).
  cbn [orb].
  destruct (_ mod 100 =? 0).
  - rewrite publishStatus_has_status. reflexivity.
  - cbn [has_status existsb orb].
    destruct (fd - VisionService.elapsed inp >? 0); reflexivity.
Qed.

(** C7, as amended.  A pass whose frame read failed emits no status and
    leaves the counters alone.  A pass that read a frame emits the status
    summary exactly when the 32-bit frame counter, once incremented, is
    a multiple of 100; that counter is positive unless the increment
    wrapped it to 0.  The summary reports the cumulative frames, tags and
    objects of the service after the pass and the average-fps figure
    [framesProcessed / (frameIndex / targetFps)], computed in [float]. *)
Theorem status_cadence :
  forall (fd : Z) (st : VisionService.t (T:=T))
         (inp : VisionService.IterationInput (T:=T) Image),
    let r := iteration fd st inp in
    match VisionService.frame inp with
    | None => fst r = st /\ has_status (snd r) = false
    | Some frame =>
        let st' := counted_at st frame (VisionService.objects inp) in
        fst r = st'
        /\ has_status (snd r) = (VisionService.frame_count_ st' mod 100 =? 0)
        /\ (VisionService.frame_count_ st' mod 100 = 0 ->
            exists before after,
              snd r = before ++ VisionService.publishStatus st' ++ after)
        /\ VisionService.frame_count_ st'
           = (VisionService.frame_count_ st + 1) mod 2 ^ 32
        /\ (0 <= VisionService.frame_count_ st < 2 ^ 32 - 1 ->
            0 < VisionService.frame_count_ st')
        /\ VisionService.publishStatus st'
           = [Cout [Str "Vision Status:"];
              Cout [Str "  Frames processed: ";
                    Int ((VisionService.total_frames_processed_ st + 1)
                         mod 2 ^ 32)];
              Cout [Str "  Tags detected: ";
                    Int ((VisionService.total_tags_detected_ st
                          + Z.of_nat (List.length (tags_at st frame)))
                         mod 2 ^ 32)];
              Cout [Str "  Objects detected: ";
                    Int ((VisionService.total_objects_detected_ st
                          + Z.of_nat
                              (List.length (VisionService.objects inp)))
                         mod 2 ^ 32)];
              Cout [Str "  Average FPS: ";
                    Dbl (to_float
                           (div
                              (to_float
                                 (of_int
                                    (VisionService.total_frames_processed_
                                       st')))
                              (to_float
                                 (div
                                    (to_float
                                       (of_int
                                          (VisionService.frame_count_ st')))
                                    (to_float
                                       (of_int
                                          (VisionService.target_fps_
                                             st)))))))]]
    end.
Proof.
  intros fd st inp r. subst r.
  destruct (VisionService.frame inp) as [frame | ] eqn:Hf.
  - intros st'.
    pose proof (iteration_status fd st inp Hf) as Hst.
    rewrite (iteration_frame channels cvtColor_BGR2GRAY
               apriltag_detector_detect estimate_tag_pose fd st inp Hf)
      in *.
    cbn [fst snd] in *. fold st' in Hst |- *.
    split; [ reflexivity | ].
    split; [ exact Hst | ].
    split.
    { intros Hm. apply Z.eqb_eq in Hm. rewrite Hm.
      exists (VisionService.print_tags (tags_at st frame)
              ++ VisionService.print_detect
                   (VisionService.object_detector_ st)
              ++ VisionService.print_objects (VisionService.objects inp)).
      exists (if fd - VisionService.elapsed inp >? 0
              then [Sleep (fd - VisionService.elapsed inp)] else []).
      now rewrite <- !app_assoc. }
    split; [ reflexivity | ].
    split; [ | reflexivity ].
    intros Hrange. subst st'. unfold counted. cbn.
    unfold VisionService.wrap32. rewrite Z.mod_small; lia.
  - rewrite (iteration_no_frame channels cvtColor_BGR2GRAY
               apriltag_detector_detect estimate_tag_pose fd st inp Hf).
    split; reflexivity.
Qed.

(** The frame counter after a run in which every pass read a frame. *)
Lemma frame_count_after_run :
  forall fd inputs st,
    0 <= VisionService.frame_count_ st < 2 ^ 32 ->
    Forall (fun inp => VisionService.frame inp <> None) inputs ->
    VisionService.frame_count_ (fst (run_iterations fd st inputs))
    = (VisionService.frame_count_ st + Z.of_nat (List.length inputs))
      mod 2 ^ 32.
Proof.
  intros fd inputs. induction inputs as [ | inp rest IH ];
    intros st Hrange Hall.
  - cbn. rewrite Z.add_0_r, Z.mod_small; [ reflexivity | exact Hrange ].
  - inversion Hall as [ | ? ? Hf Hrest ]; subst.
    cbn [VisionService.run_iterations].
    destruct (VisionService.frame inp) as [frame | ] eqn:Hfr;
      [ | contradiction ].
    rewrite (iteration_frame channels cvtColor_BGR2GRAY
               apriltag_detector_detect estimate_tag_pose fd st inp Hfr).
    assert (Hc : VisionService.frame_count_
                   (counted_at st frame (VisionService.objects inp))
                 = (VisionService.frame_count_ st + 1) mod 2 ^ 32)
      by reflexivity.
    assert (Hr : 0 <= VisionService.frame_count_
                        (counted_at st frame (VisionService.objects inp))
                 < 2 ^ 32)
      by (rewrite Hc; apply Z.mod_pos_bound; lia).
    specialize (IH _ Hr Hrest).
    destruct (run_iterations fd _ rest) as [st2 out2].
    cbn [fst] in *. rewrite IH, Hc, Zplus_mod_idemp_l.
    f_equal. cbn [List.length]. lia.
Qed.

Lemma atoi_not_numeric (text : string) :
  numeric_text text = false -> Main.atoi text = 0.
Proof.
  unfold numeric_text, Main.atoi, Main.strtol.
  assert (Hd : forall s, leading_digit s = false -> Main.digits 0 s = 0).
  { intros [ | ch rest ]; [ reflexivity | ].
    cbn [leading_digit Main.digits].
    destruct (Main.digit_of ch); [ discriminate | reflexivity ]. }
  destruct (Main.skip_space text) as [ | ch rest ]; [ reflexivity | ].
  destruct ch as [[ | ] [ | ] [ | ] [ | ] [ | ] [ | ] [ | ] [ | ]];
    intros Hn; rewrite (Hd _ Hn); reflexivity.
Qed.

Lemma frame_duration_of_quot (fps : Z) :
  fps <> 0 ->
  VisionService.frame_duration_of fps = Some (Z.quot 1000 fps).
Proof.
  intros Hne. unfold VisionService.frame_duration_of.
  destruct (fps =? 0) eqn:E; [ apply Z.eqb_eq in E; contradiction | ].
  reflexivity.
Qed.

Lemma no_sleep_at_period_0 :
  forall (inputs : list (VisionService.IterationInput (T:=T) Image)),
    Forall (fun inp => VisionService.frame inp <> None
                       /\ 0 <= VisionService.elapsed inp) inputs ->
    fold_right (fun inp acc => pass_sleep 0 inp + acc) 0 inputs = 0.
Proof.
  induction 1 as [ | inp rest [Hf He] _ IH ]; [ reflexivity | ].
  cbn [fold_right]. rewrite IH. unfold pass_sleep.
  destruct (VisionService.frame inp); [ lia | contradiction ].
Qed.

(** C9. The frame period is the integer quotient [1000 / targetFps],
    truncated towards zero, with no guard, and the loop makes every pass
    with it.  For every [targetFps] above 1000 it is 0 ms, and a run
    at a period of 0 never sleeps after a frame; for [targetFps = 0]
    the division is by zero, and the loop has no defined behaviour.
    [setFrameRate] stores 0 like any other value, and [atoi] returns 0
    for text that does not start with a number, so that [--fps] followed
    by such text has [main] configure a service whose loop divides by
    zero. *)
Theorem frame_period_unguarded :
  forall (st : VisionService.t (T:=T))
         (inputs : list (VisionService.IterationInput (T:=T) Image)),
    let fps := VisionService.target_fps_ st in
    (fps <> 0 ->
     VisionService.frame_duration_of fps = Some (Z.quot 1000 fps)
     /\ processingLoop st inputs
        = Some (run_iterations (Z.quot 1000 fps) st inputs))
    /\ (1000 < fps ->
        VisionService.frame_duration_of fps = Some 0
        /\ processingLoop st inputs = Some (run_iterations 0 st inputs)
        /\ (Forall (fun inp => VisionService.frame inp <> None
                               /\ 0 <= VisionService.elapsed inp) inputs ->
            total_sleep (snd (run_iterations 0 st inputs)) = 0))
    /\ (fps = 0 ->
        VisionService.frame_duration_of fps = None
        /\ processingLoop st inputs = None)
    /\ (forall rate,
          VisionService.target_fps_ (VisionService.setFrameRate st rate)
          = rate)
    /\ processingLoop (VisionService.setFrameRate st 0) inputs = None
    /\ (forall text, numeric_text text = false -> Main.atoi text = 0)
    /\ (forall atof text,
          numeric_text text = false ->
          exists o,
            Main.parse_args atof ["--fps"%string; text] Main.defaults
            = Some o
            /\ Main.fps o = 0
            /\ processingLoop (Main.configure o) inputs = None).
Proof.
  intros st inputs fps.
  split; [ | split; [ | split; [ | split; [ | split; [ | split ] ] ] ] ].
  - intros Hne. split; [ now apply frame_duration_of_quot | ].
    unfold VisionService.processingLoop. fold fps.
    now rewrite frame_duration_of_quot.
  - intros Hfast.
    assert (Hq : VisionService.frame_duration_of fps = Some 0).
    { rewrite frame_duration_of_quot by lia.
      now rewrite Z.quot_small by lia. }
    split; [ exact Hq | ]. split.
    + unfold VisionService.processingLoop. fold fps. now rewrite Hq.
    + intros Hall.
      rewrite (run_iterations_sleep channels cvtColor_BGR2GRAY
                 apriltag_detector_detect estimate_tag_pose).
      now apply no_sleep_at_period_0.
  - intros Hzero. unfold VisionService.processingLoop. fold fps.
    rewrite Hzero. split; reflexivity.
  - reflexivity.
  - reflexivity.
  - exact atoi_not_numeric.
  - intros atof text Hn.
    eexists. cbn [Main.parse_args String.eqb Ascii.eqb Bool.eqb].
    split; [ reflexivity | ].
    cbn [Main.fps]. rewrite (atoi_not_numeric _ Hn).
    split; [ reflexivity | ]. reflexivity.
Qed.

End LoopStatus.

(** ** The loop, run *)

Section LoopInstances.
Local Open Scope Z_scope.

(** C6 fails as stated on a pass whose frame read fails.  At 5 frames
    per second the period is 200 ms; such a pass only makes the 100 ms
    back-off sleep and goes on to the next pass.  That is neither
    [max 0 (200 - 0)], the back-off not counted in the body, nor a
    further [max 0 (200 - 100)] after it, the back-off counted. *)
Lemma pacing_counterexample :
  let inp := VisionService.mkInput (T:=float) (None : option unit) [] 0 in
  VisionService.frame_duration_of 5 = Some 200
  /\ snd (iteration64 200 VisionService.init inp)
     = [Cerr [Str "Failed to read frame from camera"]; Sleep 100]
  /\ total_sleep (snd (iteration64 200 VisionService.init inp)) = 100
  /\ Z.max 0 (200 - 0) = 200
  /\ Z.max 0 (200 - 100) = 100.
Proof. vm_compute. repeat split. Qed.

(** Passes that read a frame, at 30 frames per second: one that took
    10 ms sleeps 23 ms, one that took 50 ms does not sleep. *)
Example pacing_30fps :
  VisionService.frame_duration_of 30 = Some 33
  /\ total_sleep
       (snd (iteration64 33 VisionService.init
               (VisionService.mkInput (Some tt) [] 10))) = 23
  /\ total_sleep
       (snd (iteration64 33 VisionService.init
               (VisionService.mkInput (Some tt) [] 50))) = 0.
Proof. vm_compute. repeat split. Qed.

(** C7 fails as stated once the counter wraps: the pass that processes
    frame number [2^32] increments the counter from [2^32 - 1] to 0 and
    emits the summary, while 0 is not a positive multiple of 100 (and the
    number of frames processed, [2^32], is not a multiple of 100
    either). *)
Lemma status_counterexample :
  let r := iteration64 33 service_before_wrap
             (VisionService.mkInput (Some tt) [] 5) in
  VisionService.frame_count_ service_before_wrap = 2 ^ 32 - 1
  /\ VisionService.frame_count_ (fst r) = 0
  /\ has_status (snd r) = true
  /\ 2 ^ 32 mod 100 = 96.
Proof. vm_compute. repeat split. Qed.

(** The counters of [service_before_wrap] are those of a service that
    has processed [2^32 - 1] frames since its construction. *)
Lemma service_before_wrap_reached :
  forall fd (inputs : list (VisionService.IterationInput (T:=float) unit)),
    List.length inputs = Z.to_nat (2 ^ 32 - 1) ->
    Forall (fun inp => VisionService.frame inp <> None) inputs ->
    VisionService.frame_count_
      (fst (VisionService.run_iterations (fun _ : unit => 1) (fun i => i)
              no_tags failing_solver fd VisionService.init inputs))
    = VisionService.frame_count_ service_before_wrap.
Proof.
  intros fd inputs Hlen Hall.
  rewrite frame_count_after_run; [ | cbn; lia | exact Hall ].
  rewrite Hlen, Z2Nat.id by lia. reflexivity.
Qed.

(** The 100th frame of a service whose detector has no net, and of one
    whose [start] loaded it. *)
Example status_at_100 :
  let st := VisionService.set_counters (T:=float) VisionService.init
              99 99 4 2 in
  let r := iteration64 33 st (VisionService.mkInput (Some tt) [] 5) in
  has_status (snd r) = true
  /\ snd r
     = [Cerr [Str "Model not loaded"];
        Cout [Str "Vision Status:"];
        Cout [Str "  Frames processed: "; Int 100];
        Cout [Str "  Tags detected: "; Int 4];
        Cout [Str "  Objects detected: "; Int 2];
        Cout [Str "  Average FPS: "; Dbl 30%float];
        Sleep 28]
  /\ snd (iteration64 33 counted99 (VisionService.mkInput (Some tt) [] 5))
     = [Cout [Str "Vision Status:"];
        Cout [Str "  Frames processed: "; Int 100];
        Cout [Str "  Tags detected: "; Int 0];
        Cout [Str "  Objects detected: "; Int 0];
        Cout [Str "  Average FPS: "; Dbl 30%float];
        Sleep 28].
Proof. vm_compute. repeat split. Qed.

(** A frame rate of 30, a frame rate of 2000 over two passes that each
    read a frame, and the text "abc" after [--fps]. *)
Lemma frame_period_unguarded_witness :
  (VisionService.frame_duration_of 30 = Some 33
   /\ processingLoop64 VisionService.init two_frames
      = Some (VisionService.run_iterations (fun _ : unit => 1)
                (fun i => i) no_tags failing_solver 33
                VisionService.init two_frames))
  /\ (VisionService.frame_duration_of 2000 = Some 0
      /\ total_sleep
           (snd (VisionService.run_iterations (fun _ : unit => 1)
                   (fun i => i) no_tags failing_solver 0
                   (VisionService.setFrameRate VisionService.init 2000)
                   two_frames)) = 0)
  /\ Main.atoi "abc" = 0
  /\ exists o,
       Main.parse_args atof64 ["--fps"%string; "abc"%string]
         (Main.defaults (T:=float)) = Some o
       /\ Main.fps o = 0
       /\ processingLoop64 (Main.configure o) [] = None.
Proof.
  pose proof (@frame_period_unguarded float _ unit (fun _ => 1)
                (fun i => i) no_tags failing_solver VisionService.init
                two_frames) as (Hperiod & _).
  pose proof (@frame_period_unguarded float _ unit (fun _ => 1)
                (fun i => i) no_tags failing_solver
                (VisionService.setFrameRate VisionService.init 2000)
                two_frames) as (_ & Hfast & _).
  pose proof (@frame_period_unguarded float _ unit (fun _ => 1)
                (fun i => i) no_tags failing_solver VisionService.init [])
    as (_ & _ & _ & _ & _ & Hatoi & Hmain).
  split; [ apply Hperiod; discriminate | ].
  split.
  - destruct (Hfast eq_refl) as (Hq & _ & Hsleep).
    split; [ exact Hq | ]. apply Hsleep.
    repeat constructor; discriminate.
  - split; [ apply Hatoi; reflexivity | ].
    apply (Hmain atof64 "abc"%string). reflexivity.
Defined.

(** The literals of the sources in binary64: [1e-6], and the default tag
    size [0.015]. *)
Example binary64_literals :
  lit_1e_6 = decimal (T:=float) 1 1000000
  /\ VisionService.apriltag_size_ (VisionService.init (T:=float))
     = 0x1.eb851eb851eb8p-7%float.
Proof. vm_compute. split; reflexivity. Qed.

(** The flags of [main] on a usual command line. *)
Example parse_args_usual :
  Main.parse_args atof64
    ["--camera"; "2"; "--fps"; "60"; "--verbose"]%string
    (Main.defaults (T:=float))
  = Some (Main.mkOptions 2 60 (decimal 15 1000)).
Proof. vm_compute. reflexivity. Qed.

Example atoi_values :
  Main.atoi "  -42x" = -42 /\ Main.atoi "+7" = 7 /\ Main.atoi "fast" = 0
  /\ Main.atoi "" = 0 /\ Main.atoi "3.5" = 3
  /\ Main.atoi "2147483647" = 2147483647
  /\ Main.atoi "2147483648" = -2147483648
  /\ Main.atoi "4294967296" = 0
  /\ Main.atoi "99999999999999999999" = -1.
Proof. vm_compute. repeat split. Qed.

End LoopInstances.

(** * Further properties *)

(** ** Rays, planes and projection over the reals *)

Section GeometryOverReals.
Local Open Scope R_scope.
Variable undistortPoints : Mat33 R -> list R -> Point2 R -> Point2 R.

(** X1. A point returned by [intersectRayPlane] lies on the plane and on
    the ray, at a parameter that is not negative. *)
Theorem intersectRayPlane_sound :
  forall o d n p q : Point3 R,
    CoordinateTransform.intersectRayPlane o d n p = Some q ->
    dot (vsub q p) n = 0
    /\ exists t, 0 <= t /\ q = point_along o d t.
Proof.
  intros o d n p q.
  unfold CoordinateTransform.intersectRayPlane.
  destruct (flt (fabs (dot d n)) lit_1e_6) eqn:Hpar; [ discriminate | ].
  destruct (flt (div (dot (vsub p o) n) (dot d n)) lit0) eqn:Hneg;
    [ discriminate | ].
  intros E. injection E as <-.
  apply Rltb_false in Hpar. apply Rltb_false in Hneg.
  assert (Hd : dot d n <> 0).
  { intro E. rewrite E in Hpar. real_arith. rewrite Rabs_R0 in Hpar. lra. }
  split.
  - destruct o, d, n, p. real_arith. field. exact Hd.
  - exists (dot (vsub p o) n / dot d n). split; [ exact Hneg | reflexivity ].
Qed.

(** X2. With calibration and pose set, intersecting the ray from
    [getCameraPosition] along [getRayDirection] with the horizontal plane
    [z = z_plane] by [intersectRayPlane] gives what [imageToWorld] gives:
    no intersection where [imageToWorld] gives up, the same point
    otherwise. *)
Theorem imageToWorld_is_ray_plane :
  forall (ct : CoordinateTransform.t) (pixel : Point2 R) (z_plane : R),
    CoordinateTransform.has_calibration_ ct = true ->
    CoordinateTransform.has_pose_ ct = true ->
    CoordinateTransform.intersectRayPlane
      (CoordinateTransform.getCameraPosition ct)
      (CoordinateTransform.getRayDirection undistortPoints ct pixel)
      up_normal (on_height z_plane)
    = if imageToWorld_fails undistortPoints ct pixel z_plane then None
      else Some (fst (CoordinateTransform.imageToWorld undistortPoints ct
                        pixel z_plane)).
Proof.
  intros ct pixel z_plane Hcal Hpose.
  unfold imageToWorld_fails, ground_t, CoordinateTransform.imageToWorld,
    CoordinateTransform.getCameraPosition,
    CoordinateTransform.getRayDirection,
    CoordinateTransform.intersectRayPlane.
  rewrite Hcal, Hpose. cbn [negb orb]. cbv zeta.
  set (c := CoordinateTransform.cam_pos_world_of ct).
  set (d := CoordinateTransform.ray_world_of undistortPoints ct pixel).
  assert (Hdn : dot d up_normal = z3 d)
    by (destruct d; unfold up_normal; real_arith; ring).
  assert (Hpn : dot (vsub (on_height z_plane) c) up_normal
                = sub z_plane (z3 c))
    by (destruct c; unfold up_normal, on_height; real_arith; ring).
  rewrite Hdn, Hpn.
  destruct (flt (fabs (z3 d)) lit_1e_6) eqn:Hpar; [ reflexivity | ].
  destruct (flt (div (sub z_plane (z3 c)) (z3 d)) lit0); [ reflexivity | ].
  cbn [fst].
  apply Rltb_false in Hpar.
  assert (Hz : z3 d <> 0).
  { intro E. rewrite E in Hpar. real_arith. rewrite Rabs_R0 in Hpar. lra. }
  apply f_equal. apply f_equal.
  real_arith. field. exact Hz.
Qed.

(** X3. With calibration and pose set and an orthonormal rotation, the
    direction that [getRayDirection] returns has length one. *)
Theorem getRayDirection_unit :
  forall (ct : CoordinateTransform.t) (pixel : Point2 R),
    CoordinateTransform.has_calibration_ ct = true ->
    CoordinateTransform.has_pose_ ct = true ->
    orthonormal (CoordinateTransform.rotation_ ct) ->
    let d := CoordinateTransform.getRayDirection undistortPoints ct pixel in
    dot d d = 1.
Proof.
  intros ct pixel Hcal Hpose Horth d. subst d.
  unfold CoordinateTransform.getRayDirection,
    CoordinateTransform.ray_world_of.
  rewrite Hcal, Hpose. cbn [negb orb]. cbv zeta.
  set (n := undistortPoints _ _ _).
  pose proof (cv_norm_rotated_pos (px n) (py n) Horth) as Hpos.
  change lit1 with 1 in *.
  set (v := mat_vec _ _) in *.
  assert (Hsq : cv_norm v * cv_norm v = dot v v).
  { unfold cv_norm. change (fsqrt ?x) with (sqrt x).
    apply sqrt_sqrt. destruct v. real_arith. nra. }
  set (s := cv_norm v) in *.
  destruct v as [a b c]. real_arith.
  replace (a / s * (a / s) + b / s * (b / s) + c / s * (c / s))
    with ((a * a + b * b + c * c) / (s * s)) by (field; lra).
  rewrite Hsq. field. rewrite <- Hsq. nra.
Qed.

(** X4. With a pose set whose rotation satisfies [R * Rt = I],
    [getCameraPosition] is the point [p] with [R * p + t = 0]: the point
    that the pose, read as world to camera, sends to the origin. *)
Theorem getCameraPosition_maps_to_origin :
  forall ct : CoordinateTransform.t,
    CoordinateTransform.has_pose_ ct = true ->
    row_orthonormal (CoordinateTransform.rotation_ ct) ->
    mat_vec (CoordinateTransform.rotation_ ct)
            (CoordinateTransform.getCameraPosition ct)
    = vneg (CoordinateTransform.translation_ ct).
Proof.
  intros ct Hpose.
  unfold CoordinateTransform.getCameraPosition,
    CoordinateTransform.cam_pos_world_of, row_orthonormal.
  rewrite Hpose. cbn [negb].
  destruct (CoordinateTransform.rotation_ ct) as [a b c d e f g h i].
  destruct (CoordinateTransform.translation_ ct) as [x y z].
  real_arith.
  intros Ho. injection Ho as H00 H01 H02 H10 H11 H12 H20 H21 H22.
  f_equal.
  - replace (a * - (a * x + d * y + g * z) + b * - (b * x + e * y + h * z)
             + c * - (c * x + f * y + i * z))
      with (- ((a * a + b * b + c * c) * x + (a * d + b * e + c * f) * y
               + (a * g + b * h + c * i) * z)) by ring.
    rewrite H00, H01, H02. ring.
  - replace (d * - (a * x + d * y + g * z) + e * - (b * x + e * y + h * z)
             + f * - (c * x + f * y + i * z))
      with (- ((d * a + e * b + f * c) * x + (d * d + e * e + f * f) * y
               + (d * g + e * h + f * i) * z)) by ring.
    rewrite H10, H11, H12. ring.
  - replace (g * - (a * x + d * y + g * z) + h * - (b * x + e * y + h * z)
             + i * - (c * x + f * y + i * z))
      with (- ((g * a + h * b + i * c) * x + (g * d + h * e + i * f) * y
               + (g * g + h * h + i * i) * z)) by ring.
    rewrite H20, H21, H22. ring.
Qed.

Lemma camera_pt_along_line (ct : CoordinateTransform.t) (w : Point3 R)
    (k : R) :
  CoordinateTransform.camera_pt_of ct
    (along_line (CoordinateTransform.translation_ ct) w k)
  = vscale k (CoordinateTransform.camera_pt_of ct w).
Proof.
  unfold CoordinateTransform.camera_pt_of, along_line, vscale.
  destruct (CoordinateTransform.rotation_ ct) as [a b c d e f g h i].
  destruct (CoordinateTransform.translation_ ct) as [tx ty tz].
  destruct w as [x y z]. real_arith. f_equal; ring.
Qed.

Lemma project_vscale (m : Mat33 R) (p : Point3 R) (k : R) :
  k <> 0 -> z3 p <> 0 -> project m (vscale k p) = project m p.
Proof.
  destruct m, p as [x y z]. unfold project, vscale. real_arith.
  intros Hk Hz. f_equal; field; split; assumption.
Qed.

(** X5. [worldToImage] forgets depth, and side: with calibration and pose
    set, every point of the line through [translation_] and a world point
    [w], other than [translation_] itself, has the pixel of [w], the
    points on the far side of [translation_] (behind the camera)
    included. *)
Theorem worldToImage_same_along_line :
  forall (ct : CoordinateTransform.t) (w : Point3 R) (k : R),
    CoordinateTransform.has_calibration_ ct = true ->
    CoordinateTransform.has_pose_ ct = true ->
    k <> 0 ->
    z3 (CoordinateTransform.camera_pt_of ct w) <> 0 ->
    CoordinateTransform.worldToImage ct
      (along_line (CoordinateTransform.translation_ ct) w k)
    = CoordinateTransform.worldToImage ct w.
Proof.
  intros ct w k Hcal Hpose Hk Hz.
  rewrite !worldToImage_project by assumption.
  now rewrite camera_pt_along_line, project_vscale.
Qed.

End GeometryOverReals.

Section GeometryInstances.
Local Open Scope R_scope.

(** Comparison of an explicit real with a bound. *)
Ltac real_compare :=
  real_arith; unfold Rabs; repeat destruct (Rcase_abs _); lra.

Lemma identity_row_orthonormal : row_orthonormal identity33.
Proof. unfold row_orthonormal. real_arith. f_equal; ring. Qed.

(** A ray from height 1 straight down onto the plane [z = 0]. *)
Lemma intersectRayPlane_down :
  CoordinateTransform.intersectRayPlane
    (mkPoint3 0 0 1) (mkPoint3 0 0 (-1)) (mkPoint3 0 0 1) (mkPoint3 0 0 0)
  = Some (mkPoint3 0 0 0).
Proof.
  unfold CoordinateTransform.intersectRayPlane. cbv zeta.
  rewrite (@Rltb_ge (fabs _) lit_1e_6) by real_compare.
  rewrite (@Rltb_ge (div _ _) lit0)
    by (real_arith;
        match goal with
        | |- _ <= ?x => replace x with 1 by (field; lra)
        end; lra).
  apply f_equal. real_arith. f_equal; field.
Qed.

Lemma intersectRayPlane_sound_witness :
  dot (vsub (mkPoint3 0 0 0) (mkPoint3 0 0 0)) (mkPoint3 0 0 1) = 0
  /\ exists t, 0 <= t
               /\ mkPoint3 0 0 0
                  = point_along (mkPoint3 0 0 1) (mkPoint3 0 0 (-1)) t.
Proof.
  exact (@intersectRayPlane_sound (mkPoint3 0 0 1) (mkPoint3 0 0 (-1))
           (mkPoint3 0 0 1) (mkPoint3 0 0 0) (mkPoint3 0 0 0)
           intersectRayPlane_down).
Defined.

Lemma imageToWorld_is_ray_plane_witness :
  CoordinateTransform.intersectRayPlane
    (CoordinateTransform.getCameraPosition real_camera)
    (CoordinateTransform.getRayDirection pinholeR real_camera
       (mkPoint2 5 1))
    up_normal (on_height 1)
  = if imageToWorld_fails pinholeR real_camera (mkPoint2 5 1) 1 then None
    else Some (fst (CoordinateTransform.imageToWorld pinholeR real_camera
                      (mkPoint2 5 1) 1)).
Proof.
  exact (@imageToWorld_is_ray_plane pinholeR real_camera (mkPoint2 5 1) 1
           eq_refl eq_refl).
Defined.

Lemma getRayDirection_unit_witness :
  dot (CoordinateTransform.getRayDirection pinholeR real_camera
         (mkPoint2 5 1))
      (CoordinateTransform.getRayDirection pinholeR real_camera
         (mkPoint2 5 1))
  = 1.
Proof.
  exact (@getRayDirection_unit pinholeR real_camera (mkPoint2 5 1)
           eq_refl eq_refl identity_orthonormal).
Defined.

Lemma getCameraPosition_maps_to_origin_witness :
  mat_vec (CoordinateTransform.rotation_ real_camera)
          (CoordinateTransform.getCameraPosition real_camera)
  = vneg (CoordinateTransform.translation_ real_camera).
Proof.
  exact (@getCameraPosition_maps_to_origin real_camera eq_refl
           identity_row_orthonormal).
Defined.

(** The point (1, 2, 4) in front of [real_camera] and the point
    (-3, -6, -12) behind it. *)
Lemma worldToImage_same_along_line_witness :
  CoordinateTransform.worldToImage real_camera
    (along_line (CoordinateTransform.translation_ real_camera)
       (mkPoint3 1 2 4) (-3))
  = CoordinateTransform.worldToImage real_camera (mkPoint3 1 2 4).
Proof.
  apply (@worldToImage_same_along_line real_camera (mkPoint3 1 2 4) (-3)
           eq_refl eq_refl).
  - lra.
  - cbn. real_arith. lra.
Defined.

End GeometryInstances.

(** ** Marker results *)

Section MarkerResults.
Context {T : Type} `{Scalar T}.
Variable Image : Type.
Variable channels : Image -> Z.
Variable cvtColor_BGR2GRAY : Image -> Image.
Variable apriltag_detector_detect :
  AprilTagDetector.detector (T:=T) -> Image ->
  list (AprilTagDetector.apriltag_detection (T:=T)).
Variable estimate_tag_pose :
  AprilTagDetector.apriltag_detection_info (T:=T) ->
  T * AprilTagDetector.apriltag_pose (T:=T).

Local Abbreviation detect :=
  (AprilTagDetector.detect channels cvtColor_BGR2GRAY
     apriltag_detector_detect estimate_tag_pose).

Lemma process_detection_observation :
  forall camera_matrix tag_size d,
    observation (AprilTagDetector.process_detection estimate_tag_pose
                   camera_matrix tag_size d)
    = observed d.
Proof.
  intros [k | ] tag_size d;
    unfold AprilTagDetector.process_detection,
      AprilTagDetector.estimatePose, observation, observed.
  - destruct (estimate_tag_pose _) as [err pose]. cbn.
    destruct (AprilTagDetector.c d). reflexivity.
  - cbn. destruct (AprilTagDetector.c d). reflexivity.
Qed.

(** X6. [detect] returns one result per detection, in the detector's
    order, and the identifier (as [uint32_t]), centre, four corners,
    decision margin and Hamming distance of each result are those of its
    detection: neither the camera matrix, nor the tag size, nor the pose
    solve changes them. *)
Theorem detect_observations :
  forall dt image camera_matrix dist_coeffs tag_size,
    map observation (detect dt image camera_matrix dist_coeffs tag_size)
    = map observed
        (apriltag_detector_detect dt
           (if (channels image =? 3)%Z then cvtColor_BGR2GRAY image
            else image))
    /\ Forall (fun r => List.length (AprilTagDetector.corners r) = 4%nat
                        /\ (0 <= AprilTagDetector.tag_id r < 2 ^ 32)%Z)
              (detect dt image camera_matrix dist_coeffs tag_size).
Proof.
  intros dt image camera_matrix dist_coeffs tag_size.
  unfold AprilTagDetector.detect. split.
  - rewrite map_map. apply map_ext. intros d.
    apply process_detection_observation.
  - apply Forall_forall. intros r Hin.
    apply in_map_iff in Hin as (d & <- & _).
    pose proof (process_detection_observation camera_matrix tag_size d)
      as Hobs.
    unfold observation, observed in Hobs.
    injection Hobs as Hid _ Hcorners _ _.
    rewrite Hid, Hcorners. split; [ reflexivity | ].
    apply Z.mod_pos_bound. reflexivity.
Qed.

(** X7. In every result of [detect] the pose fields agree with
    [pose_valid]: when it is set, rotation and translation are set and
    [position] is the translation; when it is not, rotation and
    translation are empty and [position] is the zero point. *)
Theorem detect_pose_fields :
  forall dt image camera_matrix dist_coeffs tag_size,
    Forall pose_fields_agree
           (detect dt image camera_matrix dist_coeffs tag_size).
Proof.
  intros dt image camera_matrix dist_coeffs tag_size.
  unfold AprilTagDetector.detect.
  apply Forall_forall. intros r Hin.
  apply in_map_iff in Hin as (d & <- & _).
  unfold pose_fields_agree, AprilTagDetector.process_detection,
    AprilTagDetector.estimatePose.
  destruct camera_matrix as [k | ].
  - destruct (estimate_tag_pose _) as [err pose]. cbn.
    eexists. split; [ reflexivity | ].
    destruct (AprilTagDetector.pose_t pose). reflexivity.
  - cbn. repeat split.
Qed.

End MarkerResults.

(** ** The service: what every reachable state satisfies *)

Section ServiceInvariants.
Context {T : Type} `{Scalar T}.
Variable Image : Type.
Variable channels : Image -> Z.
Variable cvtColor_BGR2GRAY : Image -> Image.
Variable apriltag_detector_detect :
  AprilTagDetector.detector (T:=T) -> Image ->
  list (AprilTagDetector.apriltag_detection (T:=T)).
Variable estimate_tag_pose :
  AprilTagDetector.apriltag_detection_info (T:=T) ->
  T * AprilTagDetector.apriltag_pose (T:=T).
Local Open Scope Z_scope.

Local Abbreviation iteration :=
  (VisionService.iteration channels cvtColor_BGR2GRAY
     apriltag_detector_detect estimate_tag_pose).
Local Abbreviation run_iterations :=
  (VisionService.run_iterations channels cvtColor_BGR2GRAY
     apriltag_detector_detect estimate_tag_pose).
Local Abbreviation reachable :=
  (reachable channels cvtColor_BGR2GRAY apriltag_detector_detect
     estimate_tag_pose).
Local Abbreviation tags_at :=
  (tags_of channels cvtColor_BGR2GRAY apriltag_detector_detect
     estimate_tag_pose).

Lemma same_but_counters_refl (st : VisionService.t (T:=T)) :
  same_but_counters st st.
Proof. destruct st. reflexivity. Qed.

Lemma same_but_counters_trans (a b c : VisionService.t (T:=T)) :
  same_but_counters a b -> same_but_counters b c -> same_but_counters a c.
Proof.
  unfold same_but_counters. intros Hab Hbc.
  rewrite Hbc at 1. rewrite Hab at 1. destruct a. reflexivity.
Qed.

Lemma iteration_same_but_counters fd st inp :
  same_but_counters st (fst (iteration fd st inp)).
Proof.
  destruct (VisionService.frame inp) as [frame | ] eqn:Hf.
  - rewrite (iteration_frame channels cvtColor_BGR2GRAY
               apriltag_detector_detect estimate_tag_pose fd st inp Hf).
    unfold same_but_counters, counted. destruct st. reflexivity.
  - rewrite (iteration_no_frame channels cvtColor_BGR2GRAY
               apriltag_detector_detect estimate_tag_pose fd st inp Hf).
    apply same_but_counters_refl.
Qed.

(** X8. The loop changes nothing but the four counters: after any run of
    passes the camera index, frame rate, tag size, running flag, camera
    and thread state, detector settings, calibration and coordinate
    transform of the service are what they were before it. *)
Theorem run_changes_counters_only :
  forall fd inputs st,
    same_but_counters st (fst (run_iterations fd st inputs)).
Proof.
  intros fd inputs. induction inputs as [ | inp rest IH ]; intros st.
  - apply same_but_counters_refl.
  - cbn [VisionService.run_iterations].
    pose proof (iteration_same_but_counters fd st inp) as H1.
    destruct (iteration fd st inp) as [st1 out1].
    specialize (IH st1).
    destruct (run_iterations fd st1 rest) as [st2 out2].
    cbn [fst] in *. eapply same_but_counters_trans; eassumption.
Qed.

Lemma service_invariant_start env (st : VisionService.t (T:=T)) :
  service_invariant st ->
  service_invariant (snd (fst (VisionService.start env st))).
Proof.
  intros (Hj & Hc & Hp & Hf & Hr).
  unfold VisionService.start.
  destruct (VisionService.running_ st) eqn:Hrun.
  - cbn [fst snd]. unfold service_invariant. rewrite Hrun. auto.
  - cbn [VisionService.set_camera_opened VisionService.camera_opened
         VisionService.camera_calibration_].
    destruct (VisionService.camera_opens env); cbn [negb].
    + unfold VisionService.load.
      destruct (VisionService.calibration_file env) as [ | [k | ] dist ];
        destruct (VisionService.model_read env) as [[ | ] | what];
        destruct (VisionService.class_names_file env) as [lines | ];
        cbn; unfold service_invariant; cbn; auto.
    + cbn [fst snd]. unfold service_invariant. cbn. rewrite Hrun. auto.
Qed.

Lemma service_invariant_stop (st : VisionService.t (T:=T)) :
  service_invariant st -> service_invariant (fst (VisionService.stop st)).
Proof.
  unfold VisionService.stop, service_invariant.
  destruct st; cbn. intros (Hj & Hc & Hp & Hf & Hr). subst.
  match goal with
  | |- context [negb ?b] => destruct b
  end; cbn; auto.
Qed.

Lemma service_invariant_iteration fd (st : VisionService.t (T:=T)) inp :
  service_invariant st -> service_invariant (fst (iteration fd st inp)).
Proof.
  intros (Hj & Hc & Hp & Hf & Hr).
  destruct (VisionService.frame inp) as [frame | ] eqn:Hfr.
  - rewrite (iteration_frame channels cvtColor_BGR2GRAY
               apriltag_detector_detect estimate_tag_pose fd st inp Hfr).
    unfold service_invariant, counted. cbn. rewrite Hf.
    repeat split; auto; apply Z.mod_pos_bound; reflexivity.
  - rewrite (iteration_no_frame channels cvtColor_BGR2GRAY
               apriltag_detector_detect estimate_tag_pose fd st inp Hfr).
    unfold service_invariant. auto.
Qed.

Lemma reachable_invariant (st : VisionService.t (T:=T)) :
  reachable st -> service_invariant st.
Proof.
  induction 1 as [ | st i _ IH | st f _ IH | st s _ IH | st env _ IH
                 | st _ IH | st fd inp _ IH ].
  - unfold service_invariant. cbn. repeat split; lia.
  - exact IH.
  - exact IH.
  - exact IH.
  - now apply service_invariant_start.
  - now apply service_invariant_stop.
  - now apply service_invariant_iteration.
Qed.

(** X9. In every state the service reaches, the camera is open exactly
    while the service is running, and so is the processing thread
    joinable: a failed [start] leaves no camera open, [stop] releases the
    camera and joins the thread, and [start] never assigns over a
    joinable thread. *)
Theorem camera_open_iff_running :
  forall st,
    reachable st ->
    VisionService.camera_opened st = VisionService.isRunning st
    /\ VisionService.thread_joinable st = VisionService.isRunning st.
Proof.
  intros st Hr. apply reachable_invariant in Hr.
  destruct Hr as (Hj & Hc & _). split; assumption.
Qed.

(** X10. The service never gives its coordinate transform a pose: in
    every state it reaches [hasPose] is false, also after a [start] that
    loaded a calibration, so that [imageToWorld] on that transform
    returns the zero point with the missing-information line for every
    pixel and plane. *)
Theorem transform_never_posed :
  forall st,
    reachable st ->
    CoordinateTransform.hasPose (VisionService.coordinate_transform_ st)
    = false
    /\ forall undistortPoints pixel z_plane,
         CoordinateTransform.imageToWorld undistortPoints
           (VisionService.coordinate_transform_ st) pixel z_plane
         = (zero3, ["Missing calibration or pose information"%string]).
Proof.
  intros st Hr. apply reachable_invariant in Hr.
  destruct Hr as (_ & _ & Hp & _).
  split; [ exact Hp | ].
  intros undistortPoints pixel z_plane.
  unfold CoordinateTransform.imageToWorld. rewrite Hp.
  rewrite orb_true_r. reflexivity.
Qed.

(** X11. The frame counter after a run is the counter before it plus the
    number of passes that read a frame, modulo [2^32]: a pass whose frame
    read failed is not counted. *)
Theorem frame_count_counts_frames :
  forall fd inputs st,
    0 <= VisionService.frame_count_ st < 2 ^ 32 ->
    VisionService.frame_count_ (fst (run_iterations fd st inputs))
    = (VisionService.frame_count_ st + frames_read inputs) mod 2 ^ 32.
Proof.
  intros fd inputs. induction inputs as [ | inp rest IH ]; intros st Hr.
  - cbn. rewrite Z.add_0_r, Z.mod_small; [ reflexivity | exact Hr ].
  - cbn [VisionService.run_iterations frames_read].
    destruct (VisionService.frame inp) as [frame | ] eqn:Hfr.
    + rewrite (iteration_frame channels cvtColor_BGR2GRAY
                 apriltag_detector_detect estimate_tag_pose fd st inp Hfr).
      set (st1 := counted _ _ _ _ _ _ _).
      assert (Hc : VisionService.frame_count_ st1
                   = (VisionService.frame_count_ st + 1) mod 2 ^ 32)
        by reflexivity.
      assert (Hr1 : 0 <= VisionService.frame_count_ st1 < 2 ^ 32)
        by (rewrite Hc; apply Z.mod_pos_bound; lia).
      specialize (IH st1 Hr1).
      destruct (run_iterations fd st1 rest) as [st2 out2].
      cbn [fst] in *. rewrite IH, Hc, Zplus_mod_idemp_l.
      f_equal. lia.
    + rewrite (iteration_no_frame channels cvtColor_BGR2GRAY
                 apriltag_detector_detect estimate_tag_pose fd st inp Hfr).
      specialize (IH st Hr).
      destruct (run_iterations fd st rest) as [st2 out2].
      exact IH.
Qed.

Lemma count_status_app (a b : list (Action T)) :
  count_status (a ++ b) = count_status a + count_status b.
Proof.
  induction a as [ | x a IH ]; cbn [app count_status]; [ reflexivity | ].
  rewrite IH. lia.
Qed.

Lemma count_status_print_tags
    (tags : list (AprilTagDetector.AprilTagResult (T:=T))) :
  count_status (VisionService.print_tags tags) = 0.
Proof.
  unfold VisionService.print_tags.
  destruct tags as [ | tag0 tags0 ]; [ reflexivity | ].
  set (tags := tag0 :: tags0). clearbody tags.
  cbn [count_status is_status_header].
  induction tags as [ | tag tags IH ]; [ reflexivity | ].
  cbn [flat_map].
  destruct (AprilTagDetector.pose_valid tag); cbn in *; exact IH.
Qed.

Lemma count_status_print_objects
    (objs : list (VisionService.DetectedObject (T:=T))) :
  count_status (VisionService.print_objects objs) = 0.
Proof.
  unfold VisionService.print_objects.
  destruct objs as [ | obj0 objs0 ]; [ reflexivity | ].
  set (objs := obj0 :: objs0). clearbody objs.
  cbn [count_status is_status_header].
  induction objs as [ | obj objs IH ]; [ reflexivity | ].
  cbn in *. exact IH.
Qed.

Lemma count_status_iteration fd st inp :
  0 <= VisionService.frame_count_ st ->
  VisionService.frame_count_ st + 1 < 2 ^ 32 ->
  count_status (snd (iteration fd st inp))
  = match VisionService.frame inp with
    | Some _ =>
        (VisionService.frame_count_ st + 1) / 100
        - VisionService.frame_count_ st / 100
    | None => 0
    end.
Proof.
  intros Hlo Hhi.
  destruct (VisionService.frame inp) as [frame | ] eqn:Hfr.
  - rewrite (iteration_frame channels cvtColor_BGR2GRAY
               apriltag_detector_detect estimate_tag_pose fd st inp Hfr).
    cbn [snd]. rewrite !count_status_app.
    rewrite count_status_print_tags, count_status_print_objects.
    assert (Hd : count_status
                   (VisionService.print_detect (T:=T)
                      (VisionService.object_detector_ st)) = 0)
      by (unfold VisionService.print_detect;
          destruct (negb _ && negb _); reflexivity).
    rewrite Hd.
    assert (Hc : VisionService.frame_count_
                   (counted channels cvtColor_BGR2GRAY
                      apriltag_detector_detect estimate_tag_pose st frame
                      (VisionService.objects inp))
                 = VisionService.frame_count_ st + 1).
    { unfold counted. cbn. unfold VisionService.wrap32.
      apply Z.mod_small. lia. }
    rewrite Hc.
    set (c := VisionService.frame_count_ st) in *.
    assert (Hs : count_status
                   (if fd - VisionService.elapsed inp >? 0
                    then [Sleep (T:=T) (fd - VisionService.elapsed inp)]
                    else []) = 0)
      by (destruct (_ >? 0); reflexivity).
    rewrite Hs.
    destruct ((c + 1) mod 100 =? 0) eqn:Hm.
    + apply Z.eqb_eq in Hm.
      change (count_status (VisionService.publishStatus _)) with 1.
      Z.to_euclidean_division_equations. lia.
    + apply Z.eqb_neq in Hm.
      change (count_status (@nil (Action T))) with 0.
      Z.to_euclidean_division_equations. lia.
  - rewrite (iteration_no_frame channels cvtColor_BGR2GRAY
               apriltag_detector_detect estimate_tag_pose fd st inp Hfr).
    reflexivity.
Qed.

(** X12. As long as the frame counter does not wrap, a run emits the
    status summary once for every multiple of 100 that the counter
    passes: with the counter at [c] before the run and [k] frames read in
    it, [(c + k) / 100 - c / 100] summaries, however failed reads are
    interleaved. *)
Theorem summaries_in_a_run :
  forall fd inputs st,
    0 <= VisionService.frame_count_ st ->
    VisionService.frame_count_ st + frames_read inputs < 2 ^ 32 ->
    count_status (snd (run_iterations fd st inputs))
    = (VisionService.frame_count_ st + frames_read inputs) / 100
      - VisionService.frame_count_ st / 100.
Proof.
  intros fd inputs. induction inputs as [ | inp rest IH ]; intros st Hlo Hhi.
  - cbn [VisionService.run_iterations snd count_status frames_read].
    rewrite Z.add_0_r. lia.
  - assert (Hk : 0 <= frames_read rest).
    { clear. induction rest as [ | i r IHr ]; cbn [frames_read]; [ lia | ].
      destruct (VisionService.frame i); lia. }
    cbn [VisionService.run_iterations frames_read] in *.
    destruct (VisionService.frame inp) as [frame | ] eqn:Hfr.
    + pose proof (count_status_iteration fd st inp Hlo ltac:(lia)) as Hit.
      rewrite Hfr in Hit.
      rewrite (iteration_frame channels cvtColor_BGR2GRAY
                 apriltag_detector_detect estimate_tag_pose fd st inp Hfr)
        in *.
      set (st1 := counted _ _ _ _ _ _ _) in *.
      assert (Hc : VisionService.frame_count_ st1
                   = VisionService.frame_count_ st + 1).
      { unfold st1, counted. cbn. unfold VisionService.wrap32.
        apply Z.mod_small. lia. }
      specialize (IH st1 ltac:(lia) ltac:(lia)).
      destruct (run_iterations fd st1 rest) as [st2 out2].
      cbn [snd] in *. rewrite count_status_app, IH, Hit, Hc.
      replace (VisionService.frame_count_ st + 1 + frames_read rest)
        with (VisionService.frame_count_ st + (1 + frames_read rest))
        by lia.
      lia.
    + rewrite (iteration_no_frame channels cvtColor_BGR2GRAY
                 apriltag_detector_detect estimate_tag_pose fd st inp Hfr).
      specialize (IH st Hlo Hhi).
      destruct (run_iterations fd st rest) as [st2 out2].
      cbn [snd] in *. cbn [app count_status is_status_header]. lia.
Qed.

(** X13. A run in which every pass reads a frame is never faster than
    the frame period: the time of the bodies plus the time slept is at
    least the number of passes times the period. *)
Theorem run_not_faster_than_period :
  forall fd inputs st,
    Forall (fun inp => VisionService.frame inp <> None) inputs ->
    Z.of_nat (List.length inputs) * fd
    <= total_elapsed inputs
       + total_sleep (snd (run_iterations fd st inputs)).
Proof.
  intros fd inputs st Hall.
  rewrite (run_iterations_sleep channels cvtColor_BGR2GRAY
             apriltag_detector_detect estimate_tag_pose).
  clear st. induction Hall as [ | inp rest Hf _ IH ].
  - cbn. lia.
  - cbn [List.length total_elapsed fold_right].
    unfold pass_sleep at 1.
    destruct (VisionService.frame inp); [ | contradiction ].
    lia.
Qed.

(** X14. Whether a tag gets a pose is decided by the calibration alone:
    every tag that the loop detects in a frame has [pose_valid] set
    exactly when the service holds a valid calibration with a camera
    matrix. *)
Theorem tags_posed_iff_calibrated :
  forall (st : VisionService.t (T:=T)) (frame : Image),
    Forall (fun r => AprilTagDetector.pose_valid r = calibrated st)
           (tags_at st frame).
Proof.
  intros st frame. unfold tags_of, AprilTagDetector.detect.
  unfold calibrated.
  apply Forall_forall. intros r Hin.
  apply in_map_iff in Hin as (d & <- & _).
  unfold AprilTagDetector.process_detection, AprilTagDetector.estimatePose.
  destruct (VisionService.is_valid (VisionService.camera_calibration_ st));
    cbn [andb]; [ | reflexivity ].
  destruct (VisionService.calib_camera_matrix
              (VisionService.camera_calibration_ st)); [ | reflexivity ].
  destruct (estimate_tag_pose _). reflexivity.
Qed.

(** X15. [start] decides it: after a [start] from the stopped state that
    opened the camera, the service is calibrated exactly when the
    calibration file opened and held a camera matrix, or when it did not
    open and the service was calibrated before. *)
Theorem start_calibrates :
  forall (env : VisionService.StartEnv (T:=T)) (st : VisionService.t (T:=T)),
    VisionService.running_ st = false ->
    VisionService.camera_opens env = true ->
    calibrated (snd (fst (VisionService.start env st)))
    = match VisionService.calibration_file env with
      | VisionService.NoFile => calibrated st
      | VisionService.FileWith (Some _) _ => true
      | VisionService.FileWith None _ => false
      end.
Proof.
  intros env st Hrun Hopen.
  unfold VisionService.start. rewrite Hrun.
  cbn [VisionService.set_camera_opened VisionService.camera_opened
       VisionService.camera_calibration_].
  rewrite Hopen. cbn [negb]. unfold VisionService.load.
  destruct (VisionService.calibration_file env) as [ | [k | ] dist ];
    destruct (VisionService.model_read env) as [[ | ] | what];
    destruct (VisionService.class_names_file env) as [lines | ];
    reflexivity.
Qed.

End ServiceInvariants.

(** ** The average-fps figure *)

Section AverageFps.
Variable Image : Type.
Variable channels : Image -> Z.
Variable cvtColor_BGR2GRAY : Image -> Image.
Variable apriltag_detector_detect :
  AprilTagDetector.detector (T:=R) -> Image ->
  list (AprilTagDetector.apriltag_detection (T:=R)).
Variable estimate_tag_pose :
  AprilTagDetector.apriltag_detection_info (T:=R) ->
  R * AprilTagDetector.apriltag_pose (T:=R).

(** X16. The "Average FPS" of the status summary is not a measurement:
    [total_frames_processed_] and [frame_count_] are the same number in
    every state the service reaches, so that in exact arithmetic the
    figure [framesProcessed / (frameIndex / targetFps)] is the configured
    frame rate itself, whatever time the frames took. *)
Theorem average_fps_is_target :
  forall st : VisionService.t (T:=R),
    reachable channels cvtColor_BGR2GRAY apriltag_detector_detect
      estimate_tag_pose st ->
    VisionService.frame_count_ st <> 0%Z ->
    VisionService.target_fps_ st <> 0%Z ->
    VisionService.total_frames_processed_ st = VisionService.frame_count_ st
    /\ VisionService.average_fps st = IZR (VisionService.target_fps_ st).
Proof.
  intros st Hr Hfc Hfps.
  apply reachable_invariant in Hr. destruct Hr as (_ & _ & _ & Hf & _).
  split; [ exact Hf | ].
  unfold VisionService.average_fps. rewrite Hf. real_arith.
  apply not_0_IZR in Hfc. apply not_0_IZR in Hfps.
  field. split; assumption.
Qed.

End AverageFps.

(** ** The service, run *)

Section ServiceInstances.
Local Open Scope Z_scope.

Lemma started64_reachable : reachable64 started64.
Proof. apply reach_start. apply reach_init. Qed.

Lemma camera_open_iff_running_witness :
  VisionService.camera_opened started64 = VisionService.isRunning started64
  /\ VisionService.thread_joinable started64
     = VisionService.isRunning started64.
Proof.
  exact (@camera_open_iff_running float _ unit (fun _ => 1) (fun i => i)
           no_tags failing_solver started64 started64_reachable).
Defined.

Lemma transform_never_posed_witness :
  CoordinateTransform.hasPose (VisionService.coordinate_transform_ started64)
  = false
  /\ CoordinateTransform.isCalibrated
       (VisionService.coordinate_transform_ started64) = true.
Proof.
  split.
  - exact (proj1 (@transform_never_posed float _ unit (fun _ => 1)
                    (fun i => i) no_tags failing_solver started64
                    started64_reachable)).
  - reflexivity.
Defined.

Lemma frame_count_counts_frames_witness :
  VisionService.frame_count_
    (fst (VisionService.run_iterations (fun _ : unit => 1) (fun i => i)
            no_tags failing_solver 33 started64 three_passes))
  = 2.
Proof.
  rewrite (@frame_count_counts_frames float _ unit (fun _ => 1)
             (fun i => i) no_tags failing_solver 33 three_passes started64).
  - reflexivity.
  - cbn. lia.
Defined.

Lemma summaries_in_a_run_witness :
  count_status
    (snd (VisionService.run_iterations (fun _ : unit => 1) (fun i => i)
            no_tags failing_solver 33 counted99 three_passes))
  = 1.
Proof.
  rewrite (@summaries_in_a_run float _ unit (fun _ => 1) (fun i => i)
             no_tags failing_solver 33 three_passes counted99).
  - reflexivity.
  - cbn. lia.
  - cbn. lia.
Defined.

Lemma run_not_faster_than_period_witness :
  Z.of_nat (List.length two_frames) * 33
  <= total_elapsed two_frames
     + total_sleep
         (snd (VisionService.run_iterations (fun _ : unit => 1)
                 (fun i => i) no_tags failing_solver 33 started64
                 two_frames)).
Proof.
  apply (@run_not_faster_than_period float _ unit (fun _ => 1) (fun i => i)
           no_tags failing_solver 33 two_frames started64).
  repeat constructor; discriminate.
Defined.

(** What [start] prints when the camera opens and no file is there. *)
Example start_without_files :
  VisionService.start env_camera_only VisionService.init
  = (true,
     snd (fst (VisionService.start env_camera_only VisionService.init)),
     [Cout [Str "Starting Vision service..."];
      Cout [Str "Opening camera "; Int 0; Str "..."];
      Cerr [Str "Failed to open calibration file: "; Str "calibration.yml"];
      Cout [Str "No calibration file found - pose estimation will be less accurate"];
      Cout [Str "Loading YOLO model..."];
      Cerr [Str "OpenCV error: "; Str "file not found"];
      Cerr [Str "Warning: Failed to load YOLO model - object detection disabled"];
      Cerr [Str "Failed to open class names file: "; Str "coco.names"];
      Cerr [Str "Warning: Failed to load class names"];
      Cout [Str "Zenoh initialization not yet implemented"];
      Cerr [Str "Warning: Zenoh initialization failed - pub/sub disabled"];
      Cout [Str "Vision service started successfully"]])
  /\ ObjectDetector.net_loaded
       (VisionService.object_detector_
          (snd (fst (VisionService.start env_camera_only
                       VisionService.init))))
     = false.
Proof. vm_compute. split; reflexivity. Qed.

Lemma start_calibrates_witness :
  calibrated started64 = true
  /\ calibrated
       (snd (fst (VisionService.start env_camera_only VisionService.init)))
     = false.
Proof.
  split.
  - exact (@start_calibrates float env_complete VisionService.init
             eq_refl eq_refl).
  - exact (@start_calibrates float env_camera_only VisionService.init
             eq_refl eq_refl).
Defined.

(** A tag seen by the started service, and by one started without a
    calibration file. *)
Example tags_posed_after_start :
  map (fun r => AprilTagDetector.pose_valid r)
      (tags_of (fun _ : unit => 1) (fun i => i) one_tag failing_solver
         started64 tt)
  = [true]
  /\ map (fun r => AprilTagDetector.pose_valid r)
         (tags_of (fun _ : unit => 1) (fun i => i) one_tag failing_solver
            (snd (fst (VisionService.start env_camera_only
                         VisionService.init))) tt)
     = [false].
Proof. vm_compute. split; reflexivity. Qed.

Lemma average_fps_is_target_witness :
  VisionService.average_fps one_frameR = 30%R.
Proof.
  refine (proj2 (@average_fps_is_target unit (fun _ => 1) (fun i => i)
                   no_tagsR solverR one_frameR _ _ _)).
  - apply reach_iteration. apply reach_init.
  - discriminate.
  - discriminate.
Defined.

End ServiceInstances.

(** ** Arguments of [main] *)

Section Arguments.
Context {T : Type} `{Scalar T}.
Variable atof : string -> T.
Local Open Scope string_scope.

(** Induction over an argument list two arguments at a time. *)
Lemma args_ind (P : list string -> Prop) :
  P [] ->
  (forall a, P [a]) ->
  (forall a b rest, P rest -> P (b :: rest) -> P (a :: b :: rest)) ->
  forall args, P args.
Proof.
  intros H0 H1 H2 args.
  assert (Hboth : P args /\ forall a, P (a :: args)).
  { induction args as [ | b rest [IHr IHb] ].
    - split; [ exact H0 | exact H1 ].
    - split; [ apply IHb | ]. intros a. apply H2; [ exact IHr | apply IHb ]. }
  exact (proj1 Hboth).
Qed.

Lemma parse_args_two (a b : string) (rest : list string)
    (o : Main.Options (T:=T)) :
  Main.parse_args atof (a :: b :: rest) o
  = if String.eqb a "--camera" then
      Main.parse_args atof rest
        (Main.mkOptions (Main.atoi b) (Main.fps o) (Main.apriltag_size o))
    else if String.eqb a "--fps" then
      Main.parse_args atof rest
        (Main.mkOptions (Main.camera_index o) (Main.atoi b)
           (Main.apriltag_size o))
    else if String.eqb a "--tag-size" then
      Main.parse_args atof rest
        (Main.mkOptions (Main.camera_index o) (Main.fps o) (atof b))
    else if String.eqb a "--help" then None
    else Main.parse_args atof (b :: rest) o.
Proof. reflexivity. Qed.

(** X17. The argument loop of [main] changes an option only through its
    flag: when [--camera], [--fps] or [--tag-size] does not occur among
    the arguments, the camera index, frame rate or tag size that comes
    out is the one that went in; and the loop stops for help only if
    [--help] occurs among them. *)
Theorem parse_args_untouched :
  forall (args : list string) (o : Main.Options (T:=T)),
    match Main.parse_args atof args o with
    | Some o' =>
        (~ In "--camera" args -> Main.camera_index o' = Main.camera_index o)
        /\ (~ In "--fps" args -> Main.fps o' = Main.fps o)
        /\ (~ In "--tag-size" args ->
            Main.apriltag_size o' = Main.apriltag_size o)
    | None => In "--help" args
    end.
Proof.
  intros args. induction args as [ | a | a b rest IHr IHb ] using args_ind;
    intros o.
  - cbn. auto.
  - cbn [Main.parse_args].
    destruct (String.eqb_spec a "--help") as [-> | Hh]; cbn; auto.
  - rewrite parse_args_two.
    destruct (String.eqb_spec a "--camera") as [-> | Hc].
    { specialize (IHr (Main.mkOptions (Main.atoi b) (Main.fps o)
                         (Main.apriltag_size o))).
      destruct (Main.parse_args atof rest _) as [o' | ].
      - destruct IHr as (H1 & H2 & H3). cbn in H2, H3.
        repeat split; intros Hn.
        + exfalso. apply Hn. now left.
        + apply H2. intro Hi. apply Hn. now do 2 right.
        + apply H3. intro Hi. apply Hn. now do 2 right.
      - now do 2 right. }
    destruct (String.eqb_spec a "--fps") as [-> | Hf].
    { specialize (IHr (Main.mkOptions (Main.camera_index o) (Main.atoi b)
                         (Main.apriltag_size o))).
      destruct (Main.parse_args atof rest _) as [o' | ].
      - destruct IHr as (H1 & H2 & H3). cbn in H1, H3.
        repeat split; intros Hn.
        + apply H1. intro Hi. apply Hn. now do 2 right.
        + exfalso. apply Hn. now left.
        + apply H3. intro Hi. apply Hn. now do 2 right.
      - now do 2 right. }
    destruct (String.eqb_spec a "--tag-size") as [-> | Ht].
    { specialize (IHr (Main.mkOptions (Main.camera_index o) (Main.fps o)
                         (atof b))).
      destruct (Main.parse_args atof rest _) as [o' | ].
      - destruct IHr as (H1 & H2 & H3). cbn in H1, H2.
        repeat split; intros Hn.
        + apply H1. intro Hi. apply Hn. now do 2 right.
        + apply H2. intro Hi. apply Hn. now do 2 right.
        + exfalso. apply Hn. now left.
      - now do 2 right. }
    destruct (String.eqb_spec a "--help") as [-> | Hh]; [ now left | ].
    specialize (IHb o).
    destruct (Main.parse_args atof (b :: rest) o) as [o' | ].
    + destruct IHb as (H1 & H2 & H3).
      repeat split; intros Hn;
        [ apply H1 | apply H2 | apply H3 ];
        intro Hi; apply Hn; now right.
    + now right.
Qed.

End Arguments.

(** ** Calibration data: files *)

Section CalibrationFiles.
Context {T : Type} `{Scalar T}.

Lemma read_coeffs_written (v : list T) (fs : CameraCalibration.File)
    (name : string) :
  CameraCalibration.node fs name
  = Some (CameraCalibration.node_of_coeffs v) ->
  CameraCalibration.read_coeffs fs name = v.
Proof.
  unfold CameraCalibration.read_coeffs. intros ->.
  destruct v; reflexivity.
Qed.

(** X18. What [save] writes, [load] reads back under the same names: a
    valid calibration saved and loaded into any calibration object gives
    the saved camera matrix, distortion coefficients, image size and
    reprojection error, and [load] returns whether the camera matrix is
    not empty.  The extrinsics come back only when the saved rotation is
    not empty; when it is empty nothing is written for them, a saved
    translation is lost, and the loading object keeps the rotation and
    translation that it had. *)
Theorem save_then_load :
  forall (cal cal0 : CameraCalibration.CalibrationData (T:=T))
         (filename filename' : string),
    CameraCalibration.is_valid cal = true ->
    exists fs out,
      CameraCalibration.save cal filename true = (true, Some fs, out)
      /\ let loaded := CameraCalibration.load cal0 filename' (Some fs) in
         let cal' := snd (fst loaded) in
         fst (fst loaded) = has_matrix cal
         /\ CameraCalibration.is_valid cal' = has_matrix cal
         /\ CameraCalibration.camera_matrix cal'
            = CameraCalibration.camera_matrix cal
         /\ CameraCalibration.dist_coeffs cal'
            = CameraCalibration.dist_coeffs cal
         /\ CameraCalibration.image_size cal'
            = CameraCalibration.image_size cal
         /\ CameraCalibration.reprojection_error cal'
            = CameraCalibration.reprojection_error cal
         /\ match CameraCalibration.rotation cal with
            | Some _ =>
                CameraCalibration.rotation cal'
                = CameraCalibration.rotation cal
                /\ CameraCalibration.translation cal'
                   = CameraCalibration.translation cal
            | None =>
                CameraCalibration.rotation cal'
                = CameraCalibration.rotation cal0
                /\ CameraCalibration.translation cal'
                   = CameraCalibration.translation cal0
            end.
Proof.
  intros cal cal0 filename filename' Hvalid.
  unfold CameraCalibration.save. rewrite Hvalid. cbn [negb].
  eexists. eexists. split; [ reflexivity | ].
  destruct cal as [km dist [w h] rot tr valid err].
  cbn [CameraCalibration.camera_matrix CameraCalibration.dist_coeffs
       CameraCalibration.image_size CameraCalibration.rotation
       CameraCalibration.translation CameraCalibration.reprojection_error
       width height].
  unfold has_matrix, CameraCalibration.load.
  destruct km as [km | ], rot as [rot | ], tr as [tr | ],
    dist as [ | d0 dist ]; cbn; repeat split; reflexivity.
Qed.

(** X19. A calibration that is valid has a camera matrix: this holds for
    a new calibration object and is kept by [load] and by [calibrate],
    whatever the file holds and whatever the images show.  In
    particular [load] on a file without a camera matrix leaves the
    object invalid, also when it was valid before. *)
Theorem valid_has_camera_matrix :
  forall cal : CameraCalibration.CalibrationData (T:=T),
    well_formed cal ->
    well_formed (CameraCalibration.init (T:=T))
    /\ (forall filename file,
          well_formed
            (snd (fst (CameraCalibration.load cal filename file))))
    /\ (forall filename fs,
          CameraCalibration.read_mat33 fs "camera_matrix" = None ->
          CameraCalibration.is_valid
            (snd (fst (CameraCalibration.load cal filename (Some fs))))
          = false)
    /\ (forall (Image : Type) image_size_of channels cvtColor_BGR2GRAY
               findChessboardCorners cornerSubPix calibrateCamera
               (images : list Image) pattern_size square_size ok cal' out,
          CameraCalibration.calibrate image_size_of channels
            cvtColor_BGR2GRAY findChessboardCorners cornerSubPix
            calibrateCamera cal images pattern_size square_size
          = Some (ok, cal', out) ->
          well_formed cal').
Proof.
  intros cal Hwf. split; [ discriminate | ]. split; [ | split ].
  - intros filename [fs | ]; [ | exact Hwf ].
    unfold CameraCalibration.load, well_formed.
    destruct (negb (CameraCalibration.node_empty fs "rotation"));
      destruct (CameraCalibration.read_mat33 fs "camera_matrix");
      cbn; congruence.
  - intros filename fs Hnone. unfold CameraCalibration.load.
    rewrite Hnone.
    destruct (negb (CameraCalibration.node_empty fs "rotation"));
      reflexivity.
  - intros Image image_size_of channels cvtColor_BGR2GRAY
      findChessboardCorners cornerSubPix calibrateCamera images
      pattern_size square_size ok cal' out.
    unfold CameraCalibration.calibrate.
    destruct (_ <? 3)%Z.
    + intros E. injection E as _ <- _. exact Hwf.
    + destruct images as [ | first rest ]; [ discriminate | ].
      destruct (calibrateCamera _ _ _) as [[rms k] d].
      intros E. injection E as _ <- _.
      unfold well_formed. cbn. discriminate.
Qed.

End CalibrationFiles.

(** ** Calibration from images *)

Section CalibrationImages.
Context {T : Type} `{Scalar T}.
Variable Image : Type.
Variable image_size_of : Image -> Size.
Variable channels : Image -> Z.
Variable cvtColor_BGR2GRAY : Image -> Image.
Variable findChessboardCorners : Image -> Size -> bool * list (Point2 T).
Variable cornerSubPix : Image -> list (Point2 T) -> list (Point2 T).
Variable calibrateCamera :
  list (list (Point3 T)) -> list (list (Point2 T)) -> Size ->
  T * Mat33 T * list T.
Variable drawChessboardCorners :
  Image -> Size -> list (Point2 T) -> bool -> Image.
Variable putText : Image -> string -> Image.
Variable to_string : Z -> string.
Local Open Scope Z_scope.

Local Abbreviation found_corners :=
  (CameraCalibration.found_corners channels cvtColor_BGR2GRAY
     findChessboardCorners cornerSubPix).
Local Abbreviation calibrate :=
  (CameraCalibration.calibrate image_size_of channels cvtColor_BGR2GRAY
     findChessboardCorners cornerSubPix calibrateCamera).
Local Abbreviation annotate :=
  (CameraCalibration.annotate channels cvtColor_BGR2GRAY
     findChessboardCorners cornerSubPix drawChessboardCorners putText
     to_string).
Local Abbreviation capture :=
  (CameraCalibration.capture channels cvtColor_BGR2GRAY
     findChessboardCorners cornerSubPix drawChessboardCorners putText
     to_string).
Local Abbreviation calibrateFromCamera :=
  (CameraCalibration.calibrateFromCamera image_size_of channels
     cvtColor_BGR2GRAY findChessboardCorners cornerSubPix calibrateCamera
     drawChessboardCorners putText to_string).

Lemma found_corners_length (images : list Image) (pattern_size : Size) :
  (List.length (found_corners images pattern_size)
   <= List.length images)%nat.
Proof.
  induction images as [ | image rest IH ]; [ apply le_n | ].
  cbn [CameraCalibration.found_corners List.length].
  destruct (CameraCalibration.detectChessboard _ _ _ _ _ _)
    as [[ | ] corners]; cbn [List.length]; lia.
Qed.

Lemma calibrate_outcome :
  forall (cal : CameraCalibration.CalibrationData (T:=T))
         (images : list Image) (pattern_size : Size) (square_size : T),
    exists ok cal' out,
      calibrate cal images pattern_size square_size = Some (ok, cal', out)
      /\ ok = (3 <=? Z.of_nat
                       (List.length (found_corners images pattern_size)))
      /\ (ok = false -> cal' = cal)
      /\ (ok = true ->
          CameraCalibration.is_valid cal' = true
          /\ CameraCalibration.camera_matrix cal' <> None
          /\ Some (CameraCalibration.image_size cal')
             = option_map image_size_of (hd_error images)
          /\ CameraCalibration.rotation cal'
             = CameraCalibration.rotation cal
          /\ CameraCalibration.translation cal'
             = CameraCalibration.translation cal).
Proof.
  intros cal images pattern_size square_size.
  unfold CameraCalibration.calibrate.
  pose proof (found_corners_length images pattern_size) as Hlen.
  destruct (Z.of_nat (List.length (found_corners images pattern_size)) <? 3)
    eqn:Hfew.
  - do 3 eexists. split; [ reflexivity | ].
    apply Z.ltb_lt in Hfew.
    split; [ symmetry; apply Z.leb_gt; exact Hfew | ].
    split; [ reflexivity | discriminate ].
  - apply Z.ltb_ge in Hfew.
    destruct images as [ | first rest ]; [ cbn in Hfew; lia | ].
    destruct (calibrateCamera _ _ _) as [[rms k] d].
    do 3 eexists. split; [ reflexivity | ].
    split; [ symmetry; apply Z.leb_le; exact Hfew | ].
    split; [ discriminate | ].
    intros _. cbn. repeat split. discriminate.
Qed.

(** X20. [calibrate] fails exactly when the chessboard is found in fewer
    than three of the images, an empty list of images included, and then
    leaves the calibration as it was.  Otherwise it succeeds with a valid
    calibration that holds a camera matrix and the size of the first
    image, and with the rotation and translation it had: [calibrate]
    computes no extrinsics.  It never reads [images[0]] of an empty
    vector. *)
Theorem calibrate_needs_three_boards :
  forall (cal : CameraCalibration.CalibrationData (T:=T))
         (images : list Image) (pattern_size : Size) (square_size : T),
    exists ok cal' out,
      calibrate cal images pattern_size square_size = Some (ok, cal', out)
      /\ ok = (3 <=? Z.of_nat
                       (List.length (found_corners images pattern_size)))
      /\ (ok = false -> cal' = cal)
      /\ (ok = true ->
          CameraCalibration.is_valid cal' = true
          /\ CameraCalibration.camera_matrix cal' <> None
          /\ Some (CameraCalibration.image_size cal')
             = option_map image_size_of (hd_error images)
          /\ CameraCalibration.rotation cal'
             = CameraCalibration.rotation cal
          /\ CameraCalibration.translation cal'
             = CameraCalibration.translation cal).
Proof. exact calibrate_outcome. Qed.

Lemma flat_map_const_length (A B : Type) (f : A -> list B) (n : nat)
    (l : list A) :
  (forall a, List.length (f a) = n) ->
  List.length (flat_map f l) = (List.length l * n)%nat.
Proof.
  intros Hf. induction l as [ | a l IH ]; [ reflexivity | ].
  cbn [flat_map List.length]. rewrite length_app, Hf, IH. lia.
Qed.

(** X21. The object points given to [cv::calibrateCamera] for a board of
    [width] by [height] inner corners are [height * width] points, all
    with the same third coordinate, and none when a dimension is not
    positive. *)
Theorem chessboard_points_grid :
  forall (pattern_size : Size) (square_size : T),
    List.length (CameraCalibration.chessboard_points pattern_size
                   square_size)
    = (Z.to_nat (height pattern_size) * Z.to_nat (width pattern_size))%nat
    /\ Forall (fun p => z3 p = to_float lit0)
              (CameraCalibration.chessboard_points pattern_size
                 square_size).
Proof.
  intros [w h] square_size.
  unfold CameraCalibration.chessboard_points, range. cbn [width height].
  split.
  - rewrite flat_map_const_length with (n := Z.to_nat w).
    + now rewrite length_map, length_seq.
    + intros i. now rewrite !length_map, length_seq.
  - apply Forall_forall. intros p Hin.
    apply in_flat_map in Hin as (i & _ & Hin).
    apply in_map_iff in Hin as (j & <- & _). reflexivity.
Qed.

Lemma capture_collected (pattern_size : Size) (num_frames : Z) :
  forall events frames_collected images out images' out',
    capture events pattern_size num_frames frames_collected images out
    = Some (CameraCalibration.Collected images' out') ->
    Z.of_nat (List.length images')
    = Z.of_nat (List.length images)
      + Z.max 0 (num_frames - frames_collected)
    /\ exists added,
         images' = images ++ added
         /\ Forall (annotated channels cvtColor_BGR2GRAY
                      findChessboardCorners cornerSubPix
                      drawChessboardCorners putText to_string
                      pattern_size num_frames) added.
Proof.
  assert (Hdone : forall events fc images out images' out',
            (fc <? num_frames) = false ->
            capture events pattern_size num_frames fc images out
            = Some (CameraCalibration.Collected images' out') ->
            images' = images).
  { intros [ | ev rest ] fc images out images' out' Hc;
      cbn [CameraCalibration.capture]; rewrite Hc;
      intros E; now injection E as <- _. }
  induction events as [ | ev rest IH ];
    intros fc images out images' out' Hcap.
  - cbn [CameraCalibration.capture] in Hcap.
    destruct (fc <? num_frames) eqn:Hc; [ discriminate | ].
    injection Hcap as <- _. apply Z.ltb_ge in Hc.
    split; [ lia | ]. exists []. now rewrite app_nil_r.
  - destruct (fc <? num_frames) eqn:Hc.
    + cbn [CameraCalibration.capture] in Hcap. rewrite Hc in Hcap.
      apply Z.ltb_lt in Hc.
      destruct (CameraCalibration.event_frame ev) as [frame | ].
      * destruct (annotate frame pattern_size fc num_frames)
          as [found image] eqn:Hann.
        destruct (CameraCalibration.event_key ev =? 27); [ discriminate | ].
        destruct ((CameraCalibration.event_key ev =? 32) && found) eqn:Hk.
        -- apply andb_true_iff in Hk as [_ ->].
           apply IH in Hcap as (Hlen & added & -> & Hadded).
           rewrite (length_app images) in Hlen. cbn [List.length] in Hlen.
           split; [ lia | ].
           exists (image :: added). rewrite <- app_assoc. split;
             [ reflexivity | ].
           constructor; [ | exact Hadded ].
           exists frame, fc. exact Hann.
        -- now apply IH in Hcap.
      * now apply IH in Hcap.
    + pose proof (Hdone _ _ _ _ _ _ Hc Hcap) as ->.
      apply Z.ltb_ge in Hc.
      split; [ lia | ]. exists []. now rewrite app_nil_r.
Qed.

(** X22. The images that [calibrateFromCamera] collects for [calibrate]
    are not the frames as the camera gave them: each is a frame in which
    the board was found, with the corners drawn into it and the frame
    count written over it.  When the capture loop ends without being
    cancelled there are exactly [num_frames] of them, none for a count
    that is not positive. *)
Theorem captured_images_annotated :
  forall events pattern_size num_frames out images out',
    capture events pattern_size num_frames 0 [] out
    = Some (CameraCalibration.Collected images out') ->
    Z.of_nat (List.length images) = Z.max 0 num_frames
    /\ Forall (annotated channels cvtColor_BGR2GRAY findChessboardCorners
                 cornerSubPix drawChessboardCorners putText to_string
                 pattern_size num_frames) images.
Proof.
  intros events pattern_size num_frames out images out' Hcap.
  apply capture_collected in Hcap as (Hlen & added & -> & Hadded).
  cbn [List.length app] in *. split; [ lia | exact Hadded ].
Qed.

(** Whether the capture loop ends on given events is decided by the
    events, the pattern and the counts alone. *)
Lemma capture_ends_alike (pattern_size : Size) (num_frames : Z) :
  forall events frames_collected images out images' out',
    capture events pattern_size num_frames frames_collected images out
    = None ->
    capture events pattern_size num_frames frames_collected images' out'
    = None.
Proof.
  induction events as [ | ev rest IH ];
    intros fc images out images' out'; cbn [CameraCalibration.capture];
    destruct (fc <? num_frames); try discriminate; [ reflexivity | ].
  destruct (CameraCalibration.event_frame ev) as [frame | ];
    [ | apply IH ].
  destruct (annotate frame pattern_size fc num_frames) as [found image].
  destruct (CameraCalibration.event_key ev =? 27); [ discriminate | ].
  destruct ((CameraCalibration.event_key ev =? 32) && found); apply IH.
Qed.

(** X23. [calibrateFromCamera] returns [false] and leaves the calibration
    as it was when the camera does not open, when no frame is asked
    for, and when ESC is pressed on the first frame.  With the camera
    open it returns exactly when the capture loop ends.  Whenever it
    returns [false] the calibration is what it was before the call, and
    it returns [false] always when fewer than three frames are asked
    for, since [calibrate] is then given fewer than three images; when
    it returns [true] the calibration is valid and holds a camera
    matrix. *)
Theorem calibrateFromCamera_outcome :
  forall cal camera_index pattern_size square_size num_frames events,
    let run :=
      fun camera_opens =>
        calibrateFromCamera cal camera_index pattern_size square_size
          num_frames camera_opens events in
    run false
    = Some (false, cal,
            [Cerr [Str "Failed to open camera "; Int camera_index]])
    /\ (num_frames <= 0 -> exists out, run true = Some (false, cal, out))
    /\ (forall frame rest,
          0 < num_frames ->
          events = CameraCalibration.mkEvent (Some frame) 27 :: rest ->
          exists out, run true = Some (false, cal, out))
    /\ (run true = None
        <-> capture events pattern_size num_frames 0 [] [] = None)
    /\ (forall camera_opens ok cal' out,
          run camera_opens = Some (ok, cal', out) ->
          (ok = false -> cal' = cal)
          /\ (num_frames < 3 -> ok = false)
          /\ (ok = true ->
              CameraCalibration.is_valid cal' = true
              /\ CameraCalibration.camera_matrix cal' <> None)).
Proof.
  intros cal camera_index pattern_size square_size num_frames events run.
  subst run. cbv beta.
  split; [ reflexivity | ].
  split; [ | split; [ | split ] ].
  - intros Hnone. unfold CameraCalibration.calibrateFromCamera.
    cbn [negb].
    assert (Hcap : forall images out,
              capture events pattern_size num_frames 0 images out
              = Some (CameraCalibration.Collected images out)).
    { intros images out.
      destruct events; cbn [CameraCalibration.capture];
        replace (0 <? num_frames) with false
          by (symmetry; apply Z.ltb_ge; lia);
        reflexivity. }
    rewrite Hcap.
    destruct (calibrate_outcome cal [] pattern_size square_size)
      as (ok & cal' & out & -> & Hok & Hfail & _).
    cbn in Hok. subst ok. rewrite (Hfail eq_refl). now eexists.
  - intros frame rest Hpos ->.
    unfold CameraCalibration.calibrateFromCamera.
    cbn [negb CameraCalibration.capture CameraCalibration.event_frame
         CameraCalibration.event_key].
    replace (0 <? num_frames) with true
      by (symmetry; apply Z.ltb_lt; lia).
    destruct (annotate frame pattern_size 0 num_frames) as [found image].
    cbn. now eexists.
  - unfold CameraCalibration.calibrateFromCamera. cbn [negb]. split.
    + destruct (capture events pattern_size num_frames 0 [] _)
        as [[out | images out] | ] eqn:Hcap.
      * discriminate.
      * destruct (calibrate_outcome cal images pattern_size square_size)
          as (ok & cal' & out' & -> & _). discriminate.
      * intros _. eapply capture_ends_alike. exact Hcap.
    + intros Hcap.
      erewrite capture_ends_alike; [ reflexivity | exact Hcap ].
  - intros camera_opens ok cal' out.
    unfold CameraCalibration.calibrateFromCamera.
    destruct camera_opens; cbn [negb].
    + destruct (capture events pattern_size num_frames 0 [] _)
        as [[out1 | images out1] | ] eqn:Hcap; [ | | discriminate ].
      * intros E. injection E as <- <- _.
        repeat split; try reflexivity; discriminate.
      * apply capture_collected in Hcap as (Hlen & _).
        destruct (calibrate_outcome cal images pattern_size square_size)
          as (ok1 & cal1 & out2 & -> & Hok & Hfail & Hsucc).
        intros E. injection E as <- <- _.
        split; [ exact Hfail | ]. split.
        -- intros Hn. rewrite Hok. apply Z.leb_gt.
           pose proof (found_corners_length images pattern_size).
           cbn [List.length] in Hlen. lia.
        -- intros Ht. destruct (Hsucc Ht) as (Hv & Hm & _). now split.
    + intros E. injection E as <- <- _.
      repeat split; try reflexivity; discriminate.
Qed.

End CalibrationImages.


(** ** The calibration code, run *)

Section CalibrationInstances.
Local Open Scope string_scope.

Lemma save_then_load_witness :
  exists fs out,
    CameraCalibration.save full_calibration "calibration.yml" true
    = (true, Some fs, out)
    /\ fst (fst (CameraCalibration.load CameraCalibration.init
                   "calibration.yml" (Some fs)))
       = true.
Proof.
  pose proof (@save_then_load float _ full_calibration
                CameraCalibration.init "calibration.yml" "calibration.yml"
                eq_refl) as W.
  cbv zeta in W. destruct W as (fs & out & Hsave & Hload & _).
  exists fs, out. split; [ exact Hsave | exact Hload ].
Defined.

Lemma valid_has_camera_matrix_witness :
  well_formed full_calibration
  /\ well_formed
       (snd (fst (CameraCalibration.load full_calibration
                    "calibration.yml" None))).
Proof.
  assert (Hwf : well_formed full_calibration) by (intros _; discriminate).
  split; [ exact Hwf | ].
  apply (proj1 (proj2 (@valid_has_camera_matrix float _ full_calibration
                         Hwf))).
Defined.

Lemma captured_images_annotated_witness :
  Z.of_nat (List.length [101005; 101007]%Z) = Z.max 0 2
  /\ Forall (annotated (T:=float) (fun _ => 3%Z) (fun i => i) board_found
               (fun _ corners => corners)
               (fun image _ _ _ => (image + 1000)%Z)
               (fun image _ => (image + 100000)%Z)
               (fun _ => EmptyString) (mkSize 9 6) 2)
       [101005; 101007]%Z.
Proof.
  eapply (@captured_images_annotated float Z (fun _ => 3%Z) (fun i => i)
            board_found (fun _ corners => corners)
            (fun image _ _ _ => (image + 1000)%Z)
            (fun image _ => (image + 100000)%Z)
            (fun _ => EmptyString) three_captures (mkSize 9 6) 2 []).
  vm_compute. reflexivity.
Defined.

(** A camera that does not open; and three frames with the space bar
    pressed on each when two are asked for. *)
Lemma calibrateFromCamera_outcome_witness :
  calibrateFromCamera64 CameraCalibration.init 1 (mkSize 9 6) 0.5%float 10
    false three_captures
  = Some (false, CameraCalibration.init,
          [Cerr [Str "Failed to open camera "; Int 1]])
  /\ exists ok cal' out,
       calibrateFromCamera64 CameraCalibration.init 0 (mkSize 9 6)
         0.5%float 2 true three_captures
       = Some (ok, cal', out)
       /\ ok = false /\ cal' = CameraCalibration.init.
Proof.
  split.
  - exact (proj1 (@calibrateFromCamera_outcome float _ Z
                    (fun _ => mkSize 640 480) (fun _ => 3%Z) (fun i => i)
                    board_found (fun _ corners => corners)
                    fixed_calibration
                    (fun image _ _ _ => (image + 1000)%Z)
                    (fun image _ => (image + 100000)%Z)
                    (fun _ => EmptyString) CameraCalibration.init 1
                    (mkSize 9 6) 0.5%float 10 three_captures)).
  - destruct (calibrateFromCamera64 CameraCalibration.init 0 (mkSize 9 6)
                0.5%float 2 true three_captures)
      as [[[ok cal'] out] | ] eqn:Hrun;
      [ | vm_compute in Hrun; discriminate ].
    exists ok, cal', out. split; [ reflexivity | ].
    destruct (proj2 (proj2 (proj2 (proj2
                (@calibrateFromCamera_outcome float _ Z
                   (fun _ => mkSize 640 480) (fun _ => 3%Z) (fun i => i)
                   board_found (fun _ corners => corners)
                   fixed_calibration
                   (fun image _ _ _ => (image + 1000)%Z)
                   (fun image _ => (image + 100000)%Z)
                   (fun _ => EmptyString) CameraCalibration.init 0
                   (mkSize 9 6) 0.5%float 2 three_captures))))
                true ok cal' out Hrun)
      as (Hsame & Hfew & _).
    assert (Hok : ok = false) by (apply Hfew; lia).
    split; [ exact Hok | exact (Hsame Hok) ].
Defined.

End CalibrationInstances.

(** ** Object detection *)

Lemma Rltb_lt (x y : R) : Rltb x y = true -> (x < y)%R.
Proof. unfold Rltb. destruct (Rlt_dec x y); [ intros _; assumption | discriminate ]. Qed.

Lemma Rltb_of_lt (x y : R) : (x < y)%R -> Rltb x y = true.
Proof. unfold Rltb. destruct (Rlt_dec x y); [ reflexivity | lra ]. Qed.

Lemma range_succ (k : nat) :
  range (Z.of_nat (S k)) = range (Z.of_nat k) ++ [Z.of_nat k].
Proof.
  unfold range. rewrite !Nat2Z.id, seq_S, map_app. reflexivity.
Qed.

Lemma in_range (n j : Z) : In j (range n) <-> (0 <= j < n)%Z.
Proof.
  unfold range. rewrite in_map_iff. split.
  - intros (k & <- & Hin). apply in_seq in Hin. lia.
  - intros Hj. exists (Z.to_nat j). split; [ lia | ].
    apply in_seq. lia.
Qed.

Section ClassScores.
Local Open Scope Z_scope.

(** The loop over the class scores after [k] of them. *)
Lemma best_class_after (detection : Z -> R) (k : nat) :
  let best := ObjectDetector.best_class detection (Z.of_nat k) in
  (0 <= fst best)%R
  /\ (forall j, 0 <= j < Z.of_nat k -> (detection (4 + j)%Z <= fst best)%R)
  /\ ((fst best = 0%R /\ snd best = 0)
      \/ (0 <= snd best < Z.of_nat k
          /\ detection (4 + snd best) = fst best
          /\ (0 < fst best)%R
          /\ forall j, 0 <= j < snd best ->
                       (detection (4 + j)%Z < fst best)%R)).
Proof.
  induction k as [ | k IH ].
  - cbn. split; [ lra | ]. split; [ intros j Hj; lia | ]. left. now split.
  - unfold ObjectDetector.best_class in *.
    rewrite range_succ, fold_left_app. cbn [fold_left].
    cbv zeta in IH.
    destruct (fold_left _ (range (Z.of_nat k)) _) as [m c].
    cbn [fst snd] in *. change (@flt R Scalar_real) with Rltb.
    destruct IH as (Hpos & Hmax & Hfirst).
    destruct (Rltb m (detection (4 + Z.of_nat k))) eqn:Hlt; cbn [fst snd].
    + apply Rltb_lt in Hlt.
      split; [ lra | ]. split.
      * intros j Hj.
        destruct (Z.eq_dec j (Z.of_nat k)) as [-> | Hne]; [ lra | ].
        assert (detection (4 + j)%Z <= m)%R by (apply Hmax; lia). lra.
      * right. split; [ lia | ]. split; [ reflexivity | ].
        split; [ lra | ].
        intros j Hj.
        assert (detection (4 + j)%Z <= m)%R by (apply Hmax; lia). lra.
    + apply Rltb_false in Hlt.
      split; [ exact Hpos | ]. split.
      * intros j Hj.
        destruct (Z.eq_dec j (Z.of_nat k)) as [-> | Hne]; [ exact Hlt | ].
        apply Hmax. lia.
      * destruct Hfirst as [Hzero | (Hc & Hat & Hposm & Hbefore)];
          [ left; exact Hzero | right ].
        split; [ lia | ]. now repeat split.
Qed.

Lemma best_class_to_nat (detection : Z -> R) (num_classes : Z) :
  ObjectDetector.best_class detection num_classes
  = ObjectDetector.best_class detection (Z.of_nat (Z.to_nat num_classes)).
Proof.
  unfold ObjectDetector.best_class, range. now rewrite Nat2Z.id.
Qed.

Lemma best_class_outcome (detection : Z -> R) (num_classes : Z) :
  let best := ObjectDetector.best_class detection num_classes in
  (0 <= fst best)%R
  /\ (forall j, 0 <= j < num_classes ->
                (detection (4 + j)%Z <= fst best)%R)
  /\ ((fst best = 0%R /\ snd best = 0)
      \/ (0 <= snd best < num_classes
          /\ detection (4 + snd best) = fst best
          /\ (0 < fst best)%R
          /\ forall j, 0 <= j < snd best ->
                       (detection (4 + j)%Z < fst best)%R)).
Proof.
  cbv zeta. rewrite best_class_to_nat.
  destruct (best_class_after detection (Z.to_nat num_classes))
    as (Hpos & Hmax & Hfirst).
  split; [ exact Hpos | ]. split.
  - intros j Hj. apply Hmax. lia.
  - destruct Hfirst as [Hzero | (Hc & Hrest)]; [ left; exact Hzero | right ].
    split; [ lia | exact Hrest ].
Qed.

(** X24. The loop over the class scores of a detection returns the
    largest score and the first class that has it, provided some score
    is positive; when none is, it returns confidence 0 and class 0,
    whatever the scores.  The confidence is never negative and no score
    is above it. *)
Theorem best_class_first_maximum :
  forall (detection : Z -> R) (num_classes : Z),
    let best := ObjectDetector.best_class detection num_classes in
    (0 <= fst best)%R
    /\ (forall j, 0 <= j < num_classes ->
                  (detection (4 + j)%Z <= fst best)%R)
    /\ ((fst best = 0%R /\ snd best = 0)
        \/ (0 <= snd best < num_classes
            /\ detection (4 + snd best) = fst best
            /\ (0 < fst best)%R
            /\ forall j, 0 <= j < snd best ->
                         (detection (4 + j)%Z < fst best)%R)).
Proof. exact best_class_outcome. Qed.

Lemma threshold_below_best (threshold : R) (detection : Z -> R)
    (num_classes : Z) :
  Rltb threshold (fst (ObjectDetector.best_class detection num_classes))
  = some_score_above threshold detection num_classes.
Proof.
  destruct (best_class_outcome detection num_classes)
    as (Hpos & Hmax & Hfirst).
  unfold some_score_above. change (@flt R Scalar_real) with Rltb.
  change (@lit0 R Scalar_real) with 0%R.
  apply eq_true_iff_eq. rewrite orb_true_iff, existsb_exists. split.
  - intros Hlt. apply Rltb_lt in Hlt.
    destruct Hfirst as [[Hzero _] | (Hc & Hat & _)].
    + left. apply Rltb_of_lt. lra.
    + right. exists (snd (ObjectDetector.best_class detection num_classes)).
      split; [ now apply in_range | ]. apply Rltb_of_lt. lra.
  - intros [Hneg | (j & Hin & Hj)].
    + apply Rltb_lt in Hneg. apply Rltb_of_lt. lra.
    + apply in_range in Hin. apply Rltb_lt in Hj.
      apply Rltb_of_lt. specialize (Hmax j Hin). lra.
Qed.

Variable Image : Type.
Variable cols : Image -> Z.
Variable rows : Image -> Z.
Variable to_int : R -> Z.

(** X25. A detection passes the confidence threshold exactly when the
    threshold is negative or below one of its class scores: the
    candidates of an output are its detections that do, in order, each
    with its box, its largest score and the class of that score.  With a
    negative threshold every detection passes, also one without a
    positive score. *)
Theorem candidates_are_scores_above :
  forall (st : ObjectDetector.t) (image : Image) (conf_threshold : R)
         (output : ObjectDetector.Output (T:=R)),
    ObjectDetector.candidates_of cols rows to_int st image conf_threshold
      output
    = map (fun i =>
             let best :=
               ObjectDetector.best_class (detection_at output i)
                 (ObjectDetector.size2 output - 4) in
             (ObjectDetector.box_of cols rows to_int st image
                (detection_at output i),
              fst best, snd best))
        (filter (fun i =>
                   some_score_above conf_threshold (detection_at output i)
                     (ObjectDetector.size2 output - 4))
           (range (ObjectDetector.size1 output)))
    /\ ((conf_threshold < 0)%R ->
        List.length
          (ObjectDetector.candidates_of cols rows to_int st image
             conf_threshold output)
        = Z.to_nat (ObjectDetector.size1 output)).
Proof.
  intros st image conf_threshold output.
  match goal with
  | |- ?lhs = ?rhs /\ _ => assert (Heq : lhs = rhs)
  end; [ | split; [ exact Heq | ] ].
  2:{ intros Hneg. rewrite Heq, length_map.
      transitivity (List.length (range (ObjectDetector.size1 output)));
        [ | unfold range; now rewrite length_map, length_seq ].
      f_equal. apply forallb_filter_id. apply forallb_forall.
      intros i _. unfold some_score_above.
      change (@flt R Scalar_real) with Rltb.
      change (@lit0 R Scalar_real) with 0%R.
      now rewrite (Rltb_of_lt Hneg). }
  unfold ObjectDetector.candidates_of. cbv zeta.
  generalize (range (ObjectDetector.size1 output)) as l.
  induction l as [ | i rest IH ]; [ reflexivity | ].
  cbn [flat_map filter]. rewrite IH.
  change (fun k : Z =>
            ObjectDetector.at_index (ObjectDetector.data output)
              (i * (4 + (ObjectDetector.size2 output - 4)) + k))
    with (detection_at output i).
  rewrite <- (threshold_below_best conf_threshold (detection_at output i)
                (ObjectDetector.size2 output - 4)).
  destruct (ObjectDetector.best_class (detection_at output i) _)
    as [max_conf max_class_id] eqn:Hbest.
  cbn [fst snd]. change (@flt R Scalar_real) with Rltb.
  destruct (Rltb conf_threshold max_conf); cbn [map app];
    rewrite ?Hbest; reflexivity.
Qed.

End ClassScores.

Section DetectionResults.
Context {T : Type} `{Scalar T}.
Variable Image : Type.
Variable cols : Image -> Z.
Variable rows : Image -> Z.
Variable forward : Image -> Size -> list (ObjectDetector.Output (T:=T)).
Variable NMSBoxes : list Rect -> list T -> T -> T -> list Z.
Variable to_int : T -> Z.
Local Open Scope Z_scope.

Local Abbreviation candidates_of :=
  (ObjectDetector.candidates_of cols rows to_int).
Local Abbreviation postprocess :=
  (ObjectDetector.postprocess cols rows NMSBoxes to_int).
Local Abbreviation detect :=
  (ObjectDetector.detect cols rows forward NMSBoxes to_int).

Lemma candidates_of_kept (st : ObjectDetector.t) (image : Image)
    (conf_threshold : T) (output : ObjectDetector.Output (T:=T))
    (c : ObjectDetector.Candidate (T:=T)) :
  In c (candidates_of st image conf_threshold output) ->
  flt conf_threshold (snd (fst c)) = true.
Proof.
  unfold ObjectDetector.candidates_of. cbv zeta. intros Hin.
  apply in_flat_map in Hin as (i & _ & Hi).
  destruct (ObjectDetector.best_class _ _) as [max_conf max_class_id].
  destruct (flt conf_threshold max_conf) eqn:Hkept; [ | destruct Hi ].
  destruct Hi as [<- | []]. exact Hkept.
Qed.

Lemma results_of_ids (st : ObjectDetector.t)
    (candidates : list (ObjectDetector.Candidate (T:=T))) :
  forall indices results,
    map (fun r => ObjectDetector.object_id r)
        (ObjectDetector.results_of st candidates indices results)
    = map (fun r => ObjectDetector.object_id r) results
      ++ map (fun k => Z.of_nat k mod 2 ^ 32)
           (seq (List.length results) (List.length indices)).
Proof.
  induction indices as [ | idx rest IH ]; intros results.
  - cbn. now rewrite app_nil_r.
  - cbn [ObjectDetector.results_of].
    destruct (nth _ candidates _) as [[box conf] class_id].
    rewrite IH, map_app, length_app, <- app_assoc.
    cbn [map List.length app seq ObjectDetector.object_id].
    now rewrite Nat.add_1_r.
Qed.

Lemma results_of_from_candidates (st : ObjectDetector.t)
    (candidates : list (ObjectDetector.Candidate (T:=T)))
    (P : ObjectDetector.DetectedObject (T:=T) -> Prop) :
  (forall id box conf class_id center,
     In (box, conf, class_id) candidates ->
     P (ObjectDetector.mkObject id (ObjectDetector.getClassName st class_id)
          conf box center false zero3 lit0)) ->
  forall indices results,
    indices_in_range (List.length candidates) indices ->
    Forall P results ->
    Forall P (ObjectDetector.results_of st candidates indices results).
Proof.
  intros HP. induction indices as [ | idx rest IH ];
    intros results Hrange Hres; [ exact Hres | ].
  cbn [ObjectDetector.results_of].
  inversion Hrange as [ | ? ? Hidx Hrest ]; subst.
  assert (Hin : In (nth (Z.to_nat idx) candidates
                      (mkRect 0 0 0 0, lit0, 0)) candidates)
    by (apply nth_In; lia).
  destruct (nth _ candidates _) as [[box conf] class_id].
  apply IH; [ exact Hrest | ].
  apply Forall_app. split; [ exact Hres | ].
  constructor; [ | constructor ]. now apply HP.
Qed.

(** X26. When the suppression returns only indices of the boxes it is
    given, the objects that [postprocess] returns are numbered
    [0, 1, 2, ...] in the order returned (as [uint32_t]), each has a
    confidence above the threshold, each has [has_3d] unset, and each
    has the name that [getClassName] gives to some class id. *)
Theorem postprocess_results :
  returns_indices NMSBoxes ->
  forall (st : ObjectDetector.t)
         (outputs : list (ObjectDetector.Output (T:=T))) (image : Image)
         (conf_threshold nms_threshold : T),
    let results :=
      postprocess st outputs image conf_threshold nms_threshold in
    map (fun r => ObjectDetector.object_id r) results
    = map (fun k => k mod 2 ^ 32) (range (Z.of_nat (List.length results)))
    /\ Forall (fun r =>
                 flt conf_threshold (ObjectDetector.confidence r) = true
                 /\ ObjectDetector.has_3d r = false
                 /\ exists class_id,
                      ObjectDetector.class_name r
                      = ObjectDetector.getClassName st class_id)
         results.
Proof.
  intros Hnms st outputs image conf_threshold nms_threshold.
  cbv zeta. unfold ObjectDetector.postprocess.
  set (candidates := flat_map _ outputs).
  set (indices := NMSBoxes _ _ _ _).
  split.
  - rewrite results_of_ids. cbn [map List.length app].
    assert (Hlen : forall ids rs,
              List.length (ObjectDetector.results_of st candidates ids rs)
              = (List.length rs + List.length ids)%nat).
    { induction ids as [ | idx rest IH ]; intros rs.
      - cbn. lia.
      - cbn [ObjectDetector.results_of].
        destruct (nth _ candidates _) as [[box conf] class_id].
        rewrite IH, length_app. cbn [List.length]. lia. }
    rewrite Hlen. cbn [List.length Nat.add].
    unfold range. now rewrite Nat2Z.id, map_map.
  - apply results_of_from_candidates; [ | | constructor ].
    + intros id box conf class_id center Hin. cbn.
      split; [ | split; [ reflexivity | now exists class_id ] ].
      unfold candidates in Hin.
      apply in_flat_map in Hin as (output & _ & Hin).
      exact (candidates_of_kept _ _ _ _ _ Hin).
    + pose proof (Hnms (map (fun c => fst (fst c)) candidates)
                    (map (fun c => snd (fst c)) candidates)
                    conf_threshold nms_threshold) as Hr.
      rewrite length_map in Hr. exact Hr.
Qed.

(** X27. [detect] refuses to run without a net: for a detector built
    without the ONNX runtime that has no net, a [loadModel] that returns
    [false] leaves [detect] returning no object and printing
    "Model not loaded"; after one that returns [true], [detect] is
    [postprocess] on the outputs of the forward pass.  When reading the
    model throws, [loadModel] returns [false] but keeps the net that was
    there. *)
Theorem detect_needs_model :
  forall (st : ObjectDetector.t) (model_path : string)
         (read : ObjectDetector.NetRead) (image : Image)
         (confidence_threshold nms_threshold : T),
    ObjectDetector.use_onnx_ st = false ->
    let loaded := ObjectDetector.loadModel (T:=T) st model_path read in
    let ok := fst (fst loaded) in
    let st' := snd (fst loaded) in
    (ok = true ->
     detect st' image confidence_threshold nms_threshold
     = (postprocess st' (forward image (ObjectDetector.input_size_ st'))
          image confidence_threshold nms_threshold, []))
    /\ (ok = false -> ObjectDetector.net_loaded st = false ->
        detect st' image confidence_threshold nms_threshold
        = ([], [Cerr [Str "Model not loaded"]]))
    /\ (forall what, read = ObjectDetector.NetThrew what ->
        ok = false /\ st' = st).
Proof.
  intros st model_path read image confidence_threshold nms_threshold Honnx.
  cbv zeta. unfold ObjectDetector.detect.
  destruct read as [[ | ] | what]; cbn; rewrite ?Honnx; cbn.
  - split; [ discriminate | ]. split; [ reflexivity | discriminate ].
  - split; [ reflexivity | ]. split; discriminate.
  - split; [ discriminate | ]. split.
    + intros _ ->. reflexivity.
    + intros what' _. now split.
Qed.

(** X28. [loadClassNames] adds the lines of the file to the names that
    are there and replaces none: every class id that had a name keeps
    it, the ids after them get the lines in order, and every other id,
    a negative one included, is "Unknown". *)
Theorem loadClassNames_appends :
  forall (st : ObjectDetector.t) (names_file : string)
         (lines : list string),
    let st' :=
      snd (fst (ObjectDetector.loadClassNames (T:=T) st names_file
                  (Some lines))) in
    let n := Z.of_nat (List.length (ObjectDetector.class_names_ st)) in
    (forall class_id, 0 <= class_id < n ->
       ObjectDetector.getClassName st' class_id
       = ObjectDetector.getClassName st class_id)
    /\ (forall k, (k < List.length lines)%nat ->
          ObjectDetector.getClassName st' (n + Z.of_nat k)
          = nth k lines "Unknown"%string)
    /\ (forall class_id,
          class_id < 0
          \/ n + Z.of_nat (List.length lines) <= class_id ->
          ObjectDetector.getClassName st' class_id = "Unknown"%string).
Proof.
  intros st names_file lines. cbv zeta.
  unfold ObjectDetector.getClassName.
  cbn [ObjectDetector.loadClassNames fst snd ObjectDetector.class_names_].
  rewrite length_app, Nat2Z.inj_add.
  set (names := ObjectDetector.class_names_ st).
  split; [ | split ].
  - intros class_id Hid.
    replace (0 <=? class_id) with true by (symmetry; apply Z.leb_le; lia).
    replace (class_id <? _ + _) with true
      by (symmetry; apply Z.ltb_lt; lia).
    replace (class_id <? _) with true by (symmetry; apply Z.ltb_lt; lia).
    cbn [andb]. apply app_nth1. lia.
  - intros k Hk.
    replace (0 <=? _) with true by (symmetry; apply Z.leb_le; lia).
    replace (_ <? _) with true by (symmetry; apply Z.ltb_lt; lia).
    cbn [andb]. rewrite app_nth2 by lia. f_equal. lia.
  - intros class_id [Hneg | Hbig].
    + replace (0 <=? class_id) with false
        by (symmetry; apply Z.leb_gt; lia).
      reflexivity.
    + replace (class_id <? _ + _) with false
        by (symmetry; apply Z.ltb_ge; lia).
      now rewrite andb_false_r.
Qed.

End DetectionResults.

(** ** The detector, run *)

Section DetectionInstances.
Local Open Scope Z_scope.
Local Open Scope string_scope.

Lemma keep_all_returns_indices : returns_indices keep_all.
Proof.
  intros boxes confidences score_threshold nms_threshold.
  unfold keep_all, indices_in_range. apply Forall_forall.
  intros idx Hin. now apply in_range in Hin.
Qed.

Lemma postprocess_results_witness :
  map (fun r => ObjectDetector.object_id r)
      (postprocess64 ObjectDetector.init two_detections tt 0.0625 0.5)
  = [0; 1]
  /\ Forall (fun r =>
               PrimFloat.ltb 0.0625 (ObjectDetector.confidence r) = true)
       (postprocess64 ObjectDetector.init two_detections tt 0.0625 0.5).
Proof.
  destruct (@postprocess_results float _ unit (fun _ => 640) (fun _ => 480)
              keep_all trunc64 keep_all_returns_indices
              ObjectDetector.init two_detections tt 0.0625%float 0.5%float)
    as (Hids & Hall).
  split.
  - etransitivity; [ exact Hids | ]. vm_compute. reflexivity.
  - revert Hall. apply Forall_impl. intros r (Hconf & _). exact Hconf.
Defined.

Lemma detect_needs_model_witness :
  detect64
    (snd (fst (ObjectDetector.loadModel (T:=float) ObjectDetector.init
                 "yolov8n.onnx" (ObjectDetector.NetReturned true))))
    tt 0.5%float 0.5%float
  = ([], [Cerr [Str "Model not loaded"]]).
Proof.
  apply (@detect_needs_model float _ unit (fun _ => 640) (fun _ => 480)
           (fun _ _ => two_detections) keep_all trunc64
           ObjectDetector.init "yolov8n.onnx"
           (ObjectDetector.NetReturned true) tt 0.5%float 0.5%float
           eq_refl);
    reflexivity.
Defined.

End DetectionInstances.
